(** * autork: a shallow embedding of the duel engine

    The development follows [autork/engine.py] and [autork/config.py]:
    [PlayerState] with its economy and purchase methods, and [Engine] with
    command application, neutral allocation, combat, winner determination
    and the match loop.

    Python integers are unbounded and are modelled by [Z].  A command is a
    Python [dict] with string keys and is modelled by [gmap string pyval].
    Every [while] loop of the source is a [Fixpoint] on a fuel argument that
    tests the source's loop condition first; running out of fuel is the
    distinguished outcome [OutOfFuel], an uncaught Python exception is
    [Raise].  The trace sink only receives strings and never feeds back into
    the state, so trace calls are left out of the model.

    Strategy objects may keep state of their own and may share state with
    each other, as the two [RandomStrategy] objects share the generator of
    the [random] module; the shared part is the world [W] that every
    strategy call receives and returns. *)

From Stdlib Require Import ZArith Lia Bool.
From stdpp Require Import base gmap strings list fin_maps.

Local Open Scope Z_scope.

(** ** Python values that may occur in a command *)

Module Py.

(** Exceptions.  The last three derive from [BaseException] only, all
    others from [Exception]. *)
Inductive exn : Type :=
| TypeError           (* int(None) *)
| ValueError          (* int("abc") *)
| OverflowError       (* int(float("inf")) *)
| ZeroDivisionError   (* 1 // 0 *)
| StrategyError       (* any other exception that derives from Exception *)
| SystemExit
| KeyboardInterrupt
| GeneratorExit.

(** [isinstance(e, Exception)], which is what [except Exception] tests. *)
Definition is_Exception (e : exn) : bool :=
  match e with
  | SystemExit | KeyboardInterrupt | GeneratorExit => false
  | _ => true
  end.

(** The values of Python's [Any] a command may hold: integers, booleans,
    [None], and any other object.  The engine looks at a command value in
    two ways only, through [int(v)] and through its truth value, so another
    object is given by what [int] makes of it, a number or an exception,
    and by its truth value, which is taken to be defined.  The float [2.7]
    is [PyOther (inr 2) true], the string ["12"] is [PyOther (inr 12) true],
    the string ["abc"] is [PyOther (inl ValueError) true]. *)
Inductive pyval : Type :=
| PyInt (z : Z)
| PyBool (b : bool)
| PyNone
| PyOther (as_int : exn + Z) (truth : bool).

(** Outcome of running a piece of the engine. *)
Inductive outcome (A : Type) : Type :=
| Ret (a : A)
| Raise (e : exn)
| OutOfFuel.
Arguments Ret {A} a.
Arguments Raise {A} e.
Arguments OutOfFuel {A}.

Definition bind {A B} (m : outcome A) (k : A -> outcome B) : outcome B :=
  match m with
  | Ret a => k a
  | Raise e => Raise e
  | OutOfFuel => OutOfFuel
  end.

(** [int(v)] *)
Definition int (v : pyval) : outcome Z :=
  match v with
  | PyInt z => Ret z
  | PyBool b => Ret (if b then 1 else 0)
  | PyNone => Raise TypeError
  | PyOther (inl e) _ => Raise e
  | PyOther (inr z) _ => Ret z
  end.

(** Truth value of [v], as tested by [if v:]. *)
Definition truthy (v : pyval) : bool :=
  match v with
  | PyInt z => negb (z =? 0)
  | PyBool b => b
  | PyNone => false
  | PyOther _ b => b
  end.

(** Truth value of an integer, as in [if self.attack:]. *)
Definition nonzero (z : Z) : bool := negb (z =? 0).

(** [d.get(k, dflt)] *)
Definition get (d : gmap string pyval) (k : string) (dflt : pyval) : pyval :=
  match d !! k with
  | Some v => v
  | None => dflt
  end.

End Py.
Import Py.

Notation "'do' x <- m ; k" := (bind m (fun x => k))
  (at level 10, x name, m at level 100, k at level 200).

(** ** config.py *)

Record GameSettings : Type := mkSettings {
  MAX_TURNS : Z;
  START_GOLD : Z;
  START_TERRITORY : Z;
  NEUTRAL_TERRITORY : Z;
  START_ATTACK : Z;
  START_DEFENSE : Z;
  GOLD_PER_LAND : Z;
  EXPAND_BASE : Z;
  EXPAND_STEP : Z;
  ATK_BASE : Z;
  ATK_K : Z;
  DEF_BASE : Z;
  DEF_K : Z;
  MAINT_ATK : Z;
  MAINT_DEF : Z;
  SCOUT_COST : Z
}.

Definition settings : GameSettings := {|
  MAX_TURNS := 200;
  START_GOLD := 50;
  START_TERRITORY := 30;
  NEUTRAL_TERRITORY := 40;
  START_ATTACK := 0;
  START_DEFENSE := 0;
  GOLD_PER_LAND := 1;
  EXPAND_BASE := 10;
  EXPAND_STEP := 1;
  ATK_BASE := 20;
  ATK_K := 1;
  DEF_BASE := 9;
  DEF_K := 3;
  MAINT_ATK := 4;
  MAINT_DEF := 1;
  SCOUT_COST := 20
|}.

(** ** engine.py: PlayerState *)

(** [has_enemy_intel] holds the truth value of what the source stores
    there; the source only ever tests that field. *)
Record PlayerState : Type := mkPlayer {
  gold : Z;
  territory : Z;
  attack : Z;
  defense : Z;
  expanded_total : Z;
  pending_expands : Z;
  has_enemy_intel : bool
}.

Definition PlayerState_init (cfg : GameSettings) : PlayerState := {|
  gold := START_GOLD cfg;
  territory := START_TERRITORY cfg;
  attack := START_ATTACK cfg;
  defense := START_DEFENSE cfg;
  expanded_total := 0;
  pending_expands := 0;
  has_enemy_intel := false
|}.

Definition set_gold (v : Z) (p : PlayerState) : PlayerState :=
  mkPlayer v (territory p) (attack p) (defense p) (expanded_total p)
           (pending_expands p) (has_enemy_intel p).
Definition set_territory (v : Z) (p : PlayerState) : PlayerState :=
  mkPlayer (gold p) v (attack p) (defense p) (expanded_total p)
           (pending_expands p) (has_enemy_intel p).
Definition set_attack (v : Z) (p : PlayerState) : PlayerState :=
  mkPlayer (gold p) (territory p) v (defense p) (expanded_total p)
           (pending_expands p) (has_enemy_intel p).
Definition set_defense (v : Z) (p : PlayerState) : PlayerState :=
  mkPlayer (gold p) (territory p) (attack p) v (expanded_total p)
           (pending_expands p) (has_enemy_intel p).
Definition set_expanded_total (v : Z) (p : PlayerState) : PlayerState :=
  mkPlayer (gold p) (territory p) (attack p) (defense p) v
           (pending_expands p) (has_enemy_intel p).
Definition set_pending_expands (v : Z) (p : PlayerState) : PlayerState :=
  mkPlayer (gold p) (territory p) (attack p) (defense p) (expanded_total p)
           v (has_enemy_intel p).
Definition set_has_enemy_intel (v : bool) (p : PlayerState) : PlayerState :=
  mkPlayer (gold p) (territory p) (attack p) (defense p) (expanded_total p)
           (pending_expands p) v.

(** *** Economy *)

Definition income (cfg : GameSettings) (p : PlayerState) : Z :=
  territory p * GOLD_PER_LAND cfg.

Definition upkeep_cost (cfg : GameSettings) (p : PlayerState) : Z :=
  attack p * MAINT_ATK cfg + defense p * MAINT_DEF cfg.

(** The [while deficit > 0 and (self.attack or self.defense)] loop of
    [apply_upkeep]. *)
Fixpoint upkeep_loop (fuel : nat) (cfg : GameSettings) (deficit : Z)
    (p : PlayerState) : outcome PlayerState :=
  if (0 <? deficit) && (nonzero (attack p) || nonzero (defense p)) then
    match fuel with
    | O => OutOfFuel
    | S fuel' =>
        if nonzero (attack p) then
          upkeep_loop fuel' cfg (deficit - MAINT_ATK cfg)
            (set_gold (gold p + MAINT_ATK cfg) (set_attack (attack p - 1) p))
        else if nonzero (defense p) then
          upkeep_loop fuel' cfg (deficit - MAINT_DEF cfg)
            (set_gold (gold p + MAINT_DEF cfg) (set_defense (defense p - 1) p))
        else upkeep_loop fuel' cfg deficit p
    end
  else Ret p.

Definition apply_upkeep (fuel : nat) (cfg : GameSettings) (p : PlayerState)
    : outcome PlayerState :=
  let p := set_gold (gold p - upkeep_cost cfg p) p in
  if 0 <=? gold p then Ret p
  else
    let deficit := - gold p in
    do p <- upkeep_loop fuel cfg deficit p;
    Ret (if gold p <? 0 then set_gold 0 p else p).

(** The same loop, additionally recording which kind of unit each
    iteration disbands.  The record is ghost state: erasing it gives
    [upkeep_loop] back, see [upkeep_loop_log_erase]. *)
Inductive unit_kind : Type := AttackUnit | DefenseUnit.

Fixpoint upkeep_loop_log (fuel : nat) (cfg : GameSettings) (deficit : Z)
    (p : PlayerState) : outcome (PlayerState * list unit_kind) :=
  if (0 <? deficit) && (nonzero (attack p) || nonzero (defense p)) then
    match fuel with
    | O => OutOfFuel
    | S fuel' =>
        if nonzero (attack p) then
          do r <- upkeep_loop_log fuel' cfg (deficit - MAINT_ATK cfg)
            (set_gold (gold p + MAINT_ATK cfg) (set_attack (attack p - 1) p));
          Ret (fst r, AttackUnit :: snd r)
        else if nonzero (defense p) then
          do r <- upkeep_loop_log fuel' cfg (deficit - MAINT_DEF cfg)
            (set_gold (gold p + MAINT_DEF cfg) (set_defense (defense p - 1) p));
          Ret (fst r, DefenseUnit :: snd r)
        else upkeep_loop_log fuel' cfg deficit p
    end
  else Ret (p, []).

Definition apply_upkeep_log (fuel : nat) (cfg : GameSettings) (p : PlayerState)
    : outcome (PlayerState * list unit_kind) :=
  let p := set_gold (gold p - upkeep_cost cfg p) p in
  if 0 <=? gold p then Ret (p, [])
  else
    let deficit := - gold p in
    do r <- upkeep_loop_log fuel cfg deficit p;
    Ret (if gold (fst r) <? 0 then set_gold 0 (fst r) else fst r, snd r).

(** *** Purchases *)

(** Price of the next cell, [extra] cells already requested this turn. *)
Definition expand_price (cfg : GameSettings) (p : PlayerState) (extra : Z) : Z :=
  EXPAND_BASE cfg + EXPAND_STEP cfg * (expanded_total p + extra).

(** The [while bought < wanted] loop of [pay_for_expands]; the [break]
    leaves the loop with the current [bought]. *)
Fixpoint pay_loop (fuel : nat) (cfg : GameSettings) (wanted bought : Z)
    (p : PlayerState) : outcome (Z * PlayerState) :=
  if bought <? wanted then
    match fuel with
    | O => OutOfFuel
    | S fuel' =>
        let cost := expand_price cfg p bought in
        if gold p <? cost then Ret (bought, p)
        else pay_loop fuel' cfg wanted (bought + 1) (set_gold (gold p - cost) p)
    end
  else Ret (bought, p).

Definition pay_for_expands (fuel : nat) (cfg : GameSettings) (wanted : Z)
    (p : PlayerState) : outcome (Z * PlayerState) :=
  do r <- pay_loop fuel cfg wanted 0 p;
  Ret (fst r, set_pending_expands (fst r) (snd r)).

Definition _attack_price (cfg : GameSettings) (p : PlayerState) : Z :=
  ATK_BASE cfg + ATK_K cfg * attack p.

Definition _defense_price (cfg : GameSettings) (p : PlayerState) : Z :=
  DEF_BASE cfg + DEF_K cfg * defense p.

(** [while gold_limit - spent >= self._attack_price()] *)
Fixpoint buy_attack_loop (fuel : nat) (cfg : GameSettings) (gold_limit spent : Z)
    (p : PlayerState) : outcome (Z * PlayerState) :=
  if _attack_price cfg p <=? gold_limit - spent then
    match fuel with
    | O => OutOfFuel
    | S fuel' =>
        let price := _attack_price cfg p in
        buy_attack_loop fuel' cfg gold_limit (spent + price)
          (set_attack (attack p + 1) p)
    end
  else Ret (spent, p).

Definition buy_attack (fuel : nat) (cfg : GameSettings) (gold_limit : Z)
    (p : PlayerState) : outcome (Z * PlayerState) :=
  do r <- buy_attack_loop fuel cfg gold_limit 0 p;
  Ret (fst r, set_gold (gold (snd r) - fst r) (snd r)).

(** [while gold_limit - spent >= self._defense_price()] *)
Fixpoint buy_defense_loop (fuel : nat) (cfg : GameSettings) (gold_limit spent : Z)
    (p : PlayerState) : outcome (Z * PlayerState) :=
  if _defense_price cfg p <=? gold_limit - spent then
    match fuel with
    | O => OutOfFuel
    | S fuel' =>
        let price := _defense_price cfg p in
        buy_defense_loop fuel' cfg gold_limit (spent + price)
          (set_defense (defense p + 1) p)
    end
  else Ret (spent, p).

Definition buy_defense (fuel : nat) (cfg : GameSettings) (gold_limit : Z)
    (p : PlayerState) : outcome (Z * PlayerState) :=
  do r <- buy_defense_loop fuel cfg gold_limit 0 p;
  Ret (fst r, set_gold (gold (snd r) - fst r) (snd r)).

(** Python's [//] rounds towards minus infinity, as [Z.div] does. *)
Definition _refund_attack (cfg : GameSettings) (units : Z) (p : PlayerState)
    : Z * PlayerState :=
  let units := Z.max 0 (Z.min units (attack p)) in
  let refund := units * (ATK_BASE cfg / 2) in
  (refund, set_gold (gold p + refund) (set_attack (attack p - units) p)).

Definition _refund_defense (cfg : GameSettings) (units : Z) (p : PlayerState)
    : Z * PlayerState :=
  let units := Z.max 0 (Z.min units (defense p)) in
  let refund := units * (DEF_BASE cfg / 2) in
  (refund, set_gold (gold p + refund) (set_defense (defense p - units) p)).

(** ** engine.py: Engine *)

(** The four public figures of a player, as they appear in a history
    snapshot and in the match result. *)
Record PlayerView : Type := mkView {
  view_territory : Z;
  view_gold : Z;
  view_attack : Z;
  view_defense : Z
}.

Definition view_of (p : PlayerState) : PlayerView :=
  mkView (territory p) (gold p) (attack p) (defense p).

Record Snapshot : Type := mkSnapshot {
  snap_turn : Z;
  snap_neutral : Z;
  snap_p1 : PlayerView;
  snap_p2 : PlayerView
}.

Record Engine : Type := mkEngine {
  turn : Z;
  neutral_territory : Z;
  p1 : PlayerState;
  p2 : PlayerState;
  history : list Snapshot
}.

Definition set_turn (v : Z) (e : Engine) : Engine :=
  mkEngine v (neutral_territory e) (p1 e) (p2 e) (history e).
Definition set_neutral_territory (v : Z) (e : Engine) : Engine :=
  mkEngine (turn e) v (p1 e) (p2 e) (history e).
Definition set_p1 (v : PlayerState) (e : Engine) : Engine :=
  mkEngine (turn e) (neutral_territory e) v (p2 e) (history e).
Definition set_p2 (v : PlayerState) (e : Engine) : Engine :=
  mkEngine (turn e) (neutral_territory e) (p1 e) v (history e).
Definition set_history (v : list Snapshot) (e : Engine) : Engine :=
  mkEngine (turn e) (neutral_territory e) (p1 e) (p2 e) v.

Definition _record_snapshot (e : Engine) : Engine :=
  set_history
    (history e ++
       [ {| snap_turn := turn e;
            snap_neutral := neutral_territory e;
            snap_p1 := view_of (p1 e);
            snap_p2 := view_of (p2 e) |} ])
    e.

Definition reset (cfg : GameSettings) : Engine :=
  _record_snapshot
    {| turn := 0;
       neutral_territory := NEUTRAL_TERRITORY cfg;
       p1 := PlayerState_init cfg;
       p2 := PlayerState_init cfg;
       history := [] |}.

(** *** Observations *)

Record Prices : Type := mkPrices {
  price_expand_next : Z;
  price_buy_attack : Z;
  price_buy_defense : Z;
  price_scout : Z
}.

(** What intel reveals about the enemy beyond its territory. *)
Record EnemyIntel : Type := mkIntel {
  intel_gold : Z;
  intel_attack : Z;
  intel_defense : Z
}.

Record Observation : Type := mkObs {
  obs_turn : Z;
  obs_my : PlayerView;
  obs_enemy_territory : Z;
  obs_enemy_intel : option EnemyIntel;
  obs_neutral_territory : Z;
  obs_prices : Prices;
  obs_limits_gold : Z
}.

Definition _prepare_obs (cfg : GameSettings) (e : Engine)
    (me enemy : PlayerState) : Observation * Prices :=
  let prices :=
    {| price_expand_next := expand_price cfg me 0;
       price_buy_attack := _attack_price cfg me;
       price_buy_defense := _defense_price cfg me;
       price_scout := SCOUT_COST cfg |} in
  ({| obs_turn := turn e;
      obs_my := view_of me;
      obs_enemy_territory := territory enemy;
      obs_enemy_intel :=
        if has_enemy_intel me
        then Some (mkIntel (gold enemy) (attack enemy) (defense enemy))
        else None;
      obs_neutral_territory := neutral_territory e;
      obs_prices := prices;
      obs_limits_gold := gold me |},
   prices).

Inductive player_id : Type := P1 | P2.

Definition _observation (cfg : GameSettings) (e : Engine) (pid : player_id)
    : Observation :=
  fst (match pid with
       | P1 => _prepare_obs cfg e (p1 e) (p2 e)
       | P2 => _prepare_obs cfg e (p2 e) (p1 e)
       end).

(** *** strategy.py: the Strategy interface *)

(** What a call of [step] comes back with. *)
Inductive step_return : Type :=
| ReturnsDict (cmd : gmap string pyval)
| ReturnsOther            (* a value that is not a dict *)
| StepRaises (e : exn).   (* an exception *)

(** A strategy object with internal state of type [S], in a world of type
    [W] that it shares with the other strategy object.  [strat_reset] gives
    [inl e] when [reset] raises [e].  [strat_step] always gives the world
    and the state the call leaves behind, also when [step] raises. *)
Record Strategy (W S : Type) : Type := mkStrategy {
  strat_reset : W -> S -> Observation -> exn + (W * S);
  strat_step : W -> S -> Observation -> (W * S) * step_return
}.
Arguments strat_reset {W S} _ _ _ _.
Arguments strat_step {W S} _ _ _ _.
Arguments mkStrategy {W S} _ _.

(** [except Exception] catches what derives from [Exception], the
    [TypeError] raised for a result that is not a dict included; any other
    exception leaves [_safe_step]. *)
Definition _safe_step {W S} (strat : Strategy W S) (w : W) (st : S)
    (obs : Observation) : outcome ((W * S) * gmap string pyval) :=
  match strat_step strat w st obs with
  | (ws, ReturnsDict res) => Ret (ws, res)
  | (ws, ReturnsOther) => Ret (ws, ∅)
  | (ws, StepRaises exc) =>
      if is_Exception exc then Ret (ws, ∅) else Raise exc
  end.

(** *** Commands *)

(** [max(0, int(cmd.get(key, 0)))] *)
Definition cmd_amount (cmd : gmap string pyval) (key : string) : outcome Z :=
  do v <- int (get cmd key (PyInt 0));
  Ret (Z.max 0 v).

(** [cmd.get("scout", False)], as a truth value. *)
Definition cmd_scout (cmd : gmap string pyval) : bool :=
  truthy (get cmd "scout" (PyBool false)).

(** The object a [player] argument refers to, [self.p1] or [self.p2], and
    the engine after that object has been updated. *)
Definition player_of (player : player_id) (e : Engine) : PlayerState :=
  match player with
  | P1 => p1 e
  | P2 => p2 e
  end.

Definition set_player (player : player_id) (v : PlayerState) (e : Engine)
    : Engine :=
  match player with
  | P1 => set_p1 v e
  | P2 => set_p2 v e
  end.

(** [Engine._apply_commands(self, player, cmd, prices, pid=...)], where
    [player] is [self.p1] or [self.p2]: every method call and assignment
    on [player] updates that object inside the engine.  [prices] is a
    parameter the source never reads, [pid] only goes into traces. *)
Definition _apply_commands (fuel : nat) (cfg : GameSettings)
    (self : Engine) (player : player_id) (cmd : gmap string pyval)
    (prices : Prices) : outcome Engine :=
  do sell_atk <- cmd_amount cmd "sell_attack";
  let self :=
    if nonzero sell_atk
    then set_player player
           (snd (_refund_attack cfg sell_atk (player_of player self))) self
    else self in
  do sell_def <- cmd_amount cmd "sell_defense";
  let self :=
    if nonzero sell_def
    then set_player player
           (snd (_refund_defense cfg sell_def (player_of player self))) self
    else self in
  do want_expand <- cmd_amount cmd "expand";
  do r <- pay_for_expands fuel cfg want_expand (player_of player self);
  let self := set_player player (snd r) self in
  let self :=
    if cmd_scout cmd then
      if SCOUT_COST cfg <=? gold (player_of player self)
      then set_player player
             (set_gold (gold (player_of player self) - SCOUT_COST cfg)
                (player_of player self)) self
      else self
    else self in
  do atk_spend <- cmd_amount cmd "spend_attack";
  let atk_spend := Z.min atk_spend (gold (player_of player self)) in
  do r <- buy_attack fuel cfg atk_spend (player_of player self);
  let self := set_player player (snd r) self in
  do def_spend <- cmd_amount cmd "spend_defense";
  let def_spend := Z.min def_spend (gold (player_of player self)) in
  do r <- buy_defense fuel cfg def_spend (player_of player self);
  let self := set_player player (snd r) self in
  Ret self.

(** *** Neutral allocation *)

Definition _allocate_neutral (e : Engine) : Engine :=
  let a1 := pending_expands (p1 e) in
  let a2 := pending_expands (p2 e) in
  let N := neutral_territory e in
  let contested := Z.min (Z.min a1 a2) N in
  let remaining_neutral := N - contested in
  let r1_unique := a1 - contested in
  let r2_unique := a2 - contested in
  let give1 := Z.min r1_unique remaining_neutral in
  let remaining_neutral := remaining_neutral - give1 in
  let give2 := Z.min r2_unique remaining_neutral in
  let remaining_neutral := remaining_neutral - give2 in
  let e := set_p1 (set_expanded_total (expanded_total (p1 e) + give1)
                     (set_territory (territory (p1 e) + give1) (p1 e))) e in
  let e := set_p2 (set_expanded_total (expanded_total (p2 e) + give2)
                     (set_territory (territory (p2 e) + give2) (p2 e))) e in
  let e := set_neutral_territory (remaining_neutral + contested) e in
  let e := set_p1 (set_pending_expands 0 (p1 e)) e in
  let e := set_p2 (set_pending_expands 0 (p2 e)) e in
  e.

(** *** Combat *)

Definition _resolve_combat (e : Engine) : Engine :=
  let dmg12 := Z.max 0 (attack (p1 e) - defense (p2 e)) in
  let dmg21 := Z.max 0 (attack (p2 e) - defense (p1 e)) in
  let loss1 := Z.min dmg21 (territory (p1 e)) in
  let loss2 := Z.min dmg12 (territory (p2 e)) in
  let e := set_p1 (set_territory (territory (p1 e) - loss1) (p1 e)) e in
  let e := set_p2 (set_territory (territory (p2 e) - loss2) (p2 e)) e in
  let e := set_neutral_territory (neutral_territory e + (loss1 + loss2)) e in
  e.

(** *** Winner and result *)

Definition _check_winner (e : Engine) (is_end : bool) : option string :=
  if (territory (p1 e) =? 0) && (territory (p2 e) =? 0) then Some "draw"%string
  else if territory (p1 e) =? 0 then Some "player2"%string
  else if territory (p2 e) =? 0 then Some "player1"%string
  else if is_end then
    let g1 := gold (p1 e) in
    let g2 := gold (p2 e) in
    if g1 =? g2 then Some "draw"%string
    else if g2 <? g1 then Some "player1"%string
    else Some "player2"%string
  else None.

Definition _winner_declared (e : Engine) : bool :=
  match _check_winner e false with
  | Some _ => true
  | None => false
  end.

Record Result : Type := mkResult {
  winner : option string;
  turns : Z;
  neutral : Z;
  result_p1 : PlayerView;
  result_p2 : PlayerView
}.

Definition _result (e : Engine) (is_end : bool) : Result :=
  {| winner := _check_winner e is_end;
     turns := turn e;
     neutral := neutral_territory e;
     result_p1 := view_of (p1 e);
     result_p2 := view_of (p2 e) |}.

(** *** The turn and the match *)

(** Step 1 of [_play_turn] for one player: income, then upkeep. *)
Definition collect_and_pay (fuel : nat) (cfg : GameSettings) (pl : PlayerState)
    : outcome PlayerState :=
  apply_upkeep fuel cfg (set_gold (gold pl + income cfg pl) pl).

(** The engine together with the world its two strategy objects share
    and the internal states of [self.s1] and [self.s2]. *)
Record Match (W S1 S2 : Type) : Type := mkMatch {
  engine : Engine;
  world : W;
  state1 : S1;
  state2 : S2
}.
Arguments mkMatch {W S1 S2} _ _ _ _.
Arguments engine {W S1 S2} _.
Arguments world {W S1 S2} _.
Arguments state1 {W S1 S2} _.
Arguments state2 {W S1 S2} _.

Definition _play_turn {W S1 S2} (fuel : nat) (cfg : GameSettings)
    (s1 : Strategy W S1) (s2 : Strategy W S2) (m : Match W S1 S2)
    : outcome (Match W S1 S2) :=
  let e := engine m in
  (* 1. economy and upkeep *)
  do pl <- collect_and_pay fuel cfg (p1 e);
  let e := set_p1 pl e in
  do pl <- collect_and_pay fuel cfg (p2 e);
  let e := set_p2 pl e in
  (* 2. observations and commands *)
  let op1 := _prepare_obs cfg e (p1 e) (p2 e) in
  let op2 := _prepare_obs cfg e (p2 e) (p1 e) in
  do sc1 <- _safe_step s1 (world m) (state1 m) (fst op1);
  do sc2 <- _safe_step s2 (fst (fst sc1)) (state2 m) (fst op2);
  let cmd1 := snd sc1 in
  let cmd2 := snd sc2 in
  (* 3. commands: money only, the neutral pool is not touched *)
  do e <- _apply_commands fuel cfg e P1 cmd1 (snd op1);
  do e <- _apply_commands fuel cfg e P2 cmd2 (snd op2);
  (* 4. neutral territory *)
  let e := _allocate_neutral e in
  (* 5. combat *)
  let e := _resolve_combat e in
  (* 6. intel *)
  let e := set_p1 (set_has_enemy_intel (cmd_scout cmd1) (p1 e)) e in
  let e := set_p2 (set_has_enemy_intel (cmd_scout cmd2) (p2 e)) e in
  Ret (mkMatch e (fst (fst sc2)) (snd (fst sc1)) (snd (fst sc2))).

(** [Engine._handle_gui_events] of the base class. *)
Definition _handle_gui_events (e : Engine) : bool := true.

(** The [while self.turn < self.cfg.MAX_TURNS] loop of [run]. *)
Fixpoint run_loop {W S1 S2} (fuel : nat) (cfg : GameSettings)
    (s1 : Strategy W S1) (s2 : Strategy W S2) (m : Match W S1 S2)
    : outcome (Match W S1 S2) :=
  if turn (engine m) <? MAX_TURNS cfg then
    match fuel with
    | O => OutOfFuel
    | S fuel' =>
        if negb (_handle_gui_events (engine m)) then Ret m
        else
          let m := mkMatch (set_turn (turn (engine m) + 1) (engine m))
                           (world m) (state1 m) (state2 m) in
          do m <- _play_turn fuel' cfg s1 s2 m;
          if _winner_declared (engine m) then Ret m
          else run_loop fuel' cfg s1 s2 m
    end
  else Ret m.

(** [Engine.run]: the result it returns, and the match it leaves behind.
    An exception raised by [reset] is not handled. *)
Definition run {W S1 S2} (fuel : nat) (cfg : GameSettings)
    (s1 : Strategy W S1) (s2 : Strategy W S2) (w : W) (st1 : S1) (st2 : S2)
    : outcome (Result * Match W S1 S2) :=
  let e := reset cfg in
  match strat_reset s1 w st1 (_observation cfg e P1) with
  | inl exc => Raise exc
  | inr ws1 =>
      match strat_reset s2 (fst ws1) st2 (_observation cfg e P2) with
      | inl exc => Raise exc
      | inr ws2 =>
          do m <- run_loop fuel cfg s1 s2
                    (mkMatch e (fst ws2) (snd ws1) (snd ws2));
          Ret (_result (engine m) true, m)
      end
  end.

(** ** Strategies used in the examples below *)

(** tests/test_engine.py, [DummyStrategy]: the empty command every turn. *)
Definition DummyStrategy {W : Type} : Strategy W unit :=
  mkStrategy (fun w st _ => inr (w, st))
             (fun w st _ => ((w, st), ReturnsDict ∅)).

(** The same command every turn. *)
Definition ConstStrategy {W : Type} (cmd : gmap string pyval)
    : Strategy W unit :=
  mkStrategy (fun w st _ => inr (w, st))
             (fun w st _ => ((w, st), ReturnsDict cmd)).




(** strategy.py, [GreedyExpansionStrategy]: bid for as many cells as the
    gold pays at the quoted price, at most the neutral pool.  Python's
    [//] raises ZeroDivisionError on a zero price. *)
Definition GreedyExpansionStrategy {W : Type} : Strategy W unit :=
  mkStrategy
    (fun w st _ => inr (w, st))
    (fun w st obs =>
       let gold := view_gold (obs_my obs) in
       let neutral := obs_neutral_territory obs in
       let price := price_expand_next (obs_prices obs) in
       if price =? 0 then ((w, st), StepRaises ZeroDivisionError)
       else
         let plan := Z.min neutral (gold / price) in
         ((w, st),
          ReturnsDict
            (<[ "expand"%string := PyInt plan ]>
               (<[ "spend_attack"%string := PyInt 0 ]>
                  (<[ "spend_defense"%string := PyInt 0 ]>
                     {[ "scout"%string := PyBool false ]}))))).

(** strategy.py, [RandomStrategy].  The generator of the [random] module,
    which all [RandomStrategy] objects share, is the world: a sequence of
    draws and a position in it.  A choice among [n] options takes the next
    draw modulo [n].  The objects have no state of their own. *)
Definition draws : Type := ((nat -> nat) * nat)%type.

Definition choice (n : nat) (st : draws) : nat * draws :=
  ((fst st (snd st) mod n)%nat, (fst st, S (snd st))).

Definition random_base : gmap string pyval :=
  <[ "expand"%string := PyInt 0 ]>
    (<[ "spend_attack"%string := PyInt 0 ]>
       (<[ "spend_defense"%string := PyInt 0 ]>
          {[ "scout"%string := PyBool false ]})).

Definition RandomStrategy : Strategy draws unit :=
  mkStrategy
    (fun w st _ => inr (w, st))
    (fun w st obs =>
       let prices := obs_prices obs in
       let gold := obs_limits_gold obs in
       let c := choice 3 w in
       let whatdo_price :=
         match fst c with
         | O => ("expand"%string, price_expand_next prices)
         | S O => ("spend_attack"%string, price_buy_attack prices)
         | _ => ("spend_defense"%string, price_buy_defense prices)
         end in
       if snd whatdo_price <=? gold then
         ((snd c, st),
          ReturnsDict
            (<[ fst whatdo_price := PyInt (snd whatdo_price) ]> random_base))
       else
         let c2 := choice 2 (snd c) in
         let whatdo :=
           match fst c2 with
           | O => "sell_attack"%string
           | _ => "sell_defense"%string
           end in
         ((snd c2, st), ReturnsDict (<[ whatdo := PyInt 1 ]> random_base))).

(** tests/test_engine.py, [test_upkeep_auto_demobilise] *)
Definition demobilise_player : PlayerState :=
  {| gold := 2; territory := 30; attack := 3; defense := 2;
     expanded_total := 0; pending_expands := 0; has_enemy_intel := false |}.

(** A command that bids for six cells and asks for a scout. *)
Definition expand6_scout : gmap string pyval :=
  <[ "expand"%string := PyInt 6 ]> {[ "scout"%string := PyBool true ]}.

(** tests/test_engine.py, [test_resolve_combat_shift_territory] *)
Definition combat_engine : Engine :=
  {| turn := 0;
     neutral_territory := 0;
     p1 := {| gold := 50; territory := 30; attack := 12; defense := 5;
              expanded_total := 0; pending_expands := 0;
              has_enemy_intel := false |};
     p2 := {| gold := 50; territory := 30; attack := 5; defense := 10;
              expanded_total := 0; pending_expands := 0;
              has_enemy_intel := false |};
     history := [] |}.

(** tests/test_engine.py, [test_winner_detection_by_gold_on_timeout] *)
Definition timeout_engine : Engine :=
  set_p1 (set_gold 100 (PlayerState_init settings))
    (set_p2 (set_gold 50 (PlayerState_init settings)) (reset settings)).

(** A pool of ten cells for which player 1 bids 9 and player 2 bids 7. *)
Definition crowded_engine : Engine :=
  set_neutral_territory 10
    (set_p1 (set_pending_expands 9 (PlayerState_init settings))
       (set_p2 (set_pending_expands 7 (PlayerState_init settings))
          (reset settings))).

(** Two attack units, one defense unit and ten gold. *)
Definition veteran_player : PlayerState :=
  {| gold := 10; territory := 30; attack := 2; defense := 1;
     expanded_total := 0; pending_expands := 0; has_enemy_intel := false |}.

(** A command that spends on both kinds of units. *)
Definition arm_cmd : gmap string pyval :=
  <[ "spend_attack"%string := PyInt 40 ]>
    {[ "spend_defense"%string := PyInt 15 ]}.

(** A dict, but with [None] where a number is expected. *)
Definition none_cmd : gmap string pyval :=
  {[ "expand"%string := PyNone ]}.

(** The command [{"expand": "abc"}]: [int] raises ValueError. *)
Definition word_cmd : gmap string pyval :=
  {[ "expand"%string := PyOther (inl ValueError) true ]}.


(** A command that asks to sell more units of either kind than the
    veteran holds, and bids for a negative number of cells. *)
Definition liquidate_cmd : gmap string pyval :=
  <[ "sell_attack"%string := PyInt 5 ]>
    (<[ "sell_defense"%string := PyInt 7 ]>
       {[ "expand"%string := PyInt (-3) ]}).

(** An engine whose first player is the veteran. *)
Definition veteran_engine : Engine :=
  set_p1 veteran_player (reset settings).

(** A command with a field the engine does not know. *)
Definition dance_cmd : gmap string pyval :=
  <[ "dance"%string := PyNone ]> arm_cmd.

(** A command that only asks for a scout. *)
Definition scout_cmd : gmap string pyval :=
  {[ "scout"%string := PyBool true ]}.

(** The prices a fresh player is quoted under the default settings. *)
Definition start_prices : Prices :=
  snd (_prepare_obs settings (reset settings) (PlayerState_init settings)
         (PlayerState_init settings)).

(** ** Frame conditions used in the statements below *)

(** [q] differs from [p] at most in its gold. *)
Definition same_but_gold (p q : PlayerState) : Prop :=
  territory q = territory p /\ attack q = attack p
  /\ defense q = defense p /\ expanded_total q = expanded_total p
  /\ pending_expands q = pending_expands p
  /\ has_enemy_intel q = has_enemy_intel p.

(** [q] differs from [p] at most in its attack units. *)
Definition same_but_attack (p q : PlayerState) : Prop :=
  gold q = gold p /\ territory q = territory p
  /\ defense q = defense p /\ expanded_total q = expanded_total p
  /\ pending_expands q = pending_expands p
  /\ has_enemy_intel q = has_enemy_intel p.

(** [q] differs from [p] at most in its defense units. *)
Definition same_but_defense (p q : PlayerState) : Prop :=
  gold q = gold p /\ territory q = territory p
  /\ attack q = attack p /\ expanded_total q = expanded_total p
  /\ pending_expands q = pending_expands p
  /\ has_enemy_intel q = has_enemy_intel p.

(** What the body of [_apply_commands] does to the player it is handed,
    as a function of that player alone.  This is not the embedding of the
    source; [_apply_commands_on_player] proves that the body does this to
    [player] and nothing to the rest of the engine. *)
Definition apply_commands_on (fuel : nat) (cfg : GameSettings)
    (player : PlayerState) (cmd : gmap string pyval) (prices : Prices)
    : outcome PlayerState :=
  do sell_atk <- cmd_amount cmd "sell_attack";
  let player :=
    if nonzero sell_atk then snd (_refund_attack cfg sell_atk player)
    else player in
  do sell_def <- cmd_amount cmd "sell_defense";
  let player :=
    if nonzero sell_def then snd (_refund_defense cfg sell_def player)
    else player in
  do want_expand <- cmd_amount cmd "expand";
  do r <- pay_for_expands fuel cfg want_expand player;
  let player := snd r in
  let player :=
    if cmd_scout cmd then
      if SCOUT_COST cfg <=? gold player
      then set_gold (gold player - SCOUT_COST cfg) player
      else player
    else player in
  do atk_spend <- cmd_amount cmd "spend_attack";
  let atk_spend := Z.min atk_spend (gold player) in
  do r <- buy_attack fuel cfg atk_spend player;
  let player := snd r in
  do def_spend <- cmd_amount cmd "spend_defense";
  let def_spend := Z.min def_spend (gold player) in
  do r <- buy_defense fuel cfg def_spend player;
  let player := snd r in
  Ret player.

(** The player after the two sales of a command that asks to sell
    [sell_atk] attack units and [sell_def] defense units. *)
Definition after_sales (cfg : GameSettings) (sell_atk sell_def : Z)
    (p : PlayerState) : PlayerState :=
  let p := if nonzero sell_atk then snd (_refund_attack cfg sell_atk p)
           else p in
  if nonzero sell_def then snd (_refund_defense cfg sell_def p) else p.

(** The command with its two sale amounts set to zero. *)
Definition without_sales (cmd : gmap string pyval) : gmap string pyval :=
  <[ "sell_attack"%string := PyInt 0 ]>
    (<[ "sell_defense"%string := PyInt 0 ]> cmd).

(** No field of [p] that counts gold or units is negative. *)
Definition nonneg_player (p : PlayerState) : Prop :=
  0 <= gold p /\ 0 <= attack p /\ 0 <= defense p.

(** The five command fields the engine passes to [int]. *)
Definition amount_keys : list string :=
  ["sell_attack"; "sell_defense"; "expand"; "spend_attack";
   "spend_defense"]%string.

(** [int] accepts every amount field of [cmd] that is present: it holds
    an integer, a boolean, or another object that [int] turns into a
    number, such as a finite float or a numeric string. *)
Definition cmd_numeric (cmd : gmap string pyval) : bool :=
  forallb
    (fun key => match int (get cmd key (PyInt 0)) with
                | Ret _ => true
                | _ => false
                end)
    amount_keys.

(** Neither player holds a negative number of units. *)
Definition units_nonneg (e : Engine) : Prop :=
  0 <= attack (p1 e) /\ 0 <= defense (p1 e)
  /\ 0 <= attack (p2 e) /\ 0 <= defense (p2 e).

(** Every dict that [step] returns has amounts that [int] accepts. *)
Definition steps_numeric {W S} (s : Strategy W S) : Prop :=
  forall w st obs ws cmd,
    strat_step s w st obs = (ws, ReturnsDict cmd) -> cmd_numeric cmd = true.

(** Every exception that [step] raises derives from [Exception]. *)
Definition steps_raise_exceptions {W S} (s : Strategy W S) : Prop :=
  forall w st obs ws exc,
    strat_step s w st obs = (ws, StepRaises exc) -> is_Exception exc = true.

(** [reset] never raises. *)
Definition resets_return {W S} (s : Strategy W S) : Prop :=
  forall w st obs, exists ws, strat_reset s w st obs = inr ws.

(** Neither [reset] nor [step] changes the world the strategy objects
    share. *)
Definition leaves_world {W S} (s : Strategy W S) : Prop :=
  (forall w st obs ws, strat_reset s w st obs = inr ws -> fst ws = w)
  /\ (forall w st obs, fst (fst (strat_step s w st obs)) = w).

(** ** Sums and symmetries used in the statements below *)

(** [f start + f (start + 1) + ... + f (start + n - 1)] *)
Fixpoint sum_from (f : Z -> Z) (start : Z) (n : nat) : Z :=
  match n with
  | O => 0
  | S n' => f start + sum_from f (start + 1) n'
  end.

(** The upkeep rate a disbanded unit gives back. *)
Definition refund_of (cfg : GameSettings) (u : unit_kind) : Z :=
  match u with
  | AttackUnit => MAINT_ATK cfg
  | DefenseUnit => MAINT_DEF cfg
  end.

Fixpoint refunds (cfg : GameSettings) (l : list unit_kind) : Z :=
  match l with
  | [] => 0
  | u :: l' => refund_of cfg u + refunds cfg l'
  end.

(** The engine seen from the other side: the two players exchanged. *)
Definition swap_players (e : Engine) : Engine :=
  mkEngine (turn e) (neutral_territory e) (p2 e) (p1 e) (history e).

Definition swap_winner (w : option string) : option string :=
  match w with
  | Some s =>
      if String.eqb s "player1" then Some "player2"%string
      else if String.eqb s "player2" then Some "player1"%string
      else Some s
  | None => None
  end.

(** All cells of the map: both territories and the neutral pool. *)
Definition total_cells (e : Engine) : Z :=
  territory (p1 e) + territory (p2 e) + neutral_territory e.

(** The data invariant of a match between turns: no negative gold, units,
    territory or pool, and no bid pending. *)
Definition state_ok (e : Engine) : Prop :=
  nonneg_player (p1 e) /\ nonneg_player (p2 e)
  /\ 0 <= territory (p1 e) /\ 0 <= territory (p2 e)
  /\ 0 <= neutral_territory e
  /\ pending_expands (p1 e) = 0 /\ pending_expands (p2 e) = 0.

(** Both sides of a match are in the same state. *)
Definition mirrored {W S} (m : Match W S S) : Prop :=
  p1 (engine m) = p2 (engine m) /\ state1 m = state2 m.

(** * Properties *)

(** ** Neutral allocation *)

Section Allocation.

Variable e : Engine.

Let a := pending_expands (p1 e).
Let b := pending_expands (p2 e).
Let N := neutral_territory e.
Let contested := Z.min (Z.min a b) N.

Lemma allocate_neutral_p1 :
  p1 (_allocate_neutral e) =
  set_pending_expands 0
    (set_expanded_total
       (expanded_total (p1 e) + Z.min (a - contested) (N - contested))
       (set_territory
          (territory (p1 e) + Z.min (a - contested) (N - contested)) (p1 e))).
Proof. reflexivity. Qed.

Lemma allocate_neutral_p2 :
  p2 (_allocate_neutral e) =
  set_pending_expands 0
    (set_expanded_total
       (expanded_total (p2 e) +
        Z.min (b - contested)
          (N - contested - Z.min (a - contested) (N - contested)))
       (set_territory
          (territory (p2 e) +
           Z.min (b - contested)
             (N - contested - Z.min (a - contested) (N - contested)))
          (p2 e))).
Proof. reflexivity. Qed.

Lemma allocate_neutral_pool :
  neutral_territory (_allocate_neutral e) =
  N - contested - Z.min (a - contested) (N - contested)
  - Z.min (b - contested)
      (N - contested - Z.min (a - contested) (N - contested))
  + contested.
Proof. reflexivity. Qed.

(** C1.  The allocation step only moves cells between the three pools:
    the sum of both territories and the neutral pool is unchanged, and
    the contested cells [min(a, b, N)] are still in the neutral pool
    afterwards.  This holds for all bids and pools, in particular for
    the non-negative ones. *)
Theorem allocate_neutral_conserves_cells :
  territory (p1 (_allocate_neutral e)) + territory (p2 (_allocate_neutral e))
    + neutral_territory (_allocate_neutral e)
  = territory (p1 e) + territory (p2 e) + neutral_territory e
  /\ Z.min (Z.min (pending_expands (p1 e)) (pending_expands (p2 e)))
       (neutral_territory e)
     <= neutral_territory (_allocate_neutral e).
Proof.
  rewrite allocate_neutral_p1, allocate_neutral_p2, allocate_neutral_pool.
  subst contested a b N. simpl. lia.
Qed.

(** C7.  With [contested = min(a, b, N)], player 1 is granted
    [min(a - contested, N - contested)] cells, then player 2 is granted
    [min(b - contested, N - contested - grant1)] cells.  A grant is added
    to the receiver's territory and to its lifetime expansion counter,
    both pending bids are zero afterwards, and when both unique demands
    reach the remaining pool player 1 receives all of it and player 2
    nothing. *)
Theorem allocate_neutral_grants_p1_first :
  let grant1 := Z.min (a - contested) (N - contested) in
  let grant2 := Z.min (b - contested) (N - contested - grant1) in
  let e' := _allocate_neutral e in
  territory (p1 e') = territory (p1 e) + grant1
  /\ expanded_total (p1 e') = expanded_total (p1 e) + grant1
  /\ territory (p2 e') = territory (p2 e) + grant2
  /\ expanded_total (p2 e') = expanded_total (p2 e) + grant2
  /\ pending_expands (p1 e') = 0
  /\ pending_expands (p2 e') = 0
  /\ gold (p1 e') = gold (p1 e) /\ gold (p2 e') = gold (p2 e)
  /\ (N - contested <= a - contested -> N - contested <= b - contested ->
      grant1 = N - contested /\ grant2 = 0).
Proof.
  intros grant1 grant2 e'. subst e'.
  rewrite allocate_neutral_p1, allocate_neutral_p2. simpl.
  repeat split; try reflexivity; subst grant1 grant2 contested; lia.
Qed.

End Allocation.

(** The crowded pool: 7 cells contested, 2 unique to player 1, none to
    player 2. *)
Lemma allocate_neutral_grants_p1_first_witness :
  territory (p1 (_allocate_neutral crowded_engine)) = 32
  /\ territory (p2 (_allocate_neutral crowded_engine)) = 30
  /\ neutral_territory (_allocate_neutral crowded_engine) = 8.
Proof.
  pose proof (allocate_neutral_grants_p1_first crowded_engine) as H.
  simpl in H. destruct H as (H1 & _ & H2 & _).
  split; [exact H1 | split; [exact H2 | reflexivity]].
Defined.

(** ** Combat *)

(** C2.  Both damages are computed from the pre-combat attack and defense
    values, each side loses [min(damage taken, territory)] cells, the lost
    cells of both sides go to the neutral pool and to nobody else, attack
    and defense are unchanged, no territory becomes negative and the total
    number of cells is conserved. *)
Theorem resolve_combat_attrition (e : Engine) :
  0 <= territory (p1 e) -> 0 <= territory (p2 e) ->
  let damage_to_2 := Z.max 0 (attack (p1 e) - defense (p2 e)) in
  let damage_to_1 := Z.max 0 (attack (p2 e) - defense (p1 e)) in
  let loss1 := Z.min damage_to_1 (territory (p1 e)) in
  let loss2 := Z.min damage_to_2 (territory (p2 e)) in
  let e' := _resolve_combat e in
  territory (p1 e') = territory (p1 e) - loss1
  /\ territory (p2 e') = territory (p2 e) - loss2
  /\ neutral_territory e' = neutral_territory e + loss1 + loss2
  /\ 0 <= loss1 /\ 0 <= loss2
  /\ 0 <= territory (p1 e') <= territory (p1 e)
  /\ 0 <= territory (p2 e') <= territory (p2 e)
  /\ attack (p1 e') = attack (p1 e) /\ defense (p1 e') = defense (p1 e)
  /\ attack (p2 e') = attack (p2 e) /\ defense (p2 e') = defense (p2 e)
  /\ territory (p1 e') + territory (p2 e') + neutral_territory e'
     = territory (p1 e) + territory (p2 e) + neutral_territory e.
Proof.
  intros Ht1 Ht2. unfold _resolve_combat. simpl. lia.
Qed.

(** The scenario of the test suite: 12/5 against 5/10 on 30 cells each. *)
Lemma resolve_combat_attrition_witness :
  territory (p1 (_resolve_combat combat_engine)) = 30
  /\ territory (p2 (_resolve_combat combat_engine)) = 28
  /\ neutral_territory (_resolve_combat combat_engine) = 2.
Proof.
  assert (H1 : 0 <= territory (p1 combat_engine)) by (simpl; lia).
  assert (H2 : 0 <= territory (p2 combat_engine)) by (simpl; lia).
  pose proof (resolve_combat_attrition combat_engine H1 H2) as H.
  simpl in H. destruct H as (Ha & Hb & Hc & _).
  split; [exact Ha | split; [exact Hb | exact Hc]].
Defined.

(** ** Winner determination *)

(** C8.  Both territories zero is a draw; exactly one territory zero is a
    win for the other side; otherwise, when called for the end of the
    match, the richer side wins and equal gold is a draw, and when called
    during the match there is no winner. *)
Theorem check_winner_rules (e : Engine) :
  (forall is_end, territory (p1 e) = 0 -> territory (p2 e) = 0 ->
     _check_winner e is_end = Some "draw"%string)
  /\ (forall is_end, territory (p1 e) = 0 -> territory (p2 e) <> 0 ->
     _check_winner e is_end = Some "player2"%string)
  /\ (forall is_end, territory (p1 e) <> 0 -> territory (p2 e) = 0 ->
     _check_winner e is_end = Some "player1"%string)
  /\ (territory (p1 e) <> 0 -> territory (p2 e) <> 0 ->
      (gold (p2 e) < gold (p1 e) ->
         _check_winner e true = Some "player1"%string)
      /\ (gold (p1 e) < gold (p2 e) ->
         _check_winner e true = Some "player2"%string)
      /\ (gold (p1 e) = gold (p2 e) ->
         _check_winner e true = Some "draw"%string)
      /\ _check_winner e false = None
      /\ _winner_declared e = false).
Proof.
  unfold _winner_declared, _check_winner.
  repeat split; intros;
    repeat match goal with
    | H : ?x = 0 |- context [?x =? 0] =>
        rewrite (proj2 (Z.eqb_eq x 0) H)
    | H : ?x <> 0 |- context [?x =? 0] =>
        rewrite (proj2 (Z.eqb_neq x 0) H)
    end; simpl; try reflexivity.
  - replace (gold (p1 e) =? gold (p2 e)) with false by (symmetry; apply Z.eqb_neq; lia).
    replace (gold (p2 e) <? gold (p1 e)) with true by (symmetry; apply Z.ltb_lt; lia).
    reflexivity.
  - replace (gold (p1 e) =? gold (p2 e)) with false by (symmetry; apply Z.eqb_neq; lia).
    replace (gold (p2 e) <? gold (p1 e)) with false by (symmetry; apply Z.ltb_ge; lia).
    reflexivity.
  - replace (gold (p1 e) =? gold (p2 e)) with true by (symmetry; apply Z.eqb_eq; lia).
    reflexivity.
Qed.

(** Gold 100 against 50 with territory on both sides. *)
Lemma check_winner_rules_witness :
  _check_winner timeout_engine true = Some "player1"%string
  /\ _check_winner timeout_engine false = None.
Proof.
  destruct (check_winner_rules timeout_engine) as (_ & _ & _ & H).
  assert (H1 : territory (p1 timeout_engine) <> 0) by (simpl; lia).
  assert (H2 : territory (p2 timeout_engine) <> 0) by (simpl; lia).
  destruct (H H1 H2) as (Hw & _ & _ & Hn & _).
  split; [apply Hw; simpl; lia | exact Hn].
Defined.

(** ** Outcomes and fuel *)

Lemma bind_Ret_inv {A B} (m : outcome A) (k : A -> outcome B) (b : B) :
  bind m k = Ret b -> exists a, m = Ret a /\ k a = Ret b.
Proof. destruct m; simpl; intros H; try discriminate. eauto. Qed.

Lemma bind_Ret {A B} (m : outcome A) (k : A -> outcome B) (a : A) (b : B) :
  m = Ret a -> k a = Ret b -> bind m k = Ret b.
Proof. intros -> H. exact H. Qed.

(** [inv_bind H as x Hx]: from [H : bind m k = Ret b] get the value [x]
    that [m] returned, [Hx : m = Ret x], and [H : k x = Ret b]. *)
Tactic Notation "inv_bind" hyp(H) "as" ident(x) ident(Hx) :=
  apply bind_Ret_inv in H; destruct H as (x & Hx & H); cbv beta zeta in H.

Lemma player_eta (p : PlayerState) :
  mkPlayer (gold p) (territory p) (attack p) (defense p) (expanded_total p)
    (pending_expands p) (has_enemy_intel p) = p.
Proof. destruct p; reflexivity. Qed.

Lemma player_ext (p q : PlayerState) :
  gold p = gold q -> territory p = territory q -> attack p = attack q ->
  defense p = defense q -> expanded_total p = expanded_total q ->
  pending_expands p = pending_expands q ->
  has_enemy_intel p = has_enemy_intel q -> p = q.
Proof. destruct p, q. simpl. intros; subst; reflexivity. Qed.

Lemma engine_ext (e e' : Engine) :
  turn e = turn e' -> neutral_territory e = neutral_territory e' ->
  p1 e = p1 e' -> p2 e = p2 e' -> history e = history e' -> e = e'.
Proof. destruct e, e'. simpl. intros; subst; reflexivity. Qed.

Lemma nonzero_true (z : Z) : nonzero z = true <-> z <> 0.
Proof. unfold nonzero. rewrite negb_true_iff. apply Z.eqb_neq. Qed.

Lemma nonzero_false (z : Z) : nonzero z = false <-> z = 0.
Proof. unfold nonzero. rewrite negb_false_iff. apply Z.eqb_eq. Qed.

(** ** Upkeep *)

Section Upkeep.

Variable cfg : GameSettings.

Lemma upkeep_loop_mono (fuel : nat) :
  forall fuel' d p r,
    upkeep_loop fuel cfg d p = Ret r -> (fuel <= fuel')%nat ->
    upkeep_loop fuel' cfg d p = Ret r.
Proof.
  induction fuel as [|fuel IH]; intros fuel' d p r H Hle.
  - destruct fuel'; simpl in *;
      destruct ((0 <? d) && (nonzero (attack p) || nonzero (defense p)));
      congruence.
  - destruct fuel' as [|fuel']; [lia|]. simpl in *.
    destruct ((0 <? d) && (nonzero (attack p) || nonzero (defense p)));
      [|exact H].
    destruct (nonzero (attack p)); [apply IH; [exact H | lia]|].
    destruct (nonzero (defense p)); apply IH; try exact H; lia.
Qed.

Lemma upkeep_loop_log_erase (fuel : nat) :
  forall d p,
    upkeep_loop fuel cfg d p =
    do r <- upkeep_loop_log fuel cfg d p; Ret (fst r).
Proof.
  induction fuel as [|fuel IH]; intros d p; simpl;
    destruct ((0 <? d) && (nonzero (attack p) || nonzero (defense p)));
    try reflexivity.
  destruct (nonzero (attack p)); [|destruct (nonzero (defense p))];
    rewrite IH; try reflexivity;
    match goal with
    | |- context [upkeep_loop_log fuel cfg ?d' ?p'] =>
        destruct (upkeep_loop_log fuel cfg d' p'); reflexivity
    end.
Qed.

Lemma apply_upkeep_log_erase (fuel : nat) (p : PlayerState) :
  apply_upkeep fuel cfg p = do r <- apply_upkeep_log fuel cfg p; Ret (fst r).
Proof.
  unfold apply_upkeep, apply_upkeep_log.
  destruct (0 <=? gold (set_gold (gold p - upkeep_cost cfg p) p));
    [reflexivity|].
  rewrite upkeep_loop_log_erase.
  match goal with
  | |- context [upkeep_loop_log fuel cfg ?d' ?p'] =>
      destruct (upkeep_loop_log fuel cfg d' p'); reflexivity
  end.
Qed.

(** What the loop does when it has one unit of fuel per unit held: it
    disbands [ka] attack units, then [kd] defense units, and stops either
    because the deficit is covered or because no unit is left. *)
Lemma upkeep_loop_log_spec (fuel : nat) :
  forall d p,
    0 <= attack p -> 0 <= defense p ->
    (Z.to_nat (attack p + defense p) <= fuel)%nat ->
    exists ka kd : nat,
      upkeep_loop_log fuel cfg d p =
        Ret (mkPlayer
               (gold p + Z.of_nat ka * MAINT_ATK cfg
                + Z.of_nat kd * MAINT_DEF cfg)
               (territory p) (attack p - Z.of_nat ka)
               (defense p - Z.of_nat kd) (expanded_total p)
               (pending_expands p) (has_enemy_intel p),
             repeat AttackUnit ka ++ repeat DefenseUnit kd)
      /\ 0 <= attack p - Z.of_nat ka
      /\ 0 <= defense p - Z.of_nat kd
      /\ (kd <> 0%nat -> attack p - Z.of_nat ka = 0)
      /\ (d - Z.of_nat ka * MAINT_ATK cfg - Z.of_nat kd * MAINT_DEF cfg <= 0
          \/ (attack p - Z.of_nat ka = 0 /\ defense p - Z.of_nat kd = 0)).
Proof.
  induction fuel as [|fuel IH]; intros d p Ha Hd Hfuel.
  - exists 0%nat, 0%nat. simpl.
    assert (attack p = 0 /\ defense p = 0) as [Ea Ed] by lia.
    rewrite Ea, Ed. simpl. rewrite andb_false_r.
    repeat split; try lia.
    f_equal. f_equal. rewrite <- (player_eta p) at 1. rewrite Ea, Ed.
    f_equal; lia.
  - simpl.
    destruct ((0 <? d) && (nonzero (attack p) || nonzero (defense p)))
      eqn:Hcond.
    + destruct (nonzero (attack p)) eqn:Hna.
      * apply nonzero_true in Hna.
        destruct (IH (d - MAINT_ATK cfg)
                    (set_gold (gold p + MAINT_ATK cfg)
                       (set_attack (attack p - 1) p)))
          as (ka & kd & Heq & H1 & H2 & H3 & H4); simpl; try lia.
        simpl in *. exists (S ka), kd. rewrite Heq. simpl.
        repeat split; try lia.
        f_equal. f_equal. f_equal; lia.
      * apply nonzero_false in Hna.
        destruct (nonzero (defense p)) eqn:Hnd;
          [|simpl in Hcond; rewrite andb_false_r in Hcond; discriminate].
        apply nonzero_true in Hnd.
        destruct (IH (d - MAINT_DEF cfg)
                    (set_gold (gold p + MAINT_DEF cfg)
                       (set_defense (defense p - 1) p)))
          as (ka & kd & Heq & H1 & H2 & H3 & H4); simpl; try lia.
        simpl in *. assert (ka = 0%nat) by lia. subst ka.
        exists 0%nat, (S kd). rewrite Heq. simpl.
        repeat split; try lia.
        f_equal. f_equal. f_equal; lia.
    + exists 0%nat, 0%nat. simpl.
      repeat split; try lia.
      * f_equal. f_equal. rewrite <- (player_eta p) at 1. f_equal; lia.
      * apply andb_false_iff in Hcond. destruct Hcond as [Hc|Hc].
        -- left. apply Z.ltb_ge in Hc. lia.
        -- apply orb_false_iff in Hc. destruct Hc as [Hc1 Hc2].
           apply nonzero_false in Hc1. apply nonzero_false in Hc2.
           right. lia.
Qed.

End Upkeep.

(** [apply_upkeep], with its record of disbanded units, on a player with
    non-negative unit counts: it returns within [attack + defense]
    iterations, having disbanded [ka] attack units and then [kd] defense
    units. *)
Lemma apply_upkeep_log_returns (cfg : GameSettings) (p : PlayerState) :
  0 <= attack p -> 0 <= defense p ->
  exists ka kd : nat,
    (forall fuel, (Z.to_nat (attack p + defense p) <= fuel)%nat ->
       apply_upkeep_log fuel cfg p =
       Ret (mkPlayer
              (Z.max 0 (gold p - upkeep_cost cfg p
                        + Z.of_nat ka * MAINT_ATK cfg
                        + Z.of_nat kd * MAINT_DEF cfg))
              (territory p) (attack p - Z.of_nat ka)
              (defense p - Z.of_nat kd) (expanded_total p)
              (pending_expands p) (has_enemy_intel p),
            repeat AttackUnit ka ++ repeat DefenseUnit kd))
    /\ 0 <= attack p - Z.of_nat ka
    /\ 0 <= defense p - Z.of_nat kd
    /\ (kd <> 0%nat -> attack p - Z.of_nat ka = 0)
    /\ (0 <= gold p - upkeep_cost cfg p + Z.of_nat ka * MAINT_ATK cfg
             + Z.of_nat kd * MAINT_DEF cfg
        \/ (attack p - Z.of_nat ka = 0 /\ defense p - Z.of_nat kd = 0)).
Proof.
  intros Ha Hd.
  destruct (0 <=? gold p - upkeep_cost cfg p) eqn:Hpos.
  - apply Z.leb_le in Hpos. exists 0%nat, 0%nat.
    split; [|repeat split; lia].
    intros fuel _. unfold apply_upkeep_log. simpl.
    rewrite (proj2 (Z.leb_le _ _) Hpos). unfold set_gold.
    f_equal. f_equal. f_equal; lia.
  - apply Z.leb_gt in Hpos.
    set (q := set_gold (gold p - upkeep_cost cfg p) p).
    set (n := Z.to_nat (attack p + defense p)).
    assert (Hq : attack q = attack p /\ defense q = defense p
                 /\ gold q = gold p - upkeep_cost cfg p) by (simpl; tauto).
    destruct Hq as (Eqa & Eqd & Eqg).
    destruct (upkeep_loop_log_spec cfg n (- gold q) q)
      as (ka & kd & Heq & H1 & H2 & H3 & H4);
      [rewrite Eqa; lia | rewrite Eqd; lia | rewrite Eqa, Eqd; lia |].
    set (raw := gold p - upkeep_cost cfg p + Z.of_nat ka * MAINT_ATK cfg
                + Z.of_nat kd * MAINT_DEF cfg).
    exists ka, kd. split; [|simpl in *; fold raw; repeat split; lia].
    intros fuel Hfuel.
    destruct (upkeep_loop_log_spec cfg fuel (- gold q) q)
      as (ka' & kd' & Heq' & _);
      [rewrite Eqa; lia | rewrite Eqd; lia | rewrite Eqa, Eqd; lia |].
    pose proof (upkeep_loop_log_erase cfg n (- gold q) q) as Hn.
    pose proof (upkeep_loop_log_erase cfg fuel (- gold q) q) as Hf.
    rewrite Heq in Hn. rewrite Heq' in Hf. simpl in Hn, Hf.
    apply (upkeep_loop_mono cfg n fuel) in Hn; [|exact Hfuel].
    rewrite Hn in Hf. injection Hf as Eg Eatk Edef.
    assert (ka' = ka) by lia. assert (kd' = kd) by lia. subst ka' kd'.
    unfold apply_upkeep_log. fold q. cbv zeta.
    rewrite Eqg at 1. rewrite (proj2 (Z.leb_gt _ _) Hpos).
    rewrite Heq'. simpl. fold raw.
    destruct (raw <? 0) eqn:Hraw.
    + apply Z.ltb_lt in Hraw. unfold set_gold. simpl.
      f_equal. f_equal. f_equal. lia.
    + apply Z.ltb_ge in Hraw. f_equal. f_equal. f_equal. lia.
Qed.

(** C3.  For a player holding non-negative numbers of units,
    [apply_upkeep] returns once it has one unit of fuel per unit held; the
    gold it leaves is not negative; the units it disbands are [ka] attack
    units followed by [kd] defense units, so a defense unit is only
    disbanded when no attack unit is left; and the gold left is the gold
    after upkeep and refunds, or zero where that is negative, without an
    exception. *)
Theorem apply_upkeep_attack_before_defense
    (cfg : GameSettings) (p : PlayerState) :
  0 <= attack p -> 0 <= defense p ->
  exists (p' : PlayerState) (ka kd : nat),
    (forall fuel, (Z.to_nat (attack p + defense p) <= fuel)%nat ->
       apply_upkeep fuel cfg p = Ret p'
       /\ apply_upkeep_log fuel cfg p =
          Ret (p', repeat AttackUnit ka ++ repeat DefenseUnit kd))
    /\ 0 <= gold p'
    /\ attack p' = attack p - Z.of_nat ka
    /\ defense p' = defense p - Z.of_nat kd
    /\ 0 <= attack p' /\ 0 <= defense p'
    /\ (kd <> 0%nat -> attack p' = 0)
    /\ gold p' =
       Z.max 0 (gold p - upkeep_cost cfg p + Z.of_nat ka * MAINT_ATK cfg
                + Z.of_nat kd * MAINT_DEF cfg)
    /\ (0 <= gold p - upkeep_cost cfg p + Z.of_nat ka * MAINT_ATK cfg
             + Z.of_nat kd * MAINT_DEF cfg
        \/ (attack p' = 0 /\ defense p' = 0))
    /\ territory p' = territory p
    /\ expanded_total p' = expanded_total p
    /\ pending_expands p' = pending_expands p
    /\ has_enemy_intel p' = has_enemy_intel p.
Proof.
  intros Ha Hd.
  destruct (apply_upkeep_log_returns cfg p Ha Hd)
    as (ka & kd & Hlog & Hka & Hkd & Hord & Hstop).
  eexists. exists ka, kd. split.
  - intros fuel Hfuel. split.
    + rewrite apply_upkeep_log_erase, (Hlog fuel Hfuel). reflexivity.
    + exact (Hlog fuel Hfuel).
  - simpl. repeat split; try assumption; try lia.
Qed.

(** The player of the demobilisation test: three attack units go, the two
    defense units stay. *)
Lemma apply_upkeep_attack_before_defense_witness :
  apply_upkeep 5 settings demobilise_player
  = Ret (set_gold 0 (set_attack 0 demobilise_player)).
Proof.
  assert (Ha : 0 <= attack demobilise_player) by (simpl; lia).
  assert (Hd : 0 <= defense demobilise_player) by (simpl; lia).
  destruct (apply_upkeep_attack_before_defense settings demobilise_player
              Ha Hd) as (p' & ka & kd & Hrun & _).
  destruct (Hrun 5%nat) as [Hp _]; [simpl; lia|].
  reflexivity.
Defined.

(** ** Purchases: fuel, frames and bounds *)

Section Purchases.

Variable cfg : GameSettings.

Lemma apply_upkeep_mono (fuel fuel' : nat) (p r : PlayerState) :
  apply_upkeep fuel cfg p = Ret r -> (fuel <= fuel')%nat ->
  apply_upkeep fuel' cfg p = Ret r.
Proof.
  unfold apply_upkeep. cbv zeta.
  destruct (0 <=? gold (set_gold (gold p - upkeep_cost cfg p) p));
    [trivial|].
  intros H Hle. apply bind_Ret_inv in H. destruct H as (q & Hq & Hr).
  rewrite (upkeep_loop_mono cfg fuel fuel' _ _ q Hq Hle). exact Hr.
Qed.

Lemma pay_loop_mono (fuel : nat) :
  forall fuel' wanted bought p r,
    pay_loop fuel cfg wanted bought p = Ret r -> (fuel <= fuel')%nat ->
    pay_loop fuel' cfg wanted bought p = Ret r.
Proof.
  induction fuel as [|fuel IH]; intros fuel' wanted bought p r H Hle.
  - destruct fuel'; simpl in *; destruct (bought <? wanted); congruence.
  - destruct fuel' as [|fuel']; [lia|]. simpl in *.
    destruct (bought <? wanted); [|exact H].
    destruct (gold p <? expand_price cfg p bought); [exact H|].
    apply IH; [exact H | lia].
Qed.

Lemma buy_attack_loop_mono (fuel : nat) :
  forall fuel' gold_limit spent p r,
    buy_attack_loop fuel cfg gold_limit spent p = Ret r ->
    (fuel <= fuel')%nat ->
    buy_attack_loop fuel' cfg gold_limit spent p = Ret r.
Proof.
  induction fuel as [|fuel IH]; intros fuel' gold_limit spent p r H Hle.
  - destruct fuel'; simpl in *;
      destruct (_attack_price cfg p <=? gold_limit - spent); congruence.
  - destruct fuel' as [|fuel']; [lia|]. simpl in *.
    destruct (_attack_price cfg p <=? gold_limit - spent); [|exact H].
    apply IH; [exact H | lia].
Qed.

Lemma buy_defense_loop_mono (fuel : nat) :
  forall fuel' gold_limit spent p r,
    buy_defense_loop fuel cfg gold_limit spent p = Ret r ->
    (fuel <= fuel')%nat ->
    buy_defense_loop fuel' cfg gold_limit spent p = Ret r.
Proof.
  induction fuel as [|fuel IH]; intros fuel' gold_limit spent p r H Hle.
  - destruct fuel'; simpl in *;
      destruct (_defense_price cfg p <=? gold_limit - spent); congruence.
  - destruct fuel' as [|fuel']; [lia|]. simpl in *.
    destruct (_defense_price cfg p <=? gold_limit - spent); [|exact H].
    apply IH; [exact H | lia].
Qed.

Lemma pay_for_expands_mono (fuel fuel' : nat) wanted p r :
  pay_for_expands fuel cfg wanted p = Ret r -> (fuel <= fuel')%nat ->
  pay_for_expands fuel' cfg wanted p = Ret r.
Proof.
  unfold pay_for_expands. intros H Hle.
  apply bind_Ret_inv in H. destruct H as (q & Hq & Hr).
  rewrite (pay_loop_mono fuel fuel' _ _ _ q Hq Hle). exact Hr.
Qed.

Lemma buy_attack_mono (fuel fuel' : nat) gold_limit p r :
  buy_attack fuel cfg gold_limit p = Ret r -> (fuel <= fuel')%nat ->
  buy_attack fuel' cfg gold_limit p = Ret r.
Proof.
  unfold buy_attack. intros H Hle.
  apply bind_Ret_inv in H. destruct H as (q & Hq & Hr).
  rewrite (buy_attack_loop_mono fuel fuel' _ _ _ q Hq Hle). exact Hr.
Qed.

Lemma buy_defense_mono (fuel fuel' : nat) gold_limit p r :
  buy_defense fuel cfg gold_limit p = Ret r -> (fuel <= fuel')%nat ->
  buy_defense fuel' cfg gold_limit p = Ret r.
Proof.
  unfold buy_defense. intros H Hle.
  apply bind_Ret_inv in H. destruct H as (q & Hq & Hr).
  rewrite (buy_defense_loop_mono fuel fuel' _ _ _ q Hq Hle). exact Hr.
Qed.

(** The expansion loop only takes gold, and never more than is there. *)
Lemma pay_loop_frame (fuel : nat) :
  forall wanted bought p b' p',
    pay_loop fuel cfg wanted bought p = Ret (b', p') ->
    same_but_gold p p' /\ (0 <= gold p -> 0 <= gold p').
Proof.
  unfold same_but_gold.
  induction fuel as [|fuel IH]; intros wanted bought p b' p' H; simpl in H;
    destruct (bought <? wanted); try discriminate;
    try (injection H as <- <-; tauto).
  destruct (gold p <? expand_price cfg p bought) eqn:Hc.
  - injection H as <- <-. tauto.
  - apply Z.ltb_ge in Hc. apply IH in H. simpl in H.
    destruct H as [Hf Hg]. split; [exact Hf | intros; apply Hg; lia].
Qed.

(** The loop terminates within [wanted - bought] iterations. *)
Lemma pay_loop_returns (fuel : nat) :
  forall wanted bought p,
    (Z.to_nat (wanted - bought) <= fuel)%nat ->
    exists r, pay_loop fuel cfg wanted bought p = Ret r.
Proof.
  induction fuel as [|fuel IH]; intros wanted bought p Hfuel; simpl.
  - destruct (bought <? wanted) eqn:Hc; [|eauto].
    apply Z.ltb_lt in Hc. lia.
  - destruct (bought <? wanted) eqn:Hc; [|eauto].
    apply Z.ltb_lt in Hc.
    destruct (gold p <? expand_price cfg p bought); [eauto|].
    apply IH. lia.
Qed.

(** The attack purchase keeps [spent] within the limit and only adds
    attack units. *)
Lemma buy_attack_loop_frame (fuel : nat) :
  forall gold_limit spent p s' p',
    buy_attack_loop fuel cfg gold_limit spent p = Ret (s', p') ->
    same_but_attack p p'
    /\ attack p <= attack p'
    /\ (spent <= gold_limit -> s' <= gold_limit).
Proof.
  unfold same_but_attack.
  induction fuel as [|fuel IH]; intros gold_limit spent p s' p' H;
    simpl in H;
    destruct (_attack_price cfg p <=? gold_limit - spent) eqn:Hc;
    try discriminate;
    try (injection H as <- <-; repeat split; trivial; lia).
  apply Z.leb_le in Hc. apply IH in H. simpl in H.
  destruct H as (Hf & Ha & Hs).
  split; [exact Hf | split; [lia | intros; apply Hs; lia]].
Qed.

Lemma buy_defense_loop_frame (fuel : nat) :
  forall gold_limit spent p s' p',
    buy_defense_loop fuel cfg gold_limit spent p = Ret (s', p') ->
    same_but_defense p p'
    /\ defense p <= defense p'
    /\ (spent <= gold_limit -> s' <= gold_limit).
Proof.
  unfold same_but_defense.
  induction fuel as [|fuel IH]; intros gold_limit spent p s' p' H;
    simpl in H;
    destruct (_defense_price cfg p <=? gold_limit - spent) eqn:Hc;
    try discriminate;
    try (injection H as <- <-; repeat split; trivial; lia).
  apply Z.leb_le in Hc. apply IH in H. simpl in H.
  destruct H as (Hf & Ha & Hs).
  split; [exact Hf | split; [lia | intros; apply Hs; lia]].
Qed.

(** With a positive base price and a non-negative slope every unit costs
    at least one gold, so the purchase loops stop within [gold_limit -
    spent] iterations. *)
Lemma buy_attack_loop_returns (fuel : nat) :
  1 <= ATK_BASE cfg -> 0 <= ATK_K cfg ->
  forall gold_limit spent p,
    0 <= attack p ->
    (Z.to_nat (gold_limit - spent) <= fuel)%nat ->
    exists r, buy_attack_loop fuel cfg gold_limit spent p = Ret r.
Proof.
  intros Hb Hk.
  induction fuel as [|fuel IH]; intros gold_limit spent p Ha Hfuel; simpl;
    destruct (_attack_price cfg p <=? gold_limit - spent) eqn:Hc;
    eauto; apply Z.leb_le in Hc; unfold _attack_price in *.
  - nia.
  - apply IH; simpl; [lia | nia].
Qed.

Lemma buy_defense_loop_returns (fuel : nat) :
  1 <= DEF_BASE cfg -> 0 <= DEF_K cfg ->
  forall gold_limit spent p,
    0 <= defense p ->
    (Z.to_nat (gold_limit - spent) <= fuel)%nat ->
    exists r, buy_defense_loop fuel cfg gold_limit spent p = Ret r.
Proof.
  intros Hb Hk.
  induction fuel as [|fuel IH]; intros gold_limit spent p Ha Hfuel; simpl;
    destruct (_defense_price cfg p <=? gold_limit - spent) eqn:Hc;
    eauto; apply Z.leb_le in Hc; unfold _defense_price in *.
  - nia.
  - apply IH; simpl; [lia | nia].
Qed.

End Purchases.

(** ** Command application *)

Section Commands.

Variable cfg : GameSettings.

Lemma apply_commands_on_mono (fuel fuel' : nat) p cmd prices r :
  apply_commands_on fuel cfg p cmd prices = Ret r -> (fuel <= fuel')%nat ->
  apply_commands_on fuel' cfg p cmd prices = Ret r.
Proof.
  unfold apply_commands_on. intros H Hle.
  inv_bind H as z1 E1.
  apply (bind_Ret _ _ z1 _ E1). cbv beta zeta in H |- *.
  inv_bind H as z2 E2.
  apply (bind_Ret _ _ z2 _ E2). cbv beta zeta in H |- *.
  inv_bind H as z3 E3.
  apply (bind_Ret _ _ z3 _ E3). cbv beta zeta in H |- *.
  inv_bind H as r3 P3.
  apply (bind_Ret _ _ r3 _ (pay_for_expands_mono cfg fuel fuel' _ _ _ P3 Hle)).
  cbv beta zeta in H |- *.
  inv_bind H as z4 E4.
  apply (bind_Ret _ _ z4 _ E4). cbv beta zeta in H |- *.
  inv_bind H as r4 P4.
  apply (bind_Ret _ _ r4 _ (buy_attack_mono cfg fuel fuel' _ _ _ P4 Hle)).
  cbv beta zeta in H |- *.
  inv_bind H as z5 E5.
  apply (bind_Ret _ _ z5 _ E5). cbv beta zeta in H |- *.
  inv_bind H as r5 P5.
  apply (bind_Ret _ _ r5 _ (buy_defense_mono cfg fuel fuel' _ _ _ P5 Hle)).
  exact H.
Qed.

Lemma cmd_amount_nonneg cmd key z : cmd_amount cmd key = Ret z -> 0 <= z.
Proof.
  unfold cmd_amount. intros H. apply bind_Ret_inv in H.
  destruct H as (v & _ & H). injection H as <-. lia.
Qed.

Lemma cmd_amount_returns cmd key :
  cmd_numeric cmd = true -> In key amount_keys ->
  exists z, cmd_amount cmd key = Ret z.
Proof.
  unfold cmd_numeric. rewrite forallb_forall. intros H Hin.
  specialize (H key Hin). unfold cmd_amount.
  destruct (int (get cmd key (PyInt 0))); simpl; try discriminate; eauto.
Qed.

(** *** Each stage keeps gold and units non-negative *)

Lemma refund_attack_nonneg units p :
  0 <= ATK_BASE cfg -> nonneg_player p ->
  nonneg_player (snd (_refund_attack cfg units p)).
Proof.
  unfold nonneg_player, _refund_attack. simpl. intros Hb (Hg & Ha & Hd).
  assert (0 <= ATK_BASE cfg / 2) by (apply Z.div_pos; lia).
  repeat split; try lia; nia.
Qed.

Lemma refund_defense_nonneg units p :
  0 <= DEF_BASE cfg -> nonneg_player p ->
  nonneg_player (snd (_refund_defense cfg units p)).
Proof.
  unfold nonneg_player, _refund_defense. simpl. intros Hb (Hg & Ha & Hd).
  assert (0 <= DEF_BASE cfg / 2) by (apply Z.div_pos; lia).
  repeat split; try lia; nia.
Qed.

Lemma pay_for_expands_nonneg fuel wanted p r :
  pay_for_expands fuel cfg wanted p = Ret r ->
  nonneg_player p -> nonneg_player (snd r).
Proof.
  unfold pay_for_expands, nonneg_player. intros H (Hg & Ha & Hd).
  apply bind_Ret_inv in H. destruct H as ([b q] & Hq & H).
  injection H as <-. apply pay_loop_frame in Hq.
  destruct Hq as ((_ & Ea & Ed & _) & Hgq). simpl.
  rewrite Ea, Ed. auto.
Qed.

Lemma buy_attack_nonneg fuel gold_limit p r :
  buy_attack fuel cfg gold_limit p = Ret r ->
  0 <= gold_limit <= gold p -> nonneg_player p -> nonneg_player (snd r).
Proof.
  unfold buy_attack, nonneg_player. intros H Hl (Hg & Ha & Hd).
  apply bind_Ret_inv in H. destruct H as ([sp q] & Hq & H).
  injection H as <-. apply buy_attack_loop_frame in Hq.
  destruct Hq as ((Eg & _ & Ed & _) & Hatk & Hs). simpl.
  rewrite Eg, Ed. repeat split; lia.
Qed.

Lemma buy_defense_nonneg fuel gold_limit p r :
  buy_defense fuel cfg gold_limit p = Ret r ->
  0 <= gold_limit <= gold p -> nonneg_player p -> nonneg_player (snd r).
Proof.
  unfold buy_defense, nonneg_player. intros H Hl (Hg & Ha & Hd).
  apply bind_Ret_inv in H. destruct H as ([sp q] & Hq & H).
  injection H as <-. apply buy_defense_loop_frame in Hq.
  destruct Hq as ((Eg & _ & Ea & _) & Hdef & Hs). simpl.
  rewrite Eg, Ea. repeat split; lia.
Qed.

Lemma scout_nonneg (b : bool) p :
  nonneg_player p ->
  nonneg_player
    (if b then
       if SCOUT_COST cfg <=? gold p
       then set_gold (gold p - SCOUT_COST cfg) p else p
     else p).
Proof.
  unfold nonneg_player. intros (Hg & Ha & Hd).
  destruct b; [|auto].
  destruct (SCOUT_COST cfg <=? gold p) eqn:Hc; [|auto].
  apply Z.leb_le in Hc. simpl. repeat split; lia.
Qed.

Lemma apply_commands_on_nonneg fuel p cmd prices p' :
  0 <= ATK_BASE cfg -> 0 <= DEF_BASE cfg ->
  nonneg_player p ->
  apply_commands_on fuel cfg p cmd prices = Ret p' ->
  nonneg_player p'.
Proof.
  intros Hab Hdb Hp H. unfold apply_commands_on in H.
  inv_bind H as z1 E1.
  inv_bind H as z2 E2.
  inv_bind H as z3 E3.
  inv_bind H as r3 P3.
  inv_bind H as z4 E4.
  inv_bind H as r4 P4.
  inv_bind H as z5 E5.
  inv_bind H as r5 P5.
  injection H as <-.
  apply cmd_amount_nonneg in E4. apply cmd_amount_nonneg in E5.
  assert (N1 : nonneg_player
                 (if nonzero z1 then snd (_refund_attack cfg z1 p) else p))
    by (destruct (nonzero z1); [apply refund_attack_nonneg|]; assumption).
  match type of P3 with pay_for_expands _ _ _ ?q = _ =>
    assert (N2 : nonneg_player q)
      by (destruct (nonzero z2); [apply refund_defense_nonneg|]; assumption)
  end.
  pose proof (pay_for_expands_nonneg _ _ _ _ P3 N2) as N3.
  pose proof (scout_nonneg (cmd_scout cmd) _ N3) as N4.
  assert (N5 : nonneg_player (snd r4)).
  { eapply buy_attack_nonneg; [exact P4 | | exact N4].
    destruct N4 as (Hg & _). lia. }
  eapply buy_defense_nonneg; [exact P5 | | exact N5].
  destruct N5 as (Hg & _). lia.
Qed.

(** *** Each stage returns *)

Lemma pay_for_expands_returns wanted p :
  exists r, pay_for_expands (Z.to_nat wanted) cfg wanted p = Ret r.
Proof.
  unfold pay_for_expands.
  destruct (pay_loop_returns cfg (Z.to_nat wanted) wanted 0 p) as [r Hr];
    [lia|].
  rewrite Hr. simpl. eauto.
Qed.

Lemma buy_attack_returns gold_limit p :
  1 <= ATK_BASE cfg -> 0 <= ATK_K cfg -> 0 <= attack p ->
  exists r, buy_attack (Z.to_nat gold_limit) cfg gold_limit p = Ret r.
Proof.
  intros Hb Hk Ha. unfold buy_attack.
  destruct (buy_attack_loop_returns cfg (Z.to_nat gold_limit) Hb Hk
              gold_limit 0 p Ha) as [r Hr]; [lia|].
  rewrite Hr. simpl. eauto.
Qed.

Lemma buy_defense_returns gold_limit p :
  1 <= DEF_BASE cfg -> 0 <= DEF_K cfg -> 0 <= defense p ->
  exists r, buy_defense (Z.to_nat gold_limit) cfg gold_limit p = Ret r.
Proof.
  intros Hb Hk Ha. unfold buy_defense.
  destruct (buy_defense_loop_returns cfg (Z.to_nat gold_limit) Hb Hk
              gold_limit 0 p Ha) as [r Hr]; [lia|].
  rewrite Hr. simpl. eauto.
Qed.

End Commands.

Section CommandsReturn.

Variable cfg : GameSettings.
Hypothesis atk_base_pos : 1 <= ATK_BASE cfg.
Hypothesis atk_k_nonneg : 0 <= ATK_K cfg.
Hypothesis def_base_pos : 1 <= DEF_BASE cfg.
Hypothesis def_k_nonneg : 0 <= DEF_K cfg.

(** With unit prices of at least one gold, a command whose amounts are
    numbers is applied in finitely many steps. *)
Lemma apply_commands_on_returns p cmd prices :
  nonneg_player p -> cmd_numeric cmd = true ->
  exists fuel p',
    apply_commands_on fuel cfg p cmd prices = Ret p' /\ nonneg_player p'.
Proof.
  intros N0 Hnum.
  destruct (cmd_amount_returns cmd "sell_attack" Hnum) as [z1 E1];
    [simpl; tauto|].
  destruct (cmd_amount_returns cmd "sell_defense" Hnum) as [z2 E2];
    [simpl; tauto|].
  destruct (cmd_amount_returns cmd "expand" Hnum) as [z3 E3];
    [simpl; tauto|].
  destruct (cmd_amount_returns cmd "spend_attack" Hnum) as [z4 E4];
    [simpl; tauto|].
  destruct (cmd_amount_returns cmd "spend_defense" Hnum) as [z5 E5];
    [simpl; tauto|].
  set (q1 := if nonzero z1 then snd (_refund_attack cfg z1 p) else p).
  assert (N1 : nonneg_player q1)
    by (subst q1; destruct (nonzero z1);
        [apply refund_attack_nonneg; [lia|]|]; assumption).
  set (q2 := if nonzero z2 then snd (_refund_defense cfg z2 q1) else q1).
  assert (N2 : nonneg_player q2)
    by (subst q2; destruct (nonzero z2);
        [apply refund_defense_nonneg; [lia|]|]; assumption).
  destruct (pay_for_expands_returns cfg z3 q2) as [r3 P3].
  pose proof (pay_for_expands_nonneg cfg _ _ _ _ P3 N2) as N3.
  set (q4 := if cmd_scout cmd then
               if SCOUT_COST cfg <=? gold (snd r3)
               then set_gold (gold (snd r3) - SCOUT_COST cfg) (snd r3)
               else snd r3
             else snd r3).
  pose proof (scout_nonneg cfg (cmd_scout cmd) _ N3) as N4. fold q4 in N4.
  pose proof (cmd_amount_nonneg _ _ _ E4) as Hz4.
  pose proof (cmd_amount_nonneg _ _ _ E5) as Hz5.
  destruct (buy_attack_returns cfg (Z.min z4 (gold q4)) q4 atk_base_pos
              atk_k_nonneg) as [r4 P4]; [apply N4|].
  assert (N5 : nonneg_player (snd r4)).
  { eapply buy_attack_nonneg; [exact P4 | | exact N4].
    destruct N4 as (Hg & _). lia. }
  destruct (buy_defense_returns cfg (Z.min z5 (gold (snd r4))) (snd r4)
              def_base_pos def_k_nonneg) as [r5 P5]; [apply N5|].
  assert (N6 : nonneg_player (snd r5)).
  { eapply buy_defense_nonneg; [exact P5 | | exact N5].
    destruct N5 as (Hg & _). lia. }
  exists (Z.to_nat z3 + Z.to_nat (Z.min z4 (gold q4))
          + Z.to_nat (Z.min z5 (gold (snd r4))))%nat, (snd r5).
  split; [|exact N6].
  unfold apply_commands_on.
  apply (bind_Ret _ _ z1 _ E1). cbv beta zeta.
  apply (bind_Ret _ _ z2 _ E2). cbv beta zeta.
  apply (bind_Ret _ _ z3 _ E3). cbv beta zeta.
  apply (bind_Ret _ _ r3).
  { eapply pay_for_expands_mono; [exact P3 | lia]. }
  cbv beta zeta.
  apply (bind_Ret _ _ z4 _ E4). cbv beta zeta.
  apply (bind_Ret _ _ r4).
  { eapply buy_attack_mono; [exact P4 | lia]. }
  cbv beta zeta.
  apply (bind_Ret _ _ z5 _ E5). cbv beta zeta.
  apply (bind_Ret _ _ r5).
  { eapply buy_defense_mono; [exact P5 | lia]. }
  reflexivity.
Qed.

End CommandsReturn.

(** ** What a command is read for *)

Lemma cmd_amount_insert_negative (cmd : gmap string pyval) key z key' :
  z < 0 ->
  cmd_amount (<[key := PyInt z]> cmd) key'
  = cmd_amount (<[key := PyInt 0]> cmd) key'.
Proof.
  intros Hz. unfold cmd_amount, get.
  destruct (decide (key = key')) as [->|Hne].
  - rewrite !lookup_insert_eq. simpl. f_equal. lia.
  - rewrite !lookup_insert_ne by exact Hne. reflexivity.
Qed.

Lemma cmd_scout_insert_other (cmd : gmap string pyval) key v :
  key <> "scout"%string ->
  cmd_scout (<[key := v]> cmd) = cmd_scout cmd.
Proof.
  intros Hne. unfold cmd_scout, get.
  rewrite lookup_insert_ne by exact Hne. reflexivity.
Qed.

(** [apply_commands_on] reads a command through its five amounts and its
    scout flag only. *)
Lemma apply_commands_on_ext fuel cfg p cmd cmd' prices :
  (forall key, cmd_amount cmd key = cmd_amount cmd' key) ->
  cmd_scout cmd = cmd_scout cmd' ->
  apply_commands_on fuel cfg p cmd prices
  = apply_commands_on fuel cfg p cmd' prices.
Proof.
  intros Ha Hs. unfold apply_commands_on.
  rewrite (Ha "sell_attack"%string).
  destruct (cmd_amount cmd' "sell_attack"); cbn [bind]; try reflexivity.
  rewrite (Ha "sell_defense"%string).
  destruct (cmd_amount cmd' "sell_defense"); cbn [bind]; try reflexivity.
  rewrite (Ha "expand"%string).
  destruct (cmd_amount cmd' "expand"); cbn [bind]; try reflexivity.
  match goal with
  | |- context [pay_for_expands ?f ?c ?w ?q] =>
      destruct (pay_for_expands f c w q)
  end; cbn [bind]; try reflexivity.
  rewrite Hs. rewrite (Ha "spend_attack"%string).
  destruct (cmd_amount cmd' "spend_attack"); cbn [bind]; try reflexivity.
  match goal with
  | |- context [buy_attack ?f ?c ?w ?q] => destruct (buy_attack f c w q)
  end; cbn [bind]; try reflexivity.
  rewrite (Ha "spend_defense"%string). reflexivity.
Qed.

(** *** The player argument is a reference into the engine *)

Lemma player_of_set_player pid v e : player_of pid (set_player pid v e) = v.
Proof. destruct pid; reflexivity. Qed.

Lemma set_player_set_player pid u v e :
  set_player pid v (set_player pid u e) = set_player pid v e.
Proof. destruct pid; reflexivity. Qed.

Lemma set_player_frame pid v e :
  turn (set_player pid v e) = turn e
  /\ neutral_territory (set_player pid v e) = neutral_territory e
  /\ history (set_player pid v e) = history e.
Proof. destruct pid; simpl; auto. Qed.

Lemma set_player_other pid v e :
  match pid with
  | P1 => p2 (set_player pid v e) = p2 e
  | P2 => p1 (set_player pid v e) = p1 e
  end.
Proof. destruct pid; reflexivity. Qed.

(** The body of [_apply_commands] reads and writes the engine through
    [player] only: its effect is that of [apply_commands_on] on that
    player, the rest of the engine is as it was. *)
Lemma _apply_commands_on_player fuel cfg e pid cmd prices :
  _apply_commands fuel cfg e pid cmd prices
  = do p <- apply_commands_on fuel cfg (player_of pid e) cmd prices;
    Ret (set_player pid p e).
Proof.
  unfold _apply_commands, apply_commands_on.
  destruct (cmd_amount cmd "sell_attack") as [z1| |]; cbn [bind];
    try reflexivity.
  set (e1 := if nonzero z1 then _ else e).
  set (q1 := if nonzero z1 then _ else player_of pid e).
  assert (H1 : player_of pid e1 = q1 /\ forall v, set_player pid v e1
                                                  = set_player pid v e).
  { subst e1 q1. destruct (nonzero z1).
    - split; [apply player_of_set_player|].
      intros v. apply set_player_set_player.
    - auto. }
  destruct H1 as (Hq1 & Hs1). clearbody e1 q1.
  destruct (cmd_amount cmd "sell_defense") as [z2| |]; cbn [bind];
    try reflexivity.
  rewrite Hq1.
  set (e2 := if nonzero z2 then _ else e1).
  set (q2 := if nonzero z2 then _ else q1).
  assert (H2 : player_of pid e2 = q2 /\ forall v, set_player pid v e2
                                                  = set_player pid v e).
  { subst e2 q2. destruct (nonzero z2).
    - split; [apply player_of_set_player|].
      intros v. rewrite set_player_set_player. apply Hs1.
    - auto. }
  destruct H2 as (Hq2 & Hs2). clearbody e2 q2.
  destruct (cmd_amount cmd "expand") as [z3| |]; cbn [bind];
    try reflexivity.
  rewrite Hq2.
  destruct (pay_for_expands fuel cfg z3 q2) as [r3| |]; cbn [bind];
    try reflexivity.
  rewrite !player_of_set_player.
  set (e3 := if cmd_scout cmd then _ else set_player pid (snd r3) e2).
  set (q3 := if cmd_scout cmd then _ else snd r3).
  assert (H3 : player_of pid e3 = q3 /\ forall v, set_player pid v e3
                                                  = set_player pid v e).
  { subst e3 q3.
    destruct (cmd_scout cmd); [destruct (SCOUT_COST cfg <=? gold (snd r3))|].
    - split; [apply player_of_set_player|].
      intros v. rewrite !set_player_set_player. apply Hs2.
    - split; [apply player_of_set_player|].
      intros v. rewrite set_player_set_player. apply Hs2.
    - split; [apply player_of_set_player|].
      intros v. rewrite set_player_set_player. apply Hs2. }
  destruct H3 as (Hq3 & Hs3). clearbody e3 q3.
  destruct (cmd_amount cmd "spend_attack") as [z4| |]; cbn [bind];
    try reflexivity.
  rewrite Hq3.
  destruct (buy_attack fuel cfg (Z.min z4 (gold q3)) q3) as [r4| |];
    cbn [bind]; try reflexivity.
  destruct (cmd_amount cmd "spend_defense") as [z5| |]; cbn [bind];
    try reflexivity.
  rewrite !player_of_set_player.
  destruct (buy_defense fuel cfg (Z.min z5 (gold (snd r4))) (snd r4))
    as [r5| |]; cbn [bind]; try reflexivity.
  rewrite !set_player_set_player. rewrite Hs3. reflexivity.
Qed.

Lemma _apply_commands_inv fuel cfg e pid cmd prices e' :
  _apply_commands fuel cfg e pid cmd prices = Ret e' ->
  exists q, apply_commands_on fuel cfg (player_of pid e) cmd prices = Ret q
            /\ e' = set_player pid q e.
Proof.
  rewrite _apply_commands_on_player. intros H. inv_bind H as q Hq.
  injection H as <-. eauto.
Qed.

Lemma _apply_commands_mono fuel fuel' cfg e pid cmd prices e' :
  _apply_commands fuel cfg e pid cmd prices = Ret e' -> (fuel <= fuel')%nat ->
  _apply_commands fuel' cfg e pid cmd prices = Ret e'.
Proof.
  rewrite !_apply_commands_on_player. intros H Hle. inv_bind H as q Hq.
  rewrite (apply_commands_on_mono cfg fuel fuel' _ _ _ _ Hq Hle). exact H.
Qed.

(** *** Sales *)

Lemma cmd_amount_without_sales (cmd : gmap string pyval) key :
  cmd_amount (without_sales cmd) key
  = if decide (key = "sell_attack"%string) then Ret 0
    else if decide (key = "sell_defense"%string) then Ret 0
         else cmd_amount cmd key.
Proof.
  unfold without_sales, cmd_amount, get.
  destruct (decide (key = "sell_attack"%string)) as [->|Ha].
  - rewrite lookup_insert_eq. reflexivity.
  - rewrite lookup_insert_ne by congruence.
    destruct (decide (key = "sell_defense"%string)) as [->|Hd].
    + rewrite lookup_insert_eq. reflexivity.
    + rewrite lookup_insert_ne by congruence. reflexivity.
Qed.

Lemma cmd_scout_without_sales (cmd : gmap string pyval) :
  cmd_scout (without_sales cmd) = cmd_scout cmd.
Proof.
  unfold without_sales. rewrite !cmd_scout_insert_other by discriminate.
  reflexivity.
Qed.

(** A command does to a player what the command without its sales does
    to the player after the sales. *)
Lemma apply_commands_on_sales fuel cfg p cmd prices z1 z2 :
  cmd_amount cmd "sell_attack" = Ret z1 ->
  cmd_amount cmd "sell_defense" = Ret z2 ->
  apply_commands_on fuel cfg p cmd prices
  = apply_commands_on fuel cfg (after_sales cfg z1 z2 p) (without_sales cmd)
      prices.
Proof.
  intros E1 E2. unfold apply_commands_on.
  rewrite E1, E2. rewrite !cmd_amount_without_sales.
  rewrite cmd_scout_without_sales. cbn [bind decide]. reflexivity.
Qed.

(** The sales in closed form. *)
Lemma after_sales_fields cfg z1 z2 p :
  0 <= z1 -> 0 <= z2 -> 0 <= attack p -> 0 <= defense p ->
  after_sales cfg z1 z2 p
  = set_gold (gold p + Z.min z1 (attack p) * (ATK_BASE cfg / 2)
              + Z.min z2 (defense p) * (DEF_BASE cfg / 2))
      (set_attack (attack p - Z.min z1 (attack p))
         (set_defense (defense p - Z.min z2 (defense p)) p)).
Proof.
  intros H1 H2 Ha Hd. unfold after_sales.
  destruct (nonzero z1) eqn:N1; destruct (nonzero z2) eqn:N2;
    try (apply nonzero_false in N1; subst z1);
    try (apply nonzero_false in N2; subst z2);
    unfold _refund_attack, _refund_defense; cbn [snd];
    rewrite ?(Z.max_r 0 (Z.min z1 (attack p))) by lia;
    rewrite ?(Z.max_r 0 (Z.min z2 (defense p))) by lia;
    rewrite ?(Z.min_l 0 (attack p)) by lia;
    rewrite ?(Z.min_l 0 (defense p)) by lia;
    apply player_ext; simpl;
    rewrite ?(Z.max_r 0 (Z.min z1 (attack p))) by lia;
    rewrite ?(Z.max_r 0 (Z.min z2 (defense p))) by lia;
    rewrite ?(Z.min_l 0 (attack p)) by lia;
    rewrite ?(Z.min_l 0 (defense p)) by lia;
    try reflexivity; lia.
Qed.

(** C10.  A negative amount in any of the five numeric fields has the
    effect of a zero.  A command that asks to sell [z1] attack and [z2]
    defense units has the effect of the command without its sales on the
    player who has first sold [min z1 attack] attack units and
    [min z2 defense] defense units, all the units held when more are
    asked for, each at half the base price rounded down; the same holds
    of the direct calls of [_refund_attack] and [_refund_defense].  A
    command applied for a player without negative gold or units leaves
    that player without negative gold or units.  With unit prices of at
    least one gold the application of a command whose amounts [int]
    accepts does return. *)
Theorem apply_commands_sanitizes
    (cfg : GameSettings) (e : Engine) (pid : player_id)
    (cmd : gmap string pyval) (prices : Prices) :
  0 <= ATK_BASE cfg -> 0 <= DEF_BASE cfg ->
  nonneg_player (player_of pid e) ->
  (forall fuel key z, In key amount_keys -> z < 0 ->
     _apply_commands fuel cfg e pid (<[key := PyInt z]> cmd) prices
     = _apply_commands fuel cfg e pid (<[key := PyInt 0]> cmd) prices)
  /\ (forall fuel z1 z2 sold_atk sold_def,
        cmd_amount cmd "sell_attack" = Ret z1 ->
        cmd_amount cmd "sell_defense" = Ret z2 ->
        sold_atk = Z.min z1 (attack (player_of pid e)) ->
        sold_def = Z.min z2 (defense (player_of pid e)) ->
        0 <= sold_atk /\ 0 <= sold_def
        /\ (attack (player_of pid e) <= z1 ->
            sold_atk = attack (player_of pid e))
        /\ (defense (player_of pid e) <= z2 ->
            sold_def = defense (player_of pid e))
        /\ _apply_commands fuel cfg e pid cmd prices
           = _apply_commands fuel cfg
               (set_player pid
                  (set_gold (gold (player_of pid e)
                             + sold_atk * (ATK_BASE cfg / 2)
                             + sold_def * (DEF_BASE cfg / 2))
                     (set_attack (attack (player_of pid e) - sold_atk)
                        (set_defense (defense (player_of pid e) - sold_def)
                           (player_of pid e)))) e)
               pid (without_sales cmd) prices)
  /\ (forall units sold,
        sold = Z.max 0 (Z.min units (attack (player_of pid e))) ->
        (attack (player_of pid e) <= units ->
         sold = attack (player_of pid e))
        /\ (0 <= units <= attack (player_of pid e) -> sold = units)
        /\ (units < 0 -> sold = 0)
        /\ fst (_refund_attack cfg units (player_of pid e))
           = sold * (ATK_BASE cfg / 2)
        /\ attack (snd (_refund_attack cfg units (player_of pid e)))
           = attack (player_of pid e) - sold
        /\ gold (snd (_refund_attack cfg units (player_of pid e)))
           = gold (player_of pid e) + sold * (ATK_BASE cfg / 2))
  /\ (forall units sold,
        sold = Z.max 0 (Z.min units (defense (player_of pid e))) ->
        (defense (player_of pid e) <= units ->
         sold = defense (player_of pid e))
        /\ (0 <= units <= defense (player_of pid e) -> sold = units)
        /\ (units < 0 -> sold = 0)
        /\ fst (_refund_defense cfg units (player_of pid e))
           = sold * (DEF_BASE cfg / 2)
        /\ defense (snd (_refund_defense cfg units (player_of pid e)))
           = defense (player_of pid e) - sold
        /\ gold (snd (_refund_defense cfg units (player_of pid e)))
           = gold (player_of pid e) + sold * (DEF_BASE cfg / 2))
  /\ (forall fuel e',
        _apply_commands fuel cfg e pid cmd prices = Ret e' ->
        nonneg_player (player_of pid e'))
  /\ (1 <= ATK_BASE cfg -> 0 <= ATK_K cfg ->
      1 <= DEF_BASE cfg -> 0 <= DEF_K cfg -> cmd_numeric cmd = true ->
      exists fuel e', _apply_commands fuel cfg e pid cmd prices = Ret e').
Proof.
  intros Hab Hdb Hp. destruct Hp as (Hg & Ha & Hd).
  split; [|split; [|split; [|split; [|split]]]].
  - intros fuel key z Hin Hz. rewrite !_apply_commands_on_player.
    f_equal. apply apply_commands_on_ext.
    + intros key'. apply cmd_amount_insert_negative. exact Hz.
    + rewrite !cmd_scout_insert_other; [reflexivity| |];
        simpl in Hin; intuition (subst; discriminate).
  - intros fuel z1 z2 sa sd E1 E2 -> ->.
    pose proof (cmd_amount_nonneg _ _ _ E1) as Hz1.
    pose proof (cmd_amount_nonneg _ _ _ E2) as Hz2.
    split; [lia|]. split; [lia|]. split; [lia|]. split; [lia|].
    rewrite !_apply_commands_on_player.
    rewrite player_of_set_player.
    rewrite (apply_commands_on_sales fuel cfg _ cmd prices z1 z2 E1 E2).
    rewrite (after_sales_fields cfg z1 z2 _ Hz1 Hz2 Ha Hd).
    destruct (apply_commands_on fuel cfg _ (without_sales cmd) prices);
      cbn [bind]; try reflexivity.
    rewrite set_player_set_player. reflexivity.
  - intros units sold ->. unfold _refund_attack. simpl.
    repeat split; lia.
  - intros units sold ->. unfold _refund_defense. simpl.
    repeat split; lia.
  - intros fuel e' H. apply _apply_commands_inv in H.
    destruct H as (q & Hq & ->). rewrite player_of_set_player.
    apply (apply_commands_on_nonneg cfg fuel (player_of pid e) cmd prices q
             Hab Hdb);
      [repeat split; assumption | exact Hq].
  - intros H1 H2 H3 H4 Hnum.
    destruct (apply_commands_on_returns cfg H1 H2 H3 H4
                (player_of pid e) cmd prices)
      as (fuel & p' & Hr & _); [repeat split; assumption | exact Hnum |].
    exists fuel, (set_player pid p' e).
    rewrite _apply_commands_on_player, Hr. reflexivity.
Qed.

(** The veteran, who holds two attack units and one defense unit, asks
    to sell five and seven and bids for minus three cells: two attack
    units are sold for ten gold each and one defense unit for four,
    nothing is bid for. *)
Lemma apply_commands_sanitizes_witness :
  _apply_commands 4 settings veteran_engine P1 liquidate_cmd start_prices
  = Ret (set_p1 (set_gold 34 (set_attack 0 (set_defense 0 veteran_player)))
           veteran_engine)
  /\ nonneg_player (set_gold 34 (set_attack 0 (set_defense 0 veteran_player)))
  /\ _apply_commands 4 settings veteran_engine P1 liquidate_cmd start_prices
     = _apply_commands 4 settings
         (set_p1 (set_gold 34 (set_attack 0 (set_defense 0 veteran_player)))
            veteran_engine)
         P1 (without_sales liquidate_cmd) start_prices.
Proof.
  assert (Hrun : _apply_commands 4 settings veteran_engine P1 liquidate_cmd
                   start_prices
          = Ret (set_p1 (set_gold 34 (set_attack 0
                                        (set_defense 0 veteran_player)))
                   veteran_engine))
    by (vm_compute; reflexivity).
  split; [exact Hrun|].
  assert (H1 : 0 <= ATK_BASE settings) by (simpl; lia).
  assert (H2 : 0 <= DEF_BASE settings) by (simpl; lia).
  assert (H3 : nonneg_player (player_of P1 veteran_engine))
    by (unfold nonneg_player; simpl; lia).
  destruct (apply_commands_sanitizes settings veteran_engine P1 liquidate_cmd
              start_prices H1 H2 H3)
    as (_ & Hsale & _ & _ & Hsafe & _).
  split; [exact (Hsafe 4%nat _ Hrun)|].
  assert (E1 : cmd_amount liquidate_cmd "sell_attack" = Ret 5)
    by (vm_compute; reflexivity).
  assert (E2 : cmd_amount liquidate_cmd "sell_defense" = Ret 7)
    by (vm_compute; reflexivity).
  destruct (Hsale 4%nat 5 7 2 1 E1 E2 eq_refl eq_refl)
    as (_ & _ & _ & _ & Heq).
  exact Heq.
Defined.

(** ** Order of the two command applications *)

(** Both orders of application come to the engine in which each player
    is the result of its own command applied to its own earlier state. *)
Lemma apply_commands_both fuel cfg cmd1 cmd2 prices1 prices2 e e' :
  (do e1 <- _apply_commands fuel cfg e P1 cmd1 prices1;
   _apply_commands fuel cfg e1 P2 cmd2 prices2) = Ret e'
  <-> exists q1 q2,
        apply_commands_on fuel cfg (p1 e) cmd1 prices1 = Ret q1
        /\ apply_commands_on fuel cfg (p2 e) cmd2 prices2 = Ret q2
        /\ e' = mkEngine (turn e) (neutral_territory e) q1 q2 (history e).
Proof.
  split.
  - intros H. apply bind_Ret_inv in H. destruct H as (e1 & H1 & H2).
    apply _apply_commands_inv in H1. destruct H1 as (q1 & Hq1 & ->).
    apply _apply_commands_inv in H2. destruct H2 as (q2 & Hq2 & ->).
    exists q1, q2. simpl in Hq1, Hq2. auto.
  - intros (q1 & q2 & Hq1 & Hq2 & ->).
    rewrite _apply_commands_on_player. simpl. rewrite Hq1. simpl.
    rewrite _apply_commands_on_player. simpl. rewrite Hq2. reflexivity.
Qed.

Lemma apply_commands_both_rev fuel cfg cmd1 cmd2 prices1 prices2 e e' :
  (do e2 <- _apply_commands fuel cfg e P2 cmd2 prices2;
   _apply_commands fuel cfg e2 P1 cmd1 prices1) = Ret e'
  <-> exists q1 q2,
        apply_commands_on fuel cfg (p1 e) cmd1 prices1 = Ret q1
        /\ apply_commands_on fuel cfg (p2 e) cmd2 prices2 = Ret q2
        /\ e' = mkEngine (turn e) (neutral_territory e) q1 q2 (history e).
Proof.
  split.
  - intros H. apply bind_Ret_inv in H. destruct H as (e1 & H1 & H2).
    apply _apply_commands_inv in H1. destruct H1 as (q2 & Hq2 & ->).
    apply _apply_commands_inv in H2. destruct H2 as (q1 & Hq1 & ->).
    exists q1, q2. simpl in Hq1, Hq2. auto.
  - intros (q1 & q2 & Hq1 & Hq2 & ->).
    rewrite _apply_commands_on_player. simpl. rewrite Hq2. simpl.
    rewrite _apply_commands_on_player. simpl. rewrite Hq1. reflexivity.
Qed.

(** C9.  Let the application of player 1's command alone complete with
    the engine [ea] and that of player 2's command alone with [eb].  Then
    both orders of application complete, with the same engine [e']: in it
    player 1 is as in [ea] and player 2 as in [eb], the neutral pool, the
    turn and the history are those of before, and the allocation that
    follows is the same.  Each application alone leaves the other player
    and the neutral pool as they were.  Whether or not the applications
    complete, one order completes with an engine exactly when the other
    completes with it. *)
Theorem apply_commands_order_independent
    (fuel : nat) (cfg : GameSettings) (cmd1 cmd2 : gmap string pyval)
    (prices1 prices2 : Prices) (e ea eb : Engine) :
  _apply_commands fuel cfg e P1 cmd1 prices1 = Ret ea ->
  _apply_commands fuel cfg e P2 cmd2 prices2 = Ret eb ->
  (exists e',
      (do e1 <- _apply_commands fuel cfg e P1 cmd1 prices1;
       _apply_commands fuel cfg e1 P2 cmd2 prices2) = Ret e'
      /\ (do e2 <- _apply_commands fuel cfg e P2 cmd2 prices2;
          _apply_commands fuel cfg e2 P1 cmd1 prices1) = Ret e'
      /\ p1 e' = p1 ea /\ p2 e' = p2 eb
      /\ neutral_territory e' = neutral_territory e
      /\ turn e' = turn e /\ history e' = history e)
  /\ (do e1 <- _apply_commands fuel cfg e P1 cmd1 prices1;
      do e12 <- _apply_commands fuel cfg e1 P2 cmd2 prices2;
      Ret (_allocate_neutral e12))
     = (do e2 <- _apply_commands fuel cfg e P2 cmd2 prices2;
        do e21 <- _apply_commands fuel cfg e2 P1 cmd1 prices1;
        Ret (_allocate_neutral e21))
  /\ (p2 ea = p2 e /\ neutral_territory ea = neutral_territory e
      /\ turn ea = turn e /\ history ea = history e)
  /\ (p1 eb = p1 e /\ neutral_territory eb = neutral_territory e
      /\ turn eb = turn e /\ history eb = history e)
  /\ (forall e',
        (do e1 <- _apply_commands fuel cfg e P1 cmd1 prices1;
         _apply_commands fuel cfg e1 P2 cmd2 prices2) = Ret e'
        <->
        (do e2 <- _apply_commands fuel cfg e P2 cmd2 prices2;
         _apply_commands fuel cfg e2 P1 cmd1 prices1) = Ret e').
Proof.
  intros Ha Hb.
  pose proof Ha as Ha'. pose proof Hb as Hb'.
  apply _apply_commands_inv in Ha'. destruct Ha' as (q1 & Hq1 & Ea).
  apply _apply_commands_inv in Hb'. destruct Hb' as (q2 & Hq2 & Eb).
  simpl in Hq1, Hq2, Ea, Eb.
  assert (H12 : (do e1 <- _apply_commands fuel cfg e P1 cmd1 prices1;
                 _apply_commands fuel cfg e1 P2 cmd2 prices2)
                = Ret (mkEngine (turn e) (neutral_territory e) q1 q2
                         (history e)))
    by (apply apply_commands_both; eauto).
  assert (H21 : (do e2 <- _apply_commands fuel cfg e P2 cmd2 prices2;
                 _apply_commands fuel cfg e2 P1 cmd1 prices1)
                = Ret (mkEngine (turn e) (neutral_territory e) q1 q2
                         (history e)))
    by (apply apply_commands_both_rev; eauto).
  split; [|split; [|split; [|split]]].
  - exists (mkEngine (turn e) (neutral_territory e) q1 q2 (history e)).
    subst ea eb. simpl. auto 10.
  - rewrite Ha, Hb. cbn [bind].
    rewrite Ha in H12. cbn [bind] in H12. rewrite H12.
    rewrite Hb in H21. cbn [bind] in H21. rewrite H21. reflexivity.
  - subst ea. simpl. auto.
  - subst eb. simpl. auto.
  - intros e'. rewrite apply_commands_both, apply_commands_both_rev.
    reflexivity.
Qed.

(** On a fresh engine, one player bids and scouts while the other arms:
    the order of application does not show in the result. *)
Lemma apply_commands_order_independent_witness :
  exists e',
    (do e1 <- _apply_commands 10 settings (reset settings) P1 expand6_scout
                start_prices;
     _apply_commands 10 settings e1 P2 arm_cmd start_prices) = Ret e'
    /\ (do e2 <- _apply_commands 10 settings (reset settings) P2 arm_cmd
                   start_prices;
        _apply_commands 10 settings e2 P1 expand6_scout start_prices)
       = Ret e'
    /\ p1 e' = set_pending_expands 4 (set_gold 4 (p1 (reset settings)))
    /\ p2 e' = set_defense 1 (set_attack 1
                                (set_gold 21 (p2 (reset settings)))).
Proof.
  destruct (apply_commands_order_independent 10 settings expand6_scout
              arm_cmd start_prices start_prices (reset settings)
              (set_p1 (set_pending_expands 4
                         (set_gold 4 (p1 (reset settings))))
                 (reset settings))
              (set_p2 (set_defense 1 (set_attack 1
                                        (set_gold 21 (p2 (reset settings)))))
                 (reset settings)))
    as ((e' & H12 & H21 & Hp1 & Hp2 & _) & _).
  - vm_compute. reflexivity.
  - vm_compute. reflexivity.
  - exists e'. auto.
Defined.

(** C9, as the code has it when an application raises.  With a [None]
    amount in player 1's command and a word in player 2's, the turn ends
    in the TypeError of player 1's command in the order of the source and
    in the ValueError of player 2's command in the other order.  With a
    [None] amount in player 1's command and a purchase in player 2's, the
    order of the source raises before player 2 is touched, the other
    order raises after player 2 has paid for its units. *)
Lemma apply_commands_order_shows_when_raising :
  (do e1 <- _apply_commands 10 settings (reset settings) P1 none_cmd
              start_prices;
   _apply_commands 10 settings e1 P2 word_cmd start_prices)
  = Raise TypeError
  /\ (do e2 <- _apply_commands 10 settings (reset settings) P2 word_cmd
                 start_prices;
      _apply_commands 10 settings e2 P1 none_cmd start_prices)
     = Raise ValueError
  /\ _apply_commands 10 settings (reset settings) P1 none_cmd start_prices
     = Raise TypeError
  /\ exists e2,
       _apply_commands 10 settings (reset settings) P2 arm_cmd start_prices
       = Ret e2
       /\ gold (p2 (reset settings)) = 50 /\ gold (p2 e2) = 21
       /\ _apply_commands 10 settings e2 P1 none_cmd start_prices
          = Raise TypeError.
Proof.
  split; [vm_compute; reflexivity|].
  split; [vm_compute; reflexivity|].
  split; [vm_compute; reflexivity|].
  eexists. split; [vm_compute; reflexivity|].
  repeat split.
Qed.

(** ** The turn *)

Section Turn.

Variable cfg : GameSettings.
Context {W S1 S2 : Type}.
Variable s1 : Strategy W S1.
Variable s2 : Strategy W S2.

Lemma collect_and_pay_mono (fuel fuel' : nat) (p r : PlayerState) :
  collect_and_pay fuel cfg p = Ret r -> (fuel <= fuel')%nat ->
  collect_and_pay fuel' cfg p = Ret r.
Proof. unfold collect_and_pay. apply apply_upkeep_mono. Qed.

Lemma collect_and_pay_returns (p : PlayerState) :
  0 <= attack p -> 0 <= defense p ->
  exists fuel p', collect_and_pay fuel cfg p = Ret p' /\ nonneg_player p'.
Proof.
  intros Ha Hd. unfold collect_and_pay.
  destruct (apply_upkeep_log_returns cfg
              (set_gold (gold p + income cfg p) p) Ha Hd)
    as (ka & kd & Hlog & Hka & Hkd & _).
  exists (Z.to_nat (attack p + defense p)). eexists. split.
  - rewrite apply_upkeep_log_erase, Hlog by (simpl; lia). reflexivity.
  - unfold nonneg_player. simpl in *. repeat split; lia.
Qed.

(** What a turn that returns has done, step by step. *)
Lemma _play_turn_inv (fuel : nat) (m m' : Match W S1 S2) :
  _play_turn fuel cfg s1 s2 m = Ret m' ->
  exists a b sc1 sc2 q1 q2,
    let e := engine m in
    let e2 := set_p2 b (set_p1 a e) in
    let e4 := mkEngine (turn e) (neutral_territory e) q1 q2 (history e) in
    let e6 := _resolve_combat (_allocate_neutral e4) in
    collect_and_pay fuel cfg (p1 e) = Ret a
    /\ collect_and_pay fuel cfg (p2 e) = Ret b
    /\ _safe_step s1 (world m) (state1 m) (fst (_prepare_obs cfg e2 a b))
       = Ret sc1
    /\ _safe_step s2 (fst (fst sc1)) (state2 m)
         (fst (_prepare_obs cfg e2 b a)) = Ret sc2
    /\ apply_commands_on fuel cfg a (snd sc1)
         (snd (_prepare_obs cfg e2 a b)) = Ret q1
    /\ apply_commands_on fuel cfg b (snd sc2)
         (snd (_prepare_obs cfg e2 b a)) = Ret q2
    /\ m' = mkMatch
              (set_p2 (set_has_enemy_intel (cmd_scout (snd sc2)) (p2 e6))
                 (set_p1 (set_has_enemy_intel (cmd_scout (snd sc1)) (p1 e6))
                    e6))
              (fst (fst sc2)) (snd (fst sc1)) (snd (fst sc2)).
Proof.
  unfold _play_turn. intros H.
  inv_bind H as a Ha.
  inv_bind H as b Hb.
  inv_bind H as sc1 Hs1.
  inv_bind H as sc2 Hs2.
  inv_bind H as e3 H3.
  inv_bind H as e4 H4.
  apply _apply_commands_inv in H3. destruct H3 as (q1 & Hq1 & ->).
  apply _apply_commands_inv in H4. destruct H4 as (q2 & Hq2 & ->).
  injection H as <-.
  exists a, b, sc1, sc2, q1, q2. cbv zeta.
  simpl in Ha, Hb, Hs1, Hs2, Hq1, Hq2 |- *.
  repeat split; assumption.
Qed.

(** A turn changes neither the turn counter nor the history. *)
Lemma _play_turn_frame (fuel : nat) (m m' : Match W S1 S2) :
  _play_turn fuel cfg s1 s2 m = Ret m' ->
  turn (engine m') = turn (engine m)
  /\ history (engine m') = history (engine m).
Proof.
  intros H. apply _play_turn_inv in H.
  destruct H as (a & b & sc1 & sc2 & q1 & q2 & H). cbv zeta in H.
  destruct H as (_ & _ & _ & _ & _ & _ & ->). simpl. auto.
Qed.

Lemma _play_turn_mono (fuel fuel' : nat) (m m' : Match W S1 S2) :
  _play_turn fuel cfg s1 s2 m = Ret m' -> (fuel <= fuel')%nat ->
  _play_turn fuel' cfg s1 s2 m = Ret m'.
Proof.
  unfold _play_turn. intros H Hle.
  inv_bind H as a Ha.
  apply (bind_Ret _ _ a _ (collect_and_pay_mono _ _ _ _ Ha Hle)).
  cbv beta zeta in H |- *.
  inv_bind H as b Hb.
  apply (bind_Ret _ _ b _ (collect_and_pay_mono _ _ _ _ Hb Hle)).
  cbv beta zeta in H |- *.
  inv_bind H as sc1 Hs1.
  apply (bind_Ret _ _ sc1 _ Hs1). cbv beta zeta in H |- *.
  inv_bind H as sc2 Hs2.
  apply (bind_Ret _ _ sc2 _ Hs2). cbv beta zeta in H |- *.
  inv_bind H as e3 H3.
  apply (bind_Ret _ _ e3 _ (_apply_commands_mono _ _ _ _ _ _ _ _ H3 Hle)).
  cbv beta zeta in H |- *.
  inv_bind H as e4 H4.
  apply (bind_Ret _ _ e4 _ (_apply_commands_mono _ _ _ _ _ _ _ _ H4 Hle)).
  exact H.
Qed.


Lemma _safe_step_returns {S} (s : Strategy W S) w st obs :
  steps_raise_exceptions s -> exists sc, _safe_step s w st obs = Ret sc.
Proof.
  intros Hs. unfold _safe_step.
  destruct (strat_step s w st obs) as [ws [cmd| |exc]] eqn:E; eauto.
  rewrite (Hs _ _ _ _ _ E). eauto.
Qed.

Lemma cmd_numeric_safe_step {S} (s : Strategy W S) w st obs sc :
  steps_numeric s -> _safe_step s w st obs = Ret sc ->
  cmd_numeric (snd sc) = true.
Proof.
  intros Hs. unfold _safe_step.
  destruct (strat_step s w st obs) as [ws [cmd| |exc]] eqn:E.
  - intros [= <-]. exact (Hs _ _ _ _ _ E).
  - intros [= <-]. reflexivity.
  - destruct (is_Exception exc); [|discriminate]. intros [= <-]. reflexivity.
Qed.

End Turn.

(** ** The match *)

Section MatchLoop.

Variable cfg : GameSettings.
Context {W S1 S2 : Type}.
Variable s1 : Strategy W S1.
Variable s2 : Strategy W S2.

Lemma run_loop_mono (fuel : nat) :
  forall fuel' (m m' : Match W S1 S2),
    run_loop fuel cfg s1 s2 m = Ret m' -> (fuel <= fuel')%nat ->
    run_loop fuel' cfg s1 s2 m = Ret m'.
Proof.
  induction fuel as [|fuel IH]; intros fuel' m m' H Hle.
  - destruct fuel'; simpl in *;
      destruct (turn (engine m) <? MAX_TURNS cfg); congruence.
  - destruct fuel' as [|fuel']; [lia|]. simpl in *.
    destruct (turn (engine m) <? MAX_TURNS cfg); [|exact H].
    inv_bind H as m1 H1.
    apply (bind_Ret _ _ m1).
    { eapply _play_turn_mono; [exact H1 | lia]. }
    destruct (_winner_declared (engine m1)); [exact H|].
    apply IH; [exact H | lia].
Qed.

(** The loop never touches the history and only moves the turn counter
    forward, up to [MAX_TURNS]. *)
Lemma run_loop_frame (fuel : nat) :
  forall (m m' : Match W S1 S2),
    run_loop fuel cfg s1 s2 m = Ret m' ->
    history (engine m') = history (engine m)
    /\ turn (engine m) <= turn (engine m')
    /\ turn (engine m') <= Z.max (turn (engine m)) (MAX_TURNS cfg).
Proof.
  induction fuel as [|fuel IH]; intros m m' H; simpl in H;
    destruct (turn (engine m) <? MAX_TURNS cfg) eqn:Hc;
    try discriminate;
    try (injection H as <-; repeat split; lia).
  apply Z.ltb_lt in Hc.
  inv_bind H as m1 H1.
  apply _play_turn_frame in H1. simpl in H1. destruct H1 as [Ht Hh].
  destruct (_winner_declared (engine m1)).
  - injection H as <-. rewrite Ht, Hh. repeat split; lia.
  - apply IH in H. rewrite Ht, Hh in H. destruct H as (Hh' & Hlo & Hhi).
    repeat split; [exact Hh' | lia | lia].
Qed.

Hypothesis start_attack_nonneg : 0 <= START_ATTACK cfg.
Hypothesis start_defense_nonneg : 0 <= START_DEFENSE cfg.
Hypothesis atk_base_pos : 1 <= ATK_BASE cfg.
Hypothesis atk_k_nonneg : 0 <= ATK_K cfg.
Hypothesis def_base_pos : 1 <= DEF_BASE cfg.
Hypothesis def_k_nonneg : 0 <= DEF_K cfg.
Hypothesis numeric1 : steps_numeric s1.
Hypothesis numeric2 : steps_numeric s2.
Hypothesis recoverable1 : steps_raise_exceptions s1.
Hypothesis recoverable2 : steps_raise_exceptions s2.

Lemma _play_turn_returns (m : Match W S1 S2) :
  units_nonneg (engine m) ->
  exists fuel m',
    _play_turn fuel cfg s1 s2 m = Ret m' /\ units_nonneg (engine m').
Proof.
  intros (Ha1 & Hd1 & Ha2 & Hd2).
  destruct (collect_and_pay_returns cfg (p1 (engine m)) Ha1 Hd1)
    as (f1 & a & Ha & Na).
  destruct (collect_and_pay_returns cfg (p2 (engine m)) Ha2 Hd2)
    as (f2 & b & Hb & Nb).
  set (e2 := set_p2 b (set_p1 a (engine m))).
  destruct (_safe_step_returns s1 (world m) (state1 m)
              (fst (_prepare_obs cfg e2 a b)) recoverable1) as (sc1 & Hs1).
  destruct (_safe_step_returns s2 (fst (fst sc1)) (state2 m)
              (fst (_prepare_obs cfg e2 b a)) recoverable2) as (sc2 & Hs2).
  destruct (apply_commands_on_returns cfg atk_base_pos atk_k_nonneg
              def_base_pos def_k_nonneg a (snd sc1)
              (snd (_prepare_obs cfg e2 a b)) Na
              (cmd_numeric_safe_step s1 _ _ _ _ numeric1 Hs1))
    as (f3 & q1 & Hq1 & N1).
  destruct (apply_commands_on_returns cfg atk_base_pos atk_k_nonneg
              def_base_pos def_k_nonneg b (snd sc2)
              (snd (_prepare_obs cfg e2 b a)) Nb
              (cmd_numeric_safe_step s2 _ _ _ _ numeric2 Hs2))
    as (f4 & q2 & Hq2 & N2).
  exists (f1 + f2 + f3 + f4)%nat. eexists. split.
  - unfold _play_turn.
    apply (bind_Ret _ _ a).
    { eapply collect_and_pay_mono; [exact Ha | lia]. }
    cbv beta zeta. apply (bind_Ret _ _ b).
    { eapply collect_and_pay_mono; [exact Hb | lia]. }
    cbv beta zeta. simpl p1. simpl p2. fold e2.
    apply (bind_Ret _ _ sc1 _ Hs1). cbv beta zeta.
    apply (bind_Ret _ _ sc2 _ Hs2). cbv beta zeta.
    apply (bind_Ret _ _ (set_p1 q1 e2)).
    { rewrite _apply_commands_on_player. simpl player_of.
      apply (bind_Ret _ _ q1); [|reflexivity].
      eapply apply_commands_on_mono; [exact Hq1 | lia]. }
    cbv beta zeta.
    apply (bind_Ret _ _ (set_p2 q2 (set_p1 q1 e2))).
    { rewrite _apply_commands_on_player. simpl player_of.
      apply (bind_Ret _ _ q2); [|reflexivity].
      eapply apply_commands_on_mono; [exact Hq2 | lia]. }
    reflexivity.
  - destruct N1 as (_ & A1 & D1). destruct N2 as (_ & A2 & D2).
    unfold units_nonneg. simpl. repeat split; assumption.
Qed.

Lemma run_loop_returns (n : nat) :
  forall m : Match W S1 S2,
    units_nonneg (engine m) ->
    (Z.to_nat (MAX_TURNS cfg - turn (engine m)) <= n)%nat ->
    exists fuel m', run_loop fuel cfg s1 s2 m = Ret m'.
Proof.
  induction n as [|n IH]; intros m Hu Hn.
  - exists 0%nat, m. simpl.
    destruct (turn (engine m) <? MAX_TURNS cfg) eqn:Hc; [|reflexivity].
    apply Z.ltb_lt in Hc. lia.
  - destruct (turn (engine m) <? MAX_TURNS cfg) eqn:Hc.
    + apply Z.ltb_lt in Hc.
      set (m1 := mkMatch (set_turn (turn (engine m) + 1) (engine m))
                   (world m) (state1 m) (state2 m)).
      destruct (_play_turn_returns m1) as (f1 & m2 & H2 & Hu2);
        [exact Hu|].
      pose proof (_play_turn_frame cfg s1 s2 _ _ _ H2) as [Ht _].
      simpl in Ht.
      destruct (_winner_declared (engine m2)) eqn:Hw.
      * exists (S f1), m2. simpl.
        rewrite (proj2 (Z.ltb_lt _ _) Hc). fold m1. rewrite H2. simpl.
        rewrite Hw. reflexivity.
      * destruct (IH m2 Hu2) as (f2 & m3 & H3); [lia|].
        exists (S (f1 + f2)), m3. simpl.
        rewrite (proj2 (Z.ltb_lt _ _) Hc). fold m1.
        rewrite (_play_turn_mono cfg s1 s2 f1 (f1 + f2) _ _ H2)
          by lia.
        simpl. rewrite Hw.
        apply (run_loop_mono f2); [exact H3 | lia].
    + exists 0%nat, m. simpl. rewrite Hc. reflexivity.
Qed.

Lemma check_winner_at_end (e : Engine) :
  _check_winner e true = Some "player1"%string
  \/ _check_winner e true = Some "player2"%string
  \/ _check_winner e true = Some "draw"%string.
Proof.
  unfold _check_winner.
  destruct ((territory (p1 e) =? 0) && (territory (p2 e) =? 0)); [auto|].
  destruct (territory (p1 e) =? 0); [auto|].
  destruct (territory (p2 e) =? 0); [auto|].
  destruct (gold (p1 e) =? gold (p2 e)); [auto|].
  destruct (gold (p2 e) <? gold (p1 e)); auto.
Qed.

(** Once [reset] has returned for both strategies, the match runs to its
    end whatever the [step] calls do. *)
Lemma run_returns (w : W) (st1 : S1) (st2 : S2) (ws1 : W * S1)
    (ws2 : W * S2) :
  strat_reset s1 w st1 (_observation cfg (reset cfg) P1) = inr ws1 ->
  strat_reset s2 (fst ws1) st2 (_observation cfg (reset cfg) P2) = inr ws2 ->
  exists fuel0 r m,
    (forall fuel, (fuel0 <= fuel)%nat ->
       run fuel cfg s1 s2 w st1 st2 = Ret (r, m))
    /\ (winner r = Some "player1"%string
        \/ winner r = Some "player2"%string
        \/ winner r = Some "draw"%string)
    /\ 0 <= turns r <= Z.max 0 (MAX_TURNS cfg)
    /\ r = _result (engine m) true.
Proof.
  intros R1 R2.
  destruct (run_loop_returns (Z.to_nat (MAX_TURNS cfg))
              (mkMatch (reset cfg) (fst ws2) (snd ws1) (snd ws2)))
    as (fuel0 & m & Hm).
  { unfold units_nonneg. simpl. lia. }
  { simpl. lia. }
  exists fuel0, (_result (engine m) true), m.
  split; [|split; [|split]].
  - intros fuel Hle. unfold run. rewrite R1, R2.
    rewrite (run_loop_mono fuel0 fuel _ _ Hm Hle). reflexivity.
  - apply check_winner_at_end.
  - apply run_loop_frame in Hm. simpl in Hm |- *. lia.
  - reflexivity.
Qed.

End MatchLoop.

(** ** Failing strategies *)




(** ** History and intel, as the code has them *)

(** C4.  The code at the failing input: the match of two dummy strategies
    under the default settings completes 200 turns, and the history it
    leaves is the history of [reset], the single snapshot of turn 0. *)
Theorem run_records_initial_snapshot_only :
  exists r m,
    run 300 settings DummyStrategy DummyStrategy tt tt tt = Ret (r, m)
    /\ turns r = 200
    /\ history (engine m) = history (reset settings)
    /\ length (history (engine m)) = 1%nat.
Proof.
  destruct (run 300 settings DummyStrategy DummyStrategy tt tt tt)
    as [[r m]| |] eqn:E; try (vm_compute in E; discriminate).
  exists r, m. split; [reflexivity|].
  assert (Hr : turns r = 200) by (vm_compute in E; injection E as <- _;
                                   reflexivity).
  split; [exact Hr|].
  unfold run in E. simpl strat_reset in E. cbv iota in E.
  apply bind_Ret_inv in E. destruct E as (m0 & Hm0 & E).
  injection E as _ <-.
  apply run_loop_frame in Hm0. destruct Hm0 as (Hh & _).
  simpl in Hh. rewrite Hh. split; reflexivity.
Qed.

(** C5.  The code at the failing input: in the first turn under the
    default settings player 1 bids for six cells and asks for a scout.
    After income it has 80 gold, the six cells cost 75, the 5 gold left
    do not pay the scout cost of 20 and stay untouched; yet the intel flag
    is set and the next observation shows the enemy's gold, attack and
    defense. *)
Theorem unaffordable_scout_still_grants_intel :
  exists m',
    _play_turn 10 settings (ConstStrategy expand6_scout) DummyStrategy
      (mkMatch (set_turn 1 (reset settings)) tt tt tt) = Ret m'
    /\ gold (p1 (engine m')) = 5
    /\ gold (p1 (engine m')) < SCOUT_COST settings
    /\ has_enemy_intel (p1 (engine m')) = true
    /\ obs_enemy_intel (_observation settings (engine m') P1)
       = Some (mkIntel 80 0 0).
Proof.
  eexists. split; [vm_compute; reflexivity|].
  simpl. repeat split; lia.
Qed.

(** * Further properties of the engine *)

(** ** What a purchase costs *)

Section PurchaseAccounts.

Variable cfg : GameSettings.

Lemma pay_loop_account (fuel : nat) :
  forall wanted bought p b' p',
    pay_loop fuel cfg wanted bought p = Ret (b', p') ->
    exists n : nat,
      b' = bought + Z.of_nat n
      /\ gold p' = gold p - sum_from (expand_price cfg p) bought n
      /\ (bought <= wanted -> b' <= wanted)
      /\ (wanted <= bought -> n = 0%nat)
      /\ (b' < wanted -> gold p' < expand_price cfg p b').
Proof.
  induction fuel as [|fuel IH]; intros wanted bought p b' p' H; simpl in H;
    destruct (bought <? wanted) eqn:Hw; try discriminate;
    try (injection H as <- <-; apply Z.ltb_ge in Hw;
         exists 0%nat; simpl; repeat split; lia).
  apply Z.ltb_lt in Hw.
  destruct (gold p <? expand_price cfg p bought) eqn:Hc.
  - injection H as <- <-. apply Z.ltb_lt in Hc.
    exists 0%nat. simpl. rewrite Z.add_0_r. repeat split; lia.
  - apply Z.ltb_ge in Hc. apply IH in H.
    destruct H as (n & Hb & Hg & Hle & _ & Hmax).
    exists (S n). simpl in Hg |- *.
    unfold expand_price in *. simpl in *.
    repeat split; try lia.
Qed.

Lemma buy_attack_loop_account (fuel : nat) :
  forall gold_limit spent p s' p',
    buy_attack_loop fuel cfg gold_limit spent p = Ret (s', p') ->
    exists k : nat,
      s' = spent
           + sum_from (fun held => ATK_BASE cfg + ATK_K cfg * held)
               (attack p) k
      /\ attack p' = attack p + Z.of_nat k
      /\ gold_limit - s' < _attack_price cfg p'.
Proof.
  induction fuel as [|fuel IH]; intros gold_limit spent p s' p' H;
    simpl in H;
    destruct (_attack_price cfg p <=? gold_limit - spent) eqn:Hc;
    try discriminate;
    try (injection H as <- <-; apply Z.leb_gt in Hc;
         exists 0%nat; simpl; repeat split; lia).
  apply IH in H. destruct H as (k & Hs & Ha & Hmax).
  exists (S k). simpl in *. unfold _attack_price in Hs.
  repeat split; lia.
Qed.

Lemma buy_defense_loop_account (fuel : nat) :
  forall gold_limit spent p s' p',
    buy_defense_loop fuel cfg gold_limit spent p = Ret (s', p') ->
    exists k : nat,
      s' = spent
           + sum_from (fun held => DEF_BASE cfg + DEF_K cfg * held)
               (defense p) k
      /\ defense p' = defense p + Z.of_nat k
      /\ gold_limit - s' < _defense_price cfg p'.
Proof.
  induction fuel as [|fuel IH]; intros gold_limit spent p s' p' H;
    simpl in H;
    destruct (_defense_price cfg p <=? gold_limit - spent) eqn:Hc;
    try discriminate;
    try (injection H as <- <-; apply Z.leb_gt in Hc;
         exists 0%nat; simpl; repeat split; lia).
  apply IH in H. destruct H as (k & Hs & Ha & Hmax).
  exists (S k). simpl in *. unfold _defense_price in Hs.
  repeat split; lia.
Qed.

(** With a non-negative base and slope, [k] units bought from [held]
    units on cost at least [k] base prices. *)
Lemma sum_from_linear_lower (base slope : Z) (k : nat) :
  0 <= slope ->
  forall held, 0 <= held ->
    Z.of_nat k * base <= sum_from (fun h => base + slope * h) held k.
Proof.
  intros Hs. induction k as [|k IH]; intros held Hh; simpl sum_from.
  - lia.
  - specialize (IH (held + 1) ltac:(lia)). nia.
Qed.

End PurchaseAccounts.

(** X1.  [pay_for_expands] always returns, within [wanted] iterations.
    It pays for [n] cells with [n] between zero and [wanted], at the
    prices of the lifetime cells [expanded_total], [expanded_total + 1],
    ..., records [n] as the pending bid and changes nothing else; it never
    overdraws; and it stops short of [wanted] only when the next cell is
    not affordable. *)
Theorem pay_for_expands_account
    (cfg : GameSettings) (wanted : Z) (p : PlayerState) :
  exists (n : nat) (p' : PlayerState),
    (forall fuel, (Z.to_nat wanted <= fuel)%nat ->
       pay_for_expands fuel cfg wanted p = Ret (Z.of_nat n, p'))
    /\ Z.of_nat n <= Z.max 0 wanted
    /\ gold p' = gold p - sum_from (expand_price cfg p) 0 n
    /\ pending_expands p' = Z.of_nat n
    /\ (0 <= gold p -> 0 <= gold p')
    /\ (Z.of_nat n < wanted -> gold p' < expand_price cfg p (Z.of_nat n))
    /\ territory p' = territory p /\ attack p' = attack p
    /\ defense p' = defense p /\ expanded_total p' = expanded_total p
    /\ has_enemy_intel p' = has_enemy_intel p.
Proof.
  destruct (pay_loop_returns cfg (Z.to_nat wanted) wanted 0 p)
    as [[b q] Hq]; [lia|].
  destruct (pay_loop_account cfg _ _ _ _ _ _ Hq)
    as (n & Hb & Hg & Hle & Hzero & Hmax).
  destruct (pay_loop_frame cfg _ _ _ _ _ _ Hq)
    as ((Et & Ea & Ed & Ee & _ & Ei) & Hnn).
  simpl in Hb. subst b.
  exists n, (set_pending_expands (Z.of_nat n) q). split.
  - intros fuel Hfuel. unfold pay_for_expands.
    rewrite (pay_loop_mono cfg _ fuel _ _ _ _ Hq Hfuel). reflexivity.
  - simpl. repeat split; try assumption.
    destruct (Z.le_gt_cases 0 wanted) as [Hw|Hw]; [lia|].
    assert (n = 0%nat) by (apply Hzero; lia). lia.
Qed.

(** The expansion test of the suite: three cells for 10 + 11 + 12 out of
    50 gold. *)
Lemma pay_for_expands_account_witness :
  pay_for_expands 3 settings 3 (PlayerState_init settings)
  = Ret (3, set_pending_expands 3 (set_gold 17 (PlayerState_init settings))).
Proof.
  destruct (pay_for_expands_account settings 3 (PlayerState_init settings))
    as (n & p' & Hrun & _).
  specialize (Hrun 3%nat ltac:(simpl; lia)).
  vm_compute in Hrun |- *. reflexivity.
Defined.

(** X2.  With an attack base price of at least one and a non-negative
    slope, [buy_attack] returns within [gold_limit] iterations.  It buys
    [k] units at the prices of holding [attack], [attack + 1], ... units,
    takes exactly their sum from the gold, stays within a non-negative
    limit, and stops only when the rest of the limit does not pay the next
    unit. *)
Theorem buy_attack_account
    (cfg : GameSettings) (gold_limit : Z) (p : PlayerState) :
  1 <= ATK_BASE cfg -> 0 <= ATK_K cfg -> 0 <= attack p ->
  exists (k : nat) (spent : Z) (p' : PlayerState),
    (forall fuel, (Z.to_nat gold_limit <= fuel)%nat ->
       buy_attack fuel cfg gold_limit p = Ret (spent, p'))
    /\ spent = sum_from (fun held => ATK_BASE cfg + ATK_K cfg * held)
                 (attack p) k
    /\ attack p' = attack p + Z.of_nat k
    /\ gold p' = gold p - spent
    /\ Z.of_nat k * ATK_BASE cfg <= spent
    /\ (0 <= gold_limit -> spent <= gold_limit)
    /\ gold_limit - spent < _attack_price cfg p'
    /\ territory p' = territory p /\ defense p' = defense p
    /\ expanded_total p' = expanded_total p
    /\ pending_expands p' = pending_expands p
    /\ has_enemy_intel p' = has_enemy_intel p.
Proof.
  intros Hb Hk Ha.
  destruct (buy_attack_loop_returns cfg (Z.to_nat gold_limit) Hb Hk
              gold_limit 0 p Ha) as [[s q] Hq]; [lia|].
  destruct (buy_attack_loop_account cfg _ _ _ _ _ _ Hq)
    as (k & Hs & Hatk & Hmax).
  destruct (buy_attack_loop_frame cfg _ _ _ _ _ _ Hq)
    as ((Eg & Et & Ed & Ee & Ep & Ei) & _ & Hlim).
  simpl in Hs.
  exists k, s, (set_gold (gold q - s) q). split.
  - intros fuel Hfuel. unfold buy_attack.
    rewrite (buy_attack_loop_mono cfg _ fuel _ _ _ _ Hq Hfuel). reflexivity.
  - pose proof (sum_from_linear_lower (ATK_BASE cfg) (ATK_K cfg) k Hk
                  (attack p) Ha) as Hlow.
    simpl. unfold _attack_price in *. simpl.
    repeat split; try assumption; try lia.
Qed.

(** Sixty gold buy two attack units for 20 + 21. *)
Lemma buy_attack_account_witness :
  buy_attack 60 settings 60 (set_gold 60 (PlayerState_init settings))
  = Ret (41, set_attack 2 (set_gold 19 (PlayerState_init settings))).
Proof.
  destruct (buy_attack_account settings 60
              (set_gold 60 (PlayerState_init settings)))
    as (k & spent & p' & Hrun & _); try (simpl; lia).
  specialize (Hrun 60%nat ltac:(simpl; lia)).
  vm_compute in Hrun |- *. reflexivity.
Defined.

(** X3.  The same account for [buy_defense]. *)
Theorem buy_defense_account
    (cfg : GameSettings) (gold_limit : Z) (p : PlayerState) :
  1 <= DEF_BASE cfg -> 0 <= DEF_K cfg -> 0 <= defense p ->
  exists (k : nat) (spent : Z) (p' : PlayerState),
    (forall fuel, (Z.to_nat gold_limit <= fuel)%nat ->
       buy_defense fuel cfg gold_limit p = Ret (spent, p'))
    /\ spent = sum_from (fun held => DEF_BASE cfg + DEF_K cfg * held)
                 (defense p) k
    /\ defense p' = defense p + Z.of_nat k
    /\ gold p' = gold p - spent
    /\ Z.of_nat k * DEF_BASE cfg <= spent
    /\ (0 <= gold_limit -> spent <= gold_limit)
    /\ gold_limit - spent < _defense_price cfg p'
    /\ territory p' = territory p /\ attack p' = attack p
    /\ expanded_total p' = expanded_total p
    /\ pending_expands p' = pending_expands p
    /\ has_enemy_intel p' = has_enemy_intel p.
Proof.
  intros Hb Hk Ha.
  destruct (buy_defense_loop_returns cfg (Z.to_nat gold_limit) Hb Hk
              gold_limit 0 p Ha) as [[s q] Hq]; [lia|].
  destruct (buy_defense_loop_account cfg _ _ _ _ _ _ Hq)
    as (k & Hs & Hdef & Hmax).
  destruct (buy_defense_loop_frame cfg _ _ _ _ _ _ Hq)
    as ((Eg & Et & Eatk & Ee & Ep & Ei) & _ & Hlim).
  simpl in Hs.
  exists k, s, (set_gold (gold q - s) q). split.
  - intros fuel Hfuel. unfold buy_defense.
    rewrite (buy_defense_loop_mono cfg _ fuel _ _ _ _ Hq Hfuel).
    reflexivity.
  - pose proof (sum_from_linear_lower (DEF_BASE cfg) (DEF_K cfg) k Hk
                  (defense p) Ha) as Hlow.
    simpl. unfold _defense_price in *. simpl.
    repeat split; try assumption; try lia.
Qed.

(** Eighteen gold buy one defense unit for 9; the next costs 12. *)
Lemma buy_defense_account_witness :
  buy_defense 18 settings 18 (set_gold 18 (PlayerState_init settings))
  = Ret (9, set_defense 1 (set_gold 9 (PlayerState_init settings))).
Proof.
  destruct (buy_defense_account settings 18
              (set_gold 18 (PlayerState_init settings)))
    as (k & spent & p' & Hrun & _); try (simpl; lia).
  specialize (Hrun 18%nat ltac:(simpl; lia)).
  vm_compute in Hrun |- *. reflexivity.
Defined.

(** X4.  Buying attack units and selling the same number back never
    leaves more gold than before: the refund of half the base price is
    at most what any unit cost. *)
Theorem buy_then_refund_attack_no_gain
    (fuel : nat) (cfg : GameSettings) (gold_limit spent : Z)
    (p q : PlayerState) :
  0 <= ATK_BASE cfg -> 0 <= ATK_K cfg -> 0 <= attack p ->
  buy_attack fuel cfg gold_limit p = Ret (spent, q) ->
  attack (snd (_refund_attack cfg (attack q - attack p) q)) = attack p
  /\ fst (_refund_attack cfg (attack q - attack p) q) <= spent
  /\ gold (snd (_refund_attack cfg (attack q - attack p) q)) <= gold p.
Proof.
  intros Hb Hk Ha H. unfold buy_attack in H.
  inv_bind H as r Hr. destruct r as [s q0]. injection H as <- <-.
  destruct (buy_attack_loop_account cfg _ _ _ _ _ _ Hr)
    as (k & Hs & Hatk & _).
  destruct (buy_attack_loop_frame cfg _ _ _ _ _ _ Hr)
    as ((Eg & _) & _ & _).
  pose proof (sum_from_linear_lower (ATK_BASE cfg) (ATK_K cfg) k Hk
                (attack p) Ha) as Hlow.
  assert (Hhalf : 0 <= ATK_BASE cfg / 2 <= ATK_BASE cfg)
    by (split; [apply Z.div_pos; lia | apply Z.div_le_upper_bound; lia]).
  unfold _refund_attack. simpl in *.
  replace (Z.max 0 (Z.min (attack q0 - attack p) (attack q0)))
    with (Z.of_nat k) by lia.
  repeat split; try lia; nia.
Qed.

Lemma buy_then_refund_attack_no_gain_witness :
  gold (snd (_refund_attack settings 2
               (set_attack 2 (set_gold 19 (PlayerState_init settings)))))
  <= 60.
Proof.
  assert (H1 : 0 <= ATK_BASE settings) by (simpl; lia).
  assert (H2 : 0 <= ATK_K settings) by (simpl; lia).
  assert (H3 : 0 <= attack (set_gold 60 (PlayerState_init settings)))
    by (simpl; lia).
  destruct (buy_then_refund_attack_no_gain 60 settings 60 41
              (set_gold 60 (PlayerState_init settings))
              (set_attack 2 (set_gold 19 (PlayerState_init settings)))
              H1 H2 H3 ltac:(vm_compute; reflexivity))
    as (_ & _ & Hg).
  exact Hg.
Defined.

(** ** Upkeep disbands no more than the deficit asks for *)

Lemma upkeep_loop_log_minimal (cfg : GameSettings) (fuel : nat) :
  forall d p r log,
    upkeep_loop_log fuel cfg d p = Ret (r, log) ->
    d = - gold p ->
    gold r = gold p + refunds cfg log
    /\ (forall l u, log = l ++ [u] -> gold p + refunds cfg l < 0).
Proof.
  induction fuel as [|fuel IH]; intros d p r log H Hd; simpl in H;
    destruct ((0 <? d) && (nonzero (attack p) || nonzero (defense p)))
      eqn:Hcond;
    try discriminate;
    try (injection H as <- <-; simpl; split; [lia|];
         intros [|x l] u Hl; discriminate).
  apply andb_true_iff in Hcond. destruct Hcond as [Hpos _].
  apply Z.ltb_lt in Hpos.
  destruct (nonzero (attack p)); [|destruct (nonzero (defense p))].
  - inv_bind H as r0 Hr0. destruct r0 as [q log0].
    injection H as <- <-. simpl fst. simpl snd.
    apply IH in Hr0; [|simpl; lia]. destruct Hr0 as [Hg Hlast].
    simpl in Hg |- *. split; [lia|].
    intros [|x l] u Hl; simpl in Hl.
    + simpl. lia.
    + injection Hl as <- Hl. specialize (Hlast _ _ Hl).
      simpl in Hlast |- *. lia.
  - inv_bind H as r0 Hr0. destruct r0 as [q log0].
    injection H as <- <-. simpl fst. simpl snd.
    apply IH in Hr0; [|simpl; lia]. destruct Hr0 as [Hg Hlast].
    simpl in Hg |- *. split; [lia|].
    intros [|x l] u Hl; simpl in Hl.
    + simpl. lia.
    + injection Hl as <- Hl. specialize (Hlast _ _ Hl).
      simpl in Hlast |- *. lia.
  - apply IH in H; [|exact Hd]. exact H.
Qed.

(** X5.  [apply_upkeep] disbands only to cover a deficit.  Its record of
    disbanded units is empty when the gold pays the upkeep, and then only
    the gold changes; whenever a unit is disbanded, the balance after
    upkeep and the refunds of all units disbanded before it was still
    negative; and the gold left is that balance with all refunds, or zero
    where that is negative. *)
Theorem apply_upkeep_disbands_only_for_deficit
    (fuel : nat) (cfg : GameSettings) (p p' : PlayerState)
    (log : list unit_kind) :
  apply_upkeep_log fuel cfg p = Ret (p', log) ->
  apply_upkeep fuel cfg p = Ret p'
  /\ gold p' = Z.max 0 (gold p - upkeep_cost cfg p + refunds cfg log)
  /\ (upkeep_cost cfg p <= gold p ->
      log = [] /\ p' = set_gold (gold p - upkeep_cost cfg p) p)
  /\ (forall l u, log = l ++ [u] ->
      gold p - upkeep_cost cfg p + refunds cfg l < 0).
Proof.
  intros H. split.
  { rewrite apply_upkeep_log_erase, H. reflexivity. }
  unfold apply_upkeep_log in H. cbv zeta in H.
  destruct (0 <=? gold (set_gold (gold p - upkeep_cost cfg p) p)) eqn:Hpos;
    simpl in Hpos.
  - apply Z.leb_le in Hpos. injection H as <- <-. simpl.
    repeat split; try lia.
    intros [|x l] u Hl; discriminate.
  - apply Z.leb_gt in Hpos. inv_bind H as r Hr. destruct r as [q log0].
    injection H as <- <-. simpl fst in *. simpl snd in *.
    apply upkeep_loop_log_minimal in Hr; [|reflexivity].
    destruct Hr as [Hg Hlast]. simpl in Hg, Hlast.
    split; [|split].
    + destruct (gold q <? 0) eqn:Hq;
        [apply Z.ltb_lt in Hq | apply Z.ltb_ge in Hq]; simpl; lia.
    + intros Hle. lia.
    + exact Hlast.
Qed.

(** The demobilisation test: twelve gold short, three attack units at
    four gold each cover it exactly. *)
Lemma apply_upkeep_disbands_only_for_deficit_witness :
  gold demobilise_player - upkeep_cost settings demobilise_player
  + refunds settings [AttackUnit; AttackUnit] < 0.
Proof.
  destruct (apply_upkeep_disbands_only_for_deficit 5 settings
              demobilise_player
              (set_gold 0 (set_attack 0 demobilise_player))
              [AttackUnit; AttackUnit; AttackUnit]
              ltac:(vm_compute; reflexivity))
    as (_ & _ & _ & Hlast).
  exact (Hlast [AttackUnit; AttackUnit] AttackUnit eq_refl).
Defined.

(** ** Symmetries of allocation, combat and winner *)

(** X6.  For non-negative bids and pool, only the strictly higher bidder
    gains cells in [_allocate_neutral]: player 1 gains
    [max(0, min(a - b, N - b))] and player 2 gains
    [max(0, min(b - a, N - a))].  So equal bids gain nothing, at most one
    side gains, nobody gains more than it bid for, and the neutral pool
    does not become negative. *)
Theorem allocate_neutral_higher_bidder_only (e : Engine) :
  0 <= pending_expands (p1 e) -> 0 <= pending_expands (p2 e) ->
  0 <= neutral_territory e ->
  let a := pending_expands (p1 e) in
  let b := pending_expands (p2 e) in
  let N := neutral_territory e in
  let gain1 := territory (p1 (_allocate_neutral e)) - territory (p1 e) in
  let gain2 := territory (p2 (_allocate_neutral e)) - territory (p2 e) in
  gain1 = Z.max 0 (Z.min (a - b) (N - b))
  /\ gain2 = Z.max 0 (Z.min (b - a) (N - a))
  /\ (gain1 = 0 \/ gain2 = 0)
  /\ 0 <= gain1 <= a /\ 0 <= gain2 <= b
  /\ (a = b -> gain1 = 0 /\ gain2 = 0
               /\ neutral_territory (_allocate_neutral e) = N)
  /\ 0 <= neutral_territory (_allocate_neutral e) <= N.
Proof.
  intros Ha Hb HN. unfold _allocate_neutral. simpl. lia.
Qed.

(** Nine against seven on a pool of ten: two cells to player 1. *)
Lemma allocate_neutral_higher_bidder_only_witness :
  territory (p1 (_allocate_neutral crowded_engine))
  - territory (p1 crowded_engine) = 2.
Proof.
  assert (H1 : 0 <= pending_expands (p1 crowded_engine)) by (simpl; lia).
  assert (H2 : 0 <= pending_expands (p2 crowded_engine)) by (simpl; lia).
  assert (H3 : 0 <= neutral_territory crowded_engine) by (simpl; lia).
  destruct (allocate_neutral_higher_bidder_only crowded_engine H1 H2 H3)
    as (H & _).
  exact H.
Defined.

(** X7.  For non-negative bids and pool, [_allocate_neutral] treats the
    two players alike: exchanging the players before the allocation is the
    same as exchanging them after it.  The order in which the code serves
    the two unique demands never decides anything. *)
Theorem allocate_neutral_symmetric (e : Engine) :
  0 <= pending_expands (p1 e) -> 0 <= pending_expands (p2 e) ->
  0 <= neutral_territory e ->
  _allocate_neutral (swap_players e) = swap_players (_allocate_neutral e).
Proof.
  intros Ha Hb HN.
  apply engine_ext; try reflexivity; try (simpl; lia);
    apply player_ext; simpl; try reflexivity; lia.
Qed.

Lemma allocate_neutral_symmetric_witness :
  territory (p2 (_allocate_neutral (swap_players crowded_engine))) = 32.
Proof.
  assert (H1 : 0 <= pending_expands (p1 crowded_engine)) by (simpl; lia).
  assert (H2 : 0 <= pending_expands (p2 crowded_engine)) by (simpl; lia).
  assert (H3 : 0 <= neutral_territory crowded_engine) by (simpl; lia).
  rewrite (allocate_neutral_symmetric crowded_engine H1 H2 H3).
  reflexivity.
Defined.

(** X8.  [_resolve_combat] treats the two players alike, and a side whose
    attack does not exceed the enemy's defense takes nothing from it: if
    that holds for both sides, combat changes nothing. *)
Theorem resolve_combat_symmetric (e : Engine) :
  _resolve_combat (swap_players e) = swap_players (_resolve_combat e)
  /\ (attack (p1 e) <= defense (p2 e) -> 0 <= territory (p2 e) ->
      p2 (_resolve_combat e) = p2 e)
  /\ (attack (p2 e) <= defense (p1 e) -> 0 <= territory (p1 e) ->
      p1 (_resolve_combat e) = p1 e)
  /\ (attack (p1 e) <= defense (p2 e) -> attack (p2 e) <= defense (p1 e) ->
      0 <= territory (p1 e) -> 0 <= territory (p2 e) ->
      _resolve_combat e = e).
Proof.
  split; [|split; [|split]].
  - apply engine_ext; try reflexivity; try (simpl; lia);
      apply player_ext; simpl; try reflexivity; lia.
  - intros H1 H2. apply player_ext; simpl; try reflexivity; lia.
  - intros H1 H2. apply player_ext; simpl; try reflexivity; lia.
  - intros H1 H2 H3 H4.
    apply engine_ext; try reflexivity; try (simpl; lia);
      apply player_ext; simpl; try reflexivity; lia.
Qed.

Lemma resolve_combat_symmetric_witness :
  territory (p1 (_resolve_combat (swap_players combat_engine))) = 28
  /\ p1 (_resolve_combat combat_engine) = p1 combat_engine.
Proof.
  destruct (resolve_combat_symmetric combat_engine) as (Hs & _ & Hkeep & _).
  split; [rewrite Hs; reflexivity|].
  apply Hkeep; simpl; lia.
Defined.

(** X9.  [_check_winner] treats the two players alike: on the exchanged
    engine it names the other player, and a draw stays a draw.  During the
    match a winner is declared exactly when some territory is zero. *)
Theorem check_winner_symmetric (e : Engine) (is_end : bool) :
  _check_winner (swap_players e) is_end
  = swap_winner (_check_winner e is_end)
  /\ (_winner_declared e = true
      <-> territory (p1 e) = 0 \/ territory (p2 e) = 0).
Proof.
  unfold _winner_declared, _check_winner, swap_players. simpl. split.
  - destruct (territory (p1 e) =? 0) eqn:E1,
             (territory (p2 e) =? 0) eqn:E2; simpl; try reflexivity.
    destruct is_end; [|reflexivity].
    destruct (Z.compare_spec (gold (p1 e)) (gold (p2 e))) as [Heq|Hlt|Hgt].
    + rewrite (proj2 (Z.eqb_eq _ _) Heq).
      rewrite (proj2 (Z.eqb_eq _ _) (eq_sym Heq)). reflexivity.
    + rewrite (proj2 (Z.eqb_neq (gold (p2 e)) (gold (p1 e)))) by lia.
      rewrite (proj2 (Z.eqb_neq (gold (p1 e)) (gold (p2 e)))) by lia.
      rewrite (proj2 (Z.ltb_lt _ _) Hlt).
      rewrite (proj2 (Z.ltb_ge (gold (p2 e)) (gold (p1 e)))) by lia.
      reflexivity.
    + rewrite (proj2 (Z.eqb_neq (gold (p2 e)) (gold (p1 e)))) by lia.
      rewrite (proj2 (Z.eqb_neq (gold (p1 e)) (gold (p2 e)))) by lia.
      rewrite (proj2 (Z.ltb_lt _ _) Hgt).
      rewrite (proj2 (Z.ltb_ge (gold (p1 e)) (gold (p2 e)))) by lia.
      reflexivity.
  - destruct (Z.eqb_spec (territory (p1 e)) 0) as [E1|E1],
             (Z.eqb_spec (territory (p2 e)) 0) as [E2|E2]; simpl;
      split; intros H; auto; try discriminate.
    destruct H; contradiction.
Qed.

Lemma check_winner_symmetric_witness :
  _check_winner (swap_players timeout_engine) true = Some "player2"%string.
Proof.
  destruct (check_winner_symmetric timeout_engine true) as [Hs _].
  rewrite Hs. reflexivity.
Defined.

(** ** More on command application *)

Section CommandFacts.

Variable cfg : GameSettings.

(** As [apply_commands_on_ext], asking for equal amounts under the five
    amount keys only. *)
Lemma apply_commands_on_ext_keys fuel p cmd cmd' prices :
  (forall key, In key amount_keys ->
     cmd_amount cmd key = cmd_amount cmd' key) ->
  cmd_scout cmd = cmd_scout cmd' ->
  apply_commands_on fuel cfg p cmd prices
  = apply_commands_on fuel cfg p cmd' prices.
Proof.
  intros Ha Hs. unfold apply_commands_on.
  rewrite (Ha "sell_attack"%string) by (simpl; tauto).
  destruct (cmd_amount cmd' "sell_attack"); cbn [bind]; try reflexivity.
  rewrite (Ha "sell_defense"%string) by (simpl; tauto).
  destruct (cmd_amount cmd' "sell_defense"); cbn [bind]; try reflexivity.
  rewrite (Ha "expand"%string) by (simpl; tauto).
  destruct (cmd_amount cmd' "expand"); cbn [bind]; try reflexivity.
  match goal with
  | |- context [pay_for_expands ?f ?c ?w ?q] =>
      destruct (pay_for_expands f c w q)
  end; cbn [bind]; try reflexivity.
  rewrite Hs. rewrite (Ha "spend_attack"%string) by (simpl; tauto).
  destruct (cmd_amount cmd' "spend_attack"); cbn [bind]; try reflexivity.
  match goal with
  | |- context [buy_attack ?f ?c ?w ?q] => destruct (buy_attack f c w q)
  end; cbn [bind]; try reflexivity.
  rewrite (Ha "spend_defense"%string) by (simpl; tauto). reflexivity.
Qed.

Lemma pay_for_expands_zero fuel p :
  pay_for_expands fuel cfg 0 p = Ret (0, set_pending_expands 0 p).
Proof. destruct fuel; reflexivity. Qed.

Lemma buy_attack_nothing fuel gold_limit p :
  gold_limit < _attack_price cfg p ->
  buy_attack fuel cfg gold_limit p = Ret (0, p).
Proof.
  intros H. unfold buy_attack.
  assert (E : buy_attack_loop fuel cfg gold_limit 0 p = Ret (0, p)).
  { destruct fuel; simpl;
      rewrite (proj2 (Z.leb_gt _ _)) by lia; reflexivity. }
  rewrite E. simpl. f_equal. f_equal.
  apply player_ext; simpl; try reflexivity; lia.
Qed.

Lemma buy_defense_nothing fuel gold_limit p :
  gold_limit < _defense_price cfg p ->
  buy_defense fuel cfg gold_limit p = Ret (0, p).
Proof.
  intros H. unfold buy_defense.
  assert (E : buy_defense_loop fuel cfg gold_limit 0 p = Ret (0, p)).
  { destruct fuel; simpl;
      rewrite (proj2 (Z.leb_gt _ _)) by lia; reflexivity. }
  rewrite E. simpl. f_equal. f_equal.
  apply player_ext; simpl; try reflexivity; lia.
Qed.

(** The fields no purchase or sale touches. *)
Lemma buy_attack_fields fuel gold_limit p r :
  buy_attack fuel cfg gold_limit p = Ret r ->
  territory (snd r) = territory p
  /\ expanded_total (snd r) = expanded_total p
  /\ pending_expands (snd r) = pending_expands p
  /\ has_enemy_intel (snd r) = has_enemy_intel p.
Proof.
  unfold buy_attack. intros H. inv_bind H as q Hq. destruct q as [s q].
  injection H as <-. apply buy_attack_loop_frame in Hq.
  destruct Hq as ((_ & Et & _ & Ee & Ep & Ei) & _). simpl. auto.
Qed.

Lemma buy_defense_fields fuel gold_limit p r :
  buy_defense fuel cfg gold_limit p = Ret r ->
  territory (snd r) = territory p
  /\ expanded_total (snd r) = expanded_total p
  /\ pending_expands (snd r) = pending_expands p
  /\ has_enemy_intel (snd r) = has_enemy_intel p.
Proof.
  unfold buy_defense. intros H. inv_bind H as q Hq. destruct q as [s q].
  injection H as <-. apply buy_defense_loop_frame in Hq.
  destruct Hq as ((_ & Et & _ & Ee & Ep & Ei) & _). simpl. auto.
Qed.

Lemma pay_for_expands_fields fuel wanted p r :
  pay_for_expands fuel cfg wanted p = Ret r ->
  territory (snd r) = territory p
  /\ expanded_total (snd r) = expanded_total p
  /\ has_enemy_intel (snd r) = has_enemy_intel p
  /\ pending_expands (snd r) = fst r
  /\ (0 <= wanted -> 0 <= fst r <= wanted).
Proof.
  unfold pay_for_expands. intros H. inv_bind H as q Hq.
  destruct q as [b q]. injection H as <-.
  destruct (pay_loop_frame cfg _ _ _ _ _ _ Hq)
    as ((Et & _ & _ & Ee & _ & Ei) & _).
  destruct (pay_loop_account cfg _ _ _ _ _ _ Hq) as (n & Hb & _ & Hle & _).
  simpl. repeat split; try assumption; lia.
Qed.

Lemma apply_commands_on_fields fuel p cmd prices p' :
  apply_commands_on fuel cfg p cmd prices = Ret p' ->
  territory p' = territory p
  /\ expanded_total p' = expanded_total p
  /\ has_enemy_intel p' = has_enemy_intel p
  /\ exists want,
       cmd_amount cmd "expand" = Ret want
       /\ 0 <= pending_expands p' <= want.
Proof.
  intros H. unfold apply_commands_on in H.
  inv_bind H as z1 E1. inv_bind H as z2 E2. inv_bind H as z3 E3.
  inv_bind H as r3 P3. inv_bind H as z4 E4. inv_bind H as r4 P4.
  inv_bind H as z5 E5. inv_bind H as r5 P5. injection H as <-.
  apply buy_defense_fields in P5. destruct P5 as (T5 & X5 & N5 & I5).
  apply buy_attack_fields in P4. destruct P4 as (T4 & X4 & N4 & I4).
  apply pay_for_expands_fields in P3.
  destruct P3 as (T3 & X3 & I3 & N3 & B3).
  pose proof (cmd_amount_nonneg _ _ _ E3) as Hz3. specialize (B3 Hz3).
  rewrite T5, X5, N5, I5, T4, X4, N4, I4.
  assert (Hs : forall q : PlayerState,
             territory (if cmd_scout cmd then
                          if SCOUT_COST cfg <=? gold q
                          then set_gold (gold q - SCOUT_COST cfg) q else q
                        else q) = territory q
             /\ expanded_total (if cmd_scout cmd then
                          if SCOUT_COST cfg <=? gold q
                          then set_gold (gold q - SCOUT_COST cfg) q else q
                        else q) = expanded_total q
             /\ pending_expands (if cmd_scout cmd then
                          if SCOUT_COST cfg <=? gold q
                          then set_gold (gold q - SCOUT_COST cfg) q else q
                        else q) = pending_expands q
             /\ has_enemy_intel (if cmd_scout cmd then
                          if SCOUT_COST cfg <=? gold q
                          then set_gold (gold q - SCOUT_COST cfg) q else q
                        else q) = has_enemy_intel q).
  { intros q. destruct (cmd_scout cmd);
      [destruct (SCOUT_COST cfg <=? gold q)|]; simpl; auto. }
  destruct (Hs (snd r3)) as (Ts & Xs & Ns & Is).
  rewrite Ts, Xs, Ns, Is, T3, X3, I3, N3.
  assert (Hsell : forall q : PlayerState,
             territory (if nonzero z2
                        then snd (_refund_defense cfg z2 q) else q)
             = territory q
             /\ expanded_total (if nonzero z2
                        then snd (_refund_defense cfg z2 q) else q)
                = expanded_total q
             /\ has_enemy_intel (if nonzero z2
                        then snd (_refund_defense cfg z2 q) else q)
                = has_enemy_intel q).
  { intros q. destruct (nonzero z2); simpl; auto. }
  match goal with
  | |- territory (if nonzero z2 then _ else ?q) = _ /\ _ =>
      destruct (Hsell q) as (Td & Xd & Id)
  end.
  rewrite Td, Xd, Id.
  repeat split; try (destruct (nonzero z1); reflexivity).
  exists z3. split; [exact E3 | lia].
Qed.

End CommandFacts.

(** X10.  A field that is neither one of the five amounts nor [scout]
    does not matter to [_apply_commands], whatever its value. *)
Theorem apply_commands_ignores_unknown_keys
    (fuel : nat) (cfg : GameSettings) (e : Engine) (pid : player_id)
    (cmd : gmap string pyval) (prices : Prices) (key : string) (v : pyval) :
  ~ In key amount_keys -> key <> "scout"%string ->
  _apply_commands fuel cfg e pid (<[key := v]> cmd) prices
  = _apply_commands fuel cfg e pid cmd prices.
Proof.
  intros Hk Hs. rewrite !_apply_commands_on_player. f_equal.
  apply apply_commands_on_ext_keys.
  - intros key' Hin. unfold cmd_amount, get.
    rewrite lookup_insert_ne; [reflexivity|].
    intros ->. contradiction.
  - apply cmd_scout_insert_other. exact Hs.
Qed.

Lemma apply_commands_ignores_unknown_keys_witness :
  _apply_commands 40 settings (reset settings) P1 dance_cmd start_prices
  = _apply_commands 40 settings (reset settings) P1 arm_cmd start_prices.
Proof.
  apply (apply_commands_ignores_unknown_keys 40 settings (reset settings) P1
           arm_cmd start_prices "dance" PyNone).
  - simpl. intuition discriminate.
  - discriminate.
Defined.

(** X11.  With unit prices of at least one gold, a command all of whose
    amounts are zero, such as the empty command that stands in for a
    failed [step], returns for any fuel and does nothing but clear the
    pending bid and, if it asks for a scout that the gold pays, take the
    scout cost. *)
Theorem apply_commands_without_amounts
    (fuel : nat) (cfg : GameSettings) (e : Engine) (pid : player_id)
    (cmd : gmap string pyval) (prices : Prices) :
  1 <= ATK_BASE cfg -> 0 <= ATK_K cfg ->
  1 <= DEF_BASE cfg -> 0 <= DEF_K cfg ->
  0 <= attack (player_of pid e) -> 0 <= defense (player_of pid e) ->
  (forall key, In key amount_keys -> cmd_amount cmd key = Ret 0) ->
  _apply_commands fuel cfg e pid cmd prices
  = Ret (set_player pid
           (set_pending_expands 0
              (if cmd_scout cmd then
                 if SCOUT_COST cfg <=? gold (player_of pid e)
                 then set_gold (gold (player_of pid e) - SCOUT_COST cfg)
                        (player_of pid e)
                 else player_of pid e
               else player_of pid e)) e)
  /\ _apply_commands fuel cfg e pid ∅ prices
     = Ret (set_player pid (set_pending_expands 0 (player_of pid e)) e).
Proof.
  intros Hab Hak Hdb Hdk Ha Hd Hz.
  set (p := player_of pid e) in *.
  assert (Hgen : forall c : gmap string pyval,
             (forall key, In key amount_keys -> cmd_amount c key = Ret 0) ->
             apply_commands_on fuel cfg p c prices
             = Ret (set_pending_expands 0
                      (if cmd_scout c then
                         if SCOUT_COST cfg <=? gold p
                         then set_gold (gold p - SCOUT_COST cfg) p else p
                       else p))).
  { intros c Hc. unfold apply_commands_on.
    rewrite (Hc "sell_attack"%string) by (simpl; tauto). cbn [bind].
    rewrite (Hc "sell_defense"%string) by (simpl; tauto). cbn [bind].
    rewrite (Hc "expand"%string) by (simpl; tauto). cbn [bind].
    change (nonzero 0) with false. cbv iota.
    rewrite pay_for_expands_zero. cbn [bind snd].
    rewrite (Hc "spend_attack"%string) by (simpl; tauto). cbn [bind].
    rewrite (Hc "spend_defense"%string) by (simpl; tauto).
    set (q := if cmd_scout c then _ else _).
    assert (Hq : attack q = attack p /\ defense q = defense p
                 /\ set_pending_expands 0
                      (if cmd_scout c then
                         if SCOUT_COST cfg <=? gold p
                         then set_gold (gold p - SCOUT_COST cfg) p else p
                       else p) = q).
    { subst q. simpl. destruct (cmd_scout c);
        [destruct (SCOUT_COST cfg <=? gold p)|]; simpl; auto. }
    destruct Hq as (Eqa & Eqd & Eq). rewrite Eq.
    rewrite buy_attack_nothing by (unfold _attack_price; nia).
    cbn [bind snd].
    rewrite buy_defense_nothing by (unfold _defense_price; nia).
    reflexivity. }
  rewrite !_apply_commands_on_player. fold p.
  split; [rewrite (Hgen cmd Hz); reflexivity|].
  rewrite (Hgen ∅); [reflexivity|].
  intros key _. reflexivity.
Qed.

(** A lone scout request from a fresh player costs twenty of fifty
    gold. *)
Lemma apply_commands_without_amounts_witness :
  _apply_commands 0 settings (reset settings) P1 scout_cmd start_prices
  = Ret (set_p1 (set_gold 30 (PlayerState_init settings)) (reset settings)).
Proof.
  destruct (apply_commands_without_amounts 0 settings (reset settings) P1
              scout_cmd start_prices)
    as [H _]; try (simpl; lia).
  - intros key Hin. simpl in Hin.
    repeat destruct Hin as [<-|Hin]; try reflexivity. contradiction.
  - exact H.
Defined.

(** X12.  Applying a command for one player moves that player's money
    and units only: both territories, the neutral pool, the turn and the
    history stay as they were, the other player is untouched, the acting
    player keeps its lifetime expansion counter and intel flag, and the
    pending bid recorded for it lies between zero and the requested number
    of cells. *)
Theorem apply_commands_money_only
    (fuel : nat) (cfg : GameSettings) (pid : player_id)
    (cmd : gmap string pyval) (prices : Prices) (e e' : Engine) :
  _apply_commands fuel cfg e pid cmd prices = Ret e' ->
  let me := fun x => match pid with P1 => p1 x | P2 => p2 x end in
  let other := fun x => match pid with P1 => p2 x | P2 => p1 x end in
  other e' = other e
  /\ neutral_territory e' = neutral_territory e
  /\ turn e' = turn e /\ history e' = history e
  /\ territory (me e') = territory (me e)
  /\ expanded_total (me e') = expanded_total (me e)
  /\ has_enemy_intel (me e') = has_enemy_intel (me e)
  /\ exists want,
       cmd_amount cmd "expand" = Ret want
       /\ 0 <= pending_expands (me e') <= want.
Proof.
  intros H. apply _apply_commands_inv in H. destruct H as (q & Hq & ->).
  apply apply_commands_on_fields in Hq.
  destruct Hq as (Ht & Hx & Hi & Hw).
  destruct pid; simpl in *; auto 10.
Qed.

(** Arming on a fresh engine: player 1 ends with one unit of each kind
    and 21 gold, on the same thirty cells. *)
Lemma apply_commands_money_only_witness :
  exists e',
    _apply_commands 40 settings (reset settings) P1 arm_cmd start_prices
    = Ret e'
    /\ attack (p1 e') = 1 /\ territory (p1 e') = 30
    /\ p2 e' = p2 (reset settings).
Proof.
  destruct (_apply_commands 40 settings (reset settings) P1 arm_cmd
              start_prices) as [e'| |] eqn:E;
    try (vm_compute in E; discriminate).
  exists e'. split; [reflexivity|].
  destruct (apply_commands_money_only 40 settings P1 arm_cmd start_prices
              (reset settings) e' E) as (Ho & _ & _ & _ & Ht & _).
  split; [vm_compute in E; injection E as <-; reflexivity|].
  split; [rewrite Ht; reflexivity | exact Ho].
Defined.

(** ** Observations *)

(** X13.  Without intel an observation does not depend on the enemy's
    gold, attack or defense: two enemies with the same territory give the
    same observation.  With intel it shows exactly those three figures.
    Either way it shows the enemy's territory, the observer's own four
    figures and the prices of the observer's next purchases. *)
Theorem prepare_obs_hides_enemy_without_intel
    (cfg : GameSettings) (e : Engine) (me enemy : PlayerState) :
  (has_enemy_intel me = false ->
   forall enemy', territory enemy' = territory enemy ->
     _prepare_obs cfg e me enemy' = _prepare_obs cfg e me enemy)
  /\ (has_enemy_intel me = false ->
      obs_enemy_intel (fst (_prepare_obs cfg e me enemy)) = None)
  /\ (has_enemy_intel me = true ->
      obs_enemy_intel (fst (_prepare_obs cfg e me enemy))
      = Some (mkIntel (gold enemy) (attack enemy) (defense enemy)))
  /\ obs_enemy_territory (fst (_prepare_obs cfg e me enemy))
     = territory enemy
  /\ obs_my (fst (_prepare_obs cfg e me enemy)) = view_of me
  /\ obs_prices (fst (_prepare_obs cfg e me enemy))
     = snd (_prepare_obs cfg e me enemy)
  /\ price_expand_next (snd (_prepare_obs cfg e me enemy))
     = expand_price cfg me 0
  /\ price_buy_attack (snd (_prepare_obs cfg e me enemy))
     = _attack_price cfg me
  /\ price_buy_defense (snd (_prepare_obs cfg e me enemy))
     = _defense_price cfg me.
Proof.
  unfold _prepare_obs. simpl.
  split; [|split; [|split]]; try (intros ->; reflexivity);
    [|repeat split].
  intros Hi enemy' Ht. rewrite Hi, Ht. reflexivity.
Qed.

(** The veteran is not seen by a fresh player beyond its territory. *)
Lemma prepare_obs_hides_enemy_without_intel_witness :
  _prepare_obs settings (reset settings) (PlayerState_init settings)
    veteran_player
  = _prepare_obs settings (reset settings) (PlayerState_init settings)
      (PlayerState_init settings).
Proof.
  destruct (prepare_obs_hides_enemy_without_intel settings
              (reset settings) (PlayerState_init settings)
              (PlayerState_init settings)) as (H & _).
  apply H; reflexivity.
Defined.

(** X14.  The prices an observation quotes are the prices charged: with
    a non-negative slope and a positive quoted price, spending exactly
    the quoted attack price buys exactly one attack unit for that price,
    and likewise for defense. *)
Theorem quoted_price_buys_one_unit
    (fuel : nat) (cfg : GameSettings) (e : Engine) (p enemy : PlayerState) :
  let quoted := snd (_prepare_obs cfg e p enemy) in
  (0 <= ATK_K cfg -> 1 <= price_buy_attack quoted ->
   buy_attack (S fuel) cfg (price_buy_attack quoted) p
   = Ret (price_buy_attack quoted,
          set_gold (gold p - price_buy_attack quoted)
            (set_attack (attack p + 1) p)))
  /\ (0 <= DEF_K cfg -> 1 <= price_buy_defense quoted ->
      buy_defense (S fuel) cfg (price_buy_defense quoted) p
      = Ret (price_buy_defense quoted,
             set_gold (gold p - price_buy_defense quoted)
               (set_defense (defense p + 1) p))).
Proof.
  simpl. split; intros Hk Hp.
  - unfold buy_attack. simpl buy_attack_loop.
    rewrite Z.sub_0_r, Z.leb_refl.
    assert (E : buy_attack_loop fuel cfg (_attack_price cfg p)
                  (0 + _attack_price cfg p) (set_attack (attack p + 1) p)
                = Ret (0 + _attack_price cfg p,
                       set_attack (attack p + 1) p)).
    { destruct fuel; simpl;
        rewrite (proj2 (Z.leb_gt _ _))
          by (unfold _attack_price in *; simpl; lia);
        reflexivity. }
    rewrite E. reflexivity.
  - unfold buy_defense. simpl buy_defense_loop.
    rewrite Z.sub_0_r, Z.leb_refl.
    assert (E : buy_defense_loop fuel cfg (_defense_price cfg p)
                  (0 + _defense_price cfg p)
                  (set_defense (defense p + 1) p)
                = Ret (0 + _defense_price cfg p,
                       set_defense (defense p + 1) p)).
    { destruct fuel; simpl;
        rewrite (proj2 (Z.leb_gt _ _))
          by (unfold _defense_price in *; simpl; lia);
        reflexivity. }
    rewrite E. reflexivity.
Qed.

Lemma quoted_price_buys_one_unit_witness :
  buy_attack 1 settings 20 (PlayerState_init settings)
  = Ret (20, set_gold 30 (set_attack 1 (PlayerState_init settings))).
Proof.
  destruct (quoted_price_buys_one_unit 0 settings (reset settings)
              (PlayerState_init settings) (PlayerState_init settings))
    as (H & _).
  apply H; unfold _prepare_obs, _attack_price; simpl; lia.
Defined.

(** ** Invariants of a turn and of a match *)

Section TurnInvariants.

Variable cfg : GameSettings.

Lemma upkeep_loop_fields (fuel : nat) :
  forall d p r,
    upkeep_loop fuel cfg d p = Ret r ->
    territory r = territory p
    /\ expanded_total r = expanded_total p
    /\ pending_expands r = pending_expands p
    /\ has_enemy_intel r = has_enemy_intel p
    /\ (0 <= attack p -> 0 <= attack r)
    /\ (0 <= defense p -> 0 <= defense r).
Proof.
  induction fuel as [|fuel IH]; intros d p r H; simpl in H;
    destruct ((0 <? d) && (nonzero (attack p) || nonzero (defense p)));
    try discriminate;
    try (injection H as <-; repeat split; trivial).
  destruct (nonzero (attack p)) eqn:Ea;
    [|destruct (nonzero (defense p)) eqn:Ed].
  - apply nonzero_true in Ea. apply IH in H. simpl in H.
    destruct H as (Ht & Hx & Hp & Hi & Hatk & Hdef).
    repeat split; trivial. intros Hp0. apply Hatk. lia.
  - apply nonzero_true in Ed. apply IH in H. simpl in H.
    destruct H as (Ht & Hx & Hp & Hi & Hatk & Hdef).
    repeat split; trivial. intros Hp0. apply Hdef. lia.
  - apply IH in H. exact H.
Qed.

Lemma collect_and_pay_fields (fuel : nat) (p r : PlayerState) :
  collect_and_pay fuel cfg p = Ret r ->
  territory r = territory p
  /\ expanded_total r = expanded_total p
  /\ pending_expands r = pending_expands p
  /\ has_enemy_intel r = has_enemy_intel p
  /\ 0 <= gold r
  /\ (0 <= attack p -> 0 <= attack r)
  /\ (0 <= defense p -> 0 <= defense r).
Proof.
  unfold collect_and_pay, apply_upkeep. cbv zeta.
  set (q := set_gold (gold (set_gold (gold p + income cfg p) p)
                      - upkeep_cost cfg (set_gold (gold p + income cfg p) p))
              (set_gold (gold p + income cfg p) p)).
  destruct (0 <=? gold q) eqn:Hq.
  - intros H. injection H as <-. apply Z.leb_le in Hq.
    subst q. simpl in *. repeat split; trivial.
  - intros H. inv_bind H as r0 Hr0. apply upkeep_loop_fields in Hr0.
    subst q. simpl in Hr0.
    destruct Hr0 as (Ht & Hx & Hp & Hi & Hatk & Hdef).
    injection H as <-.
    destruct (gold r0 <? 0) eqn:Hneg; simpl;
      [|apply Z.ltb_ge in Hneg]; repeat split; trivial; lia.
Qed.

Context {W S1 S2 : Type}.
Variable s1 : Strategy W S1.
Variable s2 : Strategy W S2.

(** A property of matches that every turn keeps, and that advancing the
    turn counter keeps, holds when the loop of [run] returns. *)
Lemma run_loop_invariant (I : Match W S1 S2 -> Prop) :
  (forall m t,
     I m ->
     I (mkMatch (set_turn t (engine m)) (world m) (state1 m) (state2 m))) ->
  (forall fuel m m',
     I m -> _play_turn fuel cfg s1 s2 m = Ret m' -> I m') ->
  forall fuel m m',
    I m -> run_loop fuel cfg s1 s2 m = Ret m' -> I m'.
Proof.
  intros Hturn Hplay.
  induction fuel as [|fuel IH]; intros m m' Hm H; simpl in H;
    destruct (turn (engine m) <? MAX_TURNS cfg);
    try discriminate; try (injection H as <-; exact Hm).
  inv_bind H as m1 H1.
  apply Hplay in H1; [|apply Hturn; exact Hm].
  destruct (_winner_declared (engine m1)).
  - injection H as <-. exact H1.
  - exact (IH _ _ H1 H).
Qed.

(** The loop of [run] ends at the turn limit or on a declared winner. *)
Lemma run_loop_stops (fuel : nat) :
  forall m m',
    run_loop fuel cfg s1 s2 m = Ret m' ->
    MAX_TURNS cfg <= turn (engine m')
    \/ _winner_declared (engine m') = true.
Proof.
  induction fuel as [|fuel IH]; intros m m' H; simpl in H;
    destruct (turn (engine m) <? MAX_TURNS cfg) eqn:Hc;
    try discriminate;
    try (injection H as <-; apply Z.ltb_ge in Hc; left; exact Hc).
  inv_bind H as m1 H1.
  destruct (_winner_declared (engine m1)) eqn:Hw.
  - injection H as <-. right. exact Hw.
  - exact (IH _ _ H).
Qed.

Lemma _play_turn_total_cells (fuel : nat) (m m' : Match W S1 S2) :
  _play_turn fuel cfg s1 s2 m = Ret m' ->
  total_cells (engine m') = total_cells (engine m)
  /\ pending_expands (p1 (engine m')) = 0
  /\ pending_expands (p2 (engine m')) = 0.
Proof.
  intros H. apply _play_turn_inv in H.
  destruct H as (a & b & sc1 & sc2 & q1 & q2 & H). cbv zeta in H.
  destruct H as (Ha & Hb & Hs1 & Hs2 & Hq1 & Hq2 & ->).
  apply collect_and_pay_fields in Ha. destruct Ha as (Ta & _).
  apply collect_and_pay_fields in Hb. destruct Hb as (Tb & _).
  apply apply_commands_on_fields in Hq1. destruct Hq1 as (T1 & _).
  apply apply_commands_on_fields in Hq2. destruct Hq2 as (T2 & _).
  split; [|split; reflexivity].
  unfold total_cells, _resolve_combat, _allocate_neutral. simpl. lia.
Qed.

Lemma _play_turn_state_ok (fuel : nat) (m m' : Match W S1 S2) :
  0 <= ATK_BASE cfg -> 0 <= DEF_BASE cfg ->
  state_ok (engine m) ->
  _play_turn fuel cfg s1 s2 m = Ret m' ->
  state_ok (engine m')
  /\ expanded_total (p1 (engine m)) <= expanded_total (p1 (engine m'))
  /\ expanded_total (p2 (engine m)) <= expanded_total (p2 (engine m')).
Proof.
  intros Hab Hdb Hok H. apply _play_turn_inv in H.
  destruct H as (a & b & sc1 & sc2 & q1 & q2 & H). cbv zeta in H.
  destruct H as (Ha & Hb & Hs1 & Hs2 & Hq1 & Hq2 & ->).
  destruct Hok as ((G1 & A1 & D1) & (G2 & A2 & D2) & T1 & T2 & HN & P1' & P2').
  apply collect_and_pay_fields in Ha.
  destruct Ha as (Ta & Xa & Pa & _ & Ga & Aa & Da).
  apply collect_and_pay_fields in Hb.
  destruct Hb as (Tb & Xb & Pb & _ & Gb & Ab & Db).
  assert (Na : nonneg_player a) by (repeat split; auto).
  assert (Nb : nonneg_player b) by (repeat split; auto).
  pose proof (apply_commands_on_nonneg cfg _ _ _ _ _ Hab Hdb Na Hq1)
    as (Gq1 & Aq1 & Dq1).
  pose proof (apply_commands_on_nonneg cfg _ _ _ _ _ Hab Hdb Nb Hq2)
    as (Gq2 & Aq2 & Dq2).
  apply apply_commands_on_fields in Hq1.
  destruct Hq1 as (Tq1 & Xq1 & _ & w1 & _ & Pq1).
  apply apply_commands_on_fields in Hq2.
  destruct Hq2 as (Tq2 & Xq2 & _ & w2 & _ & Pq2).
  unfold state_ok, nonneg_player, _resolve_combat, _allocate_neutral.
  simpl. repeat split; lia.
Qed.

End TurnInvariants.

(** X15.  A whole turn conserves the cells of the map: the two
    territories and the neutral pool add up to the same number before and
    after [_play_turn], whatever the strategies command; and no bid is
    left pending. *)
Theorem play_turn_conserves_cells
    (fuel : nat) (cfg : GameSettings) {W S1 S2 : Type}
    (s1 : Strategy W S1) (s2 : Strategy W S2) (m m' : Match W S1 S2) :
  _play_turn fuel cfg s1 s2 m = Ret m' ->
  total_cells (engine m') = total_cells (engine m)
  /\ pending_expands (p1 (engine m')) = 0
  /\ pending_expands (p2 (engine m')) = 0
  /\ turn (engine m') = turn (engine m)
  /\ history (engine m') = history (engine m).
Proof.
  intros H.
  destruct (_play_turn_total_cells cfg s1 s2 fuel m m' H) as (Hc & Hp1 & Hp2).
  destruct (_play_turn_frame cfg s1 s2 fuel m m' H) as (Ht & Hh).
  auto.
Qed.

(** The first turn of bidder against dummy: six cells move from the pool
    to player 1, a hundred cells before and after. *)
Lemma play_turn_conserves_cells_witness :
  exists m',
    _play_turn 10 settings (ConstStrategy expand6_scout) DummyStrategy
      (mkMatch (set_turn 1 (reset settings)) tt tt tt) = Ret m'
    /\ territory (p1 (engine m')) = 36
    /\ total_cells (engine m') = 100.
Proof.
  destruct (_play_turn 10 settings (ConstStrategy expand6_scout)
              DummyStrategy (mkMatch (set_turn 1 (reset settings)) tt tt tt))
    as [m'| |] eqn:E; try (vm_compute in E; discriminate).
  exists m'. split; [reflexivity|]. split.
  - vm_compute in E. injection E as <-. reflexivity.
  - destruct (play_turn_conserves_cells 10 settings
                (ConstStrategy expand6_scout) DummyStrategy _ m' E)
      as (Hc & _).
    rewrite Hc. reflexivity.
Defined.

(** X16.  A whole match conserves the cells of the map: in the result of
    [run] the two territories and the neutral pool add up to twice the
    starting territory plus the starting pool. *)
Theorem run_conserves_cells
    (fuel : nat) (cfg : GameSettings) {W S1 S2 : Type}
    (s1 : Strategy W S1) (s2 : Strategy W S2) (w : W) (st1 : S1) (st2 : S2)
    (r : Result) (m : Match W S1 S2) :
  run fuel cfg s1 s2 w st1 st2 = Ret (r, m) ->
  view_territory (result_p1 r) + view_territory (result_p2 r) + neutral r
  = 2 * START_TERRITORY cfg + NEUTRAL_TERRITORY cfg.
Proof.
  unfold run. intros H.
  destruct (strat_reset s1 w st1 _) as [exc|ws1]; [discriminate|].
  destruct (strat_reset s2 (fst ws1) st2 _) as [exc|ws2]; [discriminate|].
  inv_bind H as m0 Hm0. injection H as <- <-.
  assert (Hinv : total_cells (engine m0)
                 = 2 * START_TERRITORY cfg + NEUTRAL_TERRITORY cfg).
  { apply (run_loop_invariant cfg s1 s2
             (fun x => total_cells (engine x)
                       = 2 * START_TERRITORY cfg + NEUTRAL_TERRITORY cfg))
      with (fuel := fuel)
           (m := mkMatch (reset cfg) (fst ws2) (snd ws1) (snd ws2)).
    - intros x t Hx. exact Hx.
    - intros f x x' Hx Hplay.
      apply _play_turn_total_cells in Hplay. destruct Hplay as (Hc & _).
      rewrite Hc. exact Hx.
    - unfold total_cells. simpl. lia.
    - exact Hm0. }
  unfold total_cells in Hinv. simpl. exact Hinv.
Qed.

Lemma run_conserves_cells_witness :
  exists r m,
    run 300 settings (ConstStrategy expand6_scout) GreedyExpansionStrategy
      tt tt tt = Ret (r, m)
    /\ view_territory (result_p1 r) + view_territory (result_p2 r)
       + neutral r = 100.
Proof.
  destruct (run 300 settings (ConstStrategy expand6_scout)
              GreedyExpansionStrategy tt tt tt)
    as [[r m]| |] eqn:E; try (vm_compute in E; discriminate).
  exists r, m. split; [reflexivity|].
  rewrite (run_conserves_cells 300 settings (ConstStrategy expand6_scout)
             GreedyExpansionStrategy tt tt tt r m E).
  reflexivity.
Defined.

(** X17.  With non-negative starting values and non-negative base prices,
    the match that [run] leaves behind has no negative gold, attack,
    defense, territory or neutral pool and no pending bid; and within a
    turn the lifetime expansion counters never decrease. *)
Theorem run_keeps_state_nonnegative
    (fuel : nat) (cfg : GameSettings) {W S1 S2 : Type}
    (s1 : Strategy W S1) (s2 : Strategy W S2) (w : W) (st1 : S1) (st2 : S2)
    (r : Result) (m : Match W S1 S2) :
  0 <= START_GOLD cfg -> 0 <= START_TERRITORY cfg ->
  0 <= NEUTRAL_TERRITORY cfg ->
  0 <= START_ATTACK cfg -> 0 <= START_DEFENSE cfg ->
  0 <= ATK_BASE cfg -> 0 <= DEF_BASE cfg ->
  run fuel cfg s1 s2 w st1 st2 = Ret (r, m) ->
  state_ok (engine m)
  /\ 0 <= view_gold (result_p1 r) /\ 0 <= view_gold (result_p2 r)
  /\ 0 <= view_territory (result_p1 r) /\ 0 <= view_territory (result_p2 r)
  /\ 0 <= view_attack (result_p1 r) /\ 0 <= view_attack (result_p2 r)
  /\ 0 <= view_defense (result_p1 r) /\ 0 <= view_defense (result_p2 r)
  /\ 0 <= neutral r
  /\ (forall f x x',
        state_ok (engine x) -> _play_turn f cfg s1 s2 x = Ret x' ->
        expanded_total (p1 (engine x)) <= expanded_total (p1 (engine x'))
        /\ expanded_total (p2 (engine x)) <= expanded_total (p2 (engine x'))).
Proof.
  intros Hg Ht Hn Ha Hd Hab Hdb. unfold run. intros H.
  destruct (strat_reset s1 w st1 _) as [exc|ws1]; [discriminate|].
  destruct (strat_reset s2 (fst ws1) st2 _) as [exc|ws2]; [discriminate|].
  inv_bind H as m0 Hm0. injection H as <- <-.
  assert (Hinv : state_ok (engine m0)).
  { apply (run_loop_invariant cfg s1 s2 (fun x => state_ok (engine x)))
      with (fuel := fuel)
           (m := mkMatch (reset cfg) (fst ws2) (snd ws1) (snd ws2)).
    - intros x t Hx. exact Hx.
    - intros f x x' Hx Hplay.
      exact (proj1 (_play_turn_state_ok cfg s1 s2 f x x' Hab Hdb Hx Hplay)).
    - unfold state_ok, nonneg_player. simpl. repeat split; lia.
    - exact Hm0. }
  split; [exact Hinv|].
  destruct Hinv as ((G1 & A1 & D1) & (G2 & A2 & D2) & T1 & T2 & HN & _).
  simpl. repeat (split; [assumption|]).
  intros f x x' Hx Hplay.
  exact (proj2 (_play_turn_state_ok cfg s1 s2 f x x' Hab Hdb Hx Hplay)).
Qed.

Lemma run_keeps_state_nonnegative_witness :
  exists r m,
    run 300 settings (ConstStrategy arm_cmd) GreedyExpansionStrategy
      tt tt tt = Ret (r, m)
    /\ 0 <= view_gold (result_p1 r) /\ 0 <= neutral r.
Proof.
  destruct (run 300 settings (ConstStrategy arm_cmd)
              GreedyExpansionStrategy tt tt tt)
    as [[r m]| |] eqn:E; try (vm_compute in E; discriminate).
  exists r, m. split; [reflexivity|].
  assert (C1 : 0 <= START_GOLD settings) by (simpl; lia).
  assert (C2 : 0 <= START_TERRITORY settings) by (simpl; lia).
  assert (C3 : 0 <= NEUTRAL_TERRITORY settings) by (simpl; lia).
  assert (C4 : 0 <= START_ATTACK settings) by (simpl; lia).
  assert (C5 : 0 <= START_DEFENSE settings) by (simpl; lia).
  assert (C6 : 0 <= ATK_BASE settings) by (simpl; lia).
  assert (C7 : 0 <= DEF_BASE settings) by (simpl; lia).
  destruct (run_keeps_state_nonnegative 300 settings (ConstStrategy arm_cmd)
              GreedyExpansionStrategy tt tt tt r m C1 C2 C3 C4 C5 C6 C7 E)
    as (_ & Hg & _ & _ & _ & _ & _ & _ & _ & Hn & _).
  split; [exact Hg | exact Hn].
Defined.

(** X18.  [run] stops before the turn limit only on a territory of zero:
    the result either counts [MAX_TURNS] turns (none if that is negative)
    or shows a player without territory, and then the winner is decided
    by territory alone. *)
Theorem run_stops_early_only_on_elimination
    (fuel : nat) (cfg : GameSettings) {W S1 S2 : Type}
    (s1 : Strategy W S1) (s2 : Strategy W S2) (w : W) (st1 : S1) (st2 : S2)
    (r : Result) (m : Match W S1 S2) :
  run fuel cfg s1 s2 w st1 st2 = Ret (r, m) ->
  0 <= turns r <= Z.max 0 (MAX_TURNS cfg)
  /\ (turns r = Z.max 0 (MAX_TURNS cfg)
      \/ view_territory (result_p1 r) = 0
      \/ view_territory (result_p2 r) = 0)
  /\ (view_territory (result_p1 r) = 0 ->
      view_territory (result_p2 r) <> 0 ->
      winner r = Some "player2"%string)
  /\ (view_territory (result_p2 r) = 0 ->
      view_territory (result_p1 r) <> 0 ->
      winner r = Some "player1"%string)
  /\ (view_territory (result_p1 r) = 0 ->
      view_territory (result_p2 r) = 0 ->
      winner r = Some "draw"%string).
Proof.
  unfold run. intros H.
  destruct (strat_reset s1 w st1 _) as [exc|ws1]; [discriminate|].
  destruct (strat_reset s2 (fst ws1) st2 _) as [exc|ws2]; [discriminate|].
  inv_bind H as m0 Hm0. injection H as <- <-.
  pose proof (run_loop_frame cfg s1 s2 _ _ _ Hm0) as (_ & Hlo & Hhi).
  pose proof (run_loop_stops cfg s1 s2 _ _ _ Hm0) as Hstop.
  simpl in Hlo, Hhi |- *.
  split; [lia|]. split; [|split; [|split]].
  - destruct Hstop as [Hmax|Hw]; [left; lia|right].
    unfold _winner_declared, _check_winner in Hw.
    destruct (Z.eqb_spec (territory (p1 (engine m0))) 0),
             (Z.eqb_spec (territory (p2 (engine m0))) 0);
      simpl in Hw; auto; discriminate.
  - intros E1 E2. unfold _check_winner.
    rewrite (proj2 (Z.eqb_eq _ _) E1), (proj2 (Z.eqb_neq _ _) E2).
    reflexivity.
  - intros E2 E1. unfold _check_winner.
    rewrite (proj2 (Z.eqb_eq _ _) E2), (proj2 (Z.eqb_neq _ _) E1).
    reflexivity.
  - intros E1 E2. unfold _check_winner.
    rewrite (proj2 (Z.eqb_eq _ _) E1), (proj2 (Z.eqb_eq _ _) E2).
    reflexivity.
Qed.

Lemma run_stops_early_only_on_elimination_witness :
  exists r m,
    run 300 settings DummyStrategy DummyStrategy tt tt tt = Ret (r, m)
    /\ 0 <= turns r <= 200.
Proof.
  destruct (run 300 settings DummyStrategy DummyStrategy tt tt tt)
    as [[r m]| |] eqn:E; try (vm_compute in E; discriminate).
  exists r, m. split; [reflexivity|].
  destruct (run_stops_early_only_on_elimination 300 settings DummyStrategy
              DummyStrategy tt tt tt r m E) as (Ht & _).
  exact Ht.
Defined.

(** ** Mirror matches *)

Lemma _safe_step_world {W S : Type} (s : Strategy W S) w st obs sc :
  _safe_step s w st obs = Ret sc ->
  fst (fst sc) = fst (fst (strat_step s w st obs)).
Proof.
  unfold _safe_step.
  destruct (strat_step s w st obs) as [ws [cmd| |exc]]; simpl.
  - intros [= <-]. reflexivity.
  - intros [= <-]. reflexivity.
  - destruct (is_Exception exc); [|discriminate]. intros [= <-]. reflexivity.
Qed.

Lemma _play_turn_mirrored (cfg : GameSettings) {W S : Type}
    (s : Strategy W S) (fuel : nat) (m m' : Match W S S) :
  leaves_world s ->
  mirrored m -> _play_turn fuel cfg s s m = Ret m' ->
  mirrored m' /\ world m' = world m.
Proof.
  intros [_ Hw] [Hp Hs] H. apply _play_turn_inv in H.
  destruct H as (a & b & sc1 & sc2 & q1 & q2 & H). cbv zeta in H.
  destruct H as (Ha & Hb & Hs1 & Hs2 & Hq1 & Hq2 & ->).
  rewrite <- Hp in Hb. rewrite Ha in Hb. injection Hb as <-.
  pose proof (_safe_step_world s _ _ _ _ Hs1) as Hw1.
  rewrite Hw in Hw1.
  rewrite Hw1, <- Hs, Hs1 in Hs2. injection Hs2 as <-.
  rewrite Hq1 in Hq2. injection Hq2 as <-.
  unfold mirrored. simpl. split; [|exact Hw1].
  split; [|reflexivity].
  f_equal. apply player_ext; simpl; try reflexivity; lia.
Qed.

(** X19.  A match of a strategy against itself, both sides starting from
    the same strategy state and no call changing what the two strategy
    objects share, is a draw: the two players are in the same state after
    every turn, neither ever gains a cell of the pool, and [run] reports
    equal figures and the winner "draw".  Two [RandomStrategy] objects
    are not such a pair, they draw from one generator. *)
Theorem mirror_match_is_draw
    (fuel : nat) (cfg : GameSettings) {W S : Type} (s : Strategy W S)
    (w : W) (st : S) (r : Result) (m : Match W S S) :
  leaves_world s ->
  run fuel cfg s s w st st = Ret (r, m) ->
  winner r = Some "draw"%string
  /\ result_p1 r = result_p2 r
  /\ p1 (engine m) = p2 (engine m)
  /\ state1 m = state2 m
  /\ world m = w.
Proof.
  intros Hlw. unfold run. intros H.
  change (_observation cfg (reset cfg) P2)
    with (_observation cfg (reset cfg) P1) in H.
  destruct (strat_reset s w st (_observation cfg (reset cfg) P1))
    as [exc|ws1] eqn:R1; [discriminate|].
  pose proof (proj1 Hlw _ _ _ _ R1) as Hw1. rewrite Hw1, R1 in H.
  inv_bind H as m0 Hm0. injection H as <- <-.
  assert (Hmir : mirrored m0 /\ world m0 = w).
  { apply (run_loop_invariant cfg s s
             (fun x => mirrored x /\ world x = w))
      with (fuel := fuel)
           (m := mkMatch (reset cfg) (fst ws1) (snd ws1) (snd ws1)).
    - intros x t [[Hp Hs] Hx]. split; [split; [exact Hp | exact Hs]|].
      exact Hx.
    - intros f x x' [Hx Hwx] Hplay.
      destruct (_play_turn_mirrored cfg s f x x' Hlw Hx Hplay) as [Hm' Hw'].
      split; [exact Hm' | congruence].
    - split; [split; reflexivity | exact Hw1].
    - exact Hm0. }
  destruct Hmir as [[Hp Hs] Hw]. simpl.
  split; [|split; [rewrite Hp; reflexivity | repeat split; assumption]].
  unfold _check_winner. rewrite Hp.
  destruct (territory (p2 (engine m0)) =? 0); simpl; [reflexivity|].
  rewrite Z.eqb_refl. reflexivity.
Qed.

(** Greedy expansion against itself: both bid for the same cells every
    turn, all of them stay contested. *)
Lemma mirror_match_is_draw_witness :
  exists r m,
    run 300 settings GreedyExpansionStrategy GreedyExpansionStrategy tt tt tt
    = Ret (r, m)
    /\ winner r = Some "draw"%string
    /\ view_territory (result_p1 r) = 30 /\ neutral r = 40.
Proof.
  destruct (run 300 settings GreedyExpansionStrategy GreedyExpansionStrategy
              tt tt tt) as [[r m]| |] eqn:E;
    try (vm_compute in E; discriminate).
  exists r, m. split; [reflexivity|].
  assert (Hlw : leaves_world (@GreedyExpansionStrategy unit)).
  { split.
    - intros w st obs ws H. simpl in H. injection H as <-. reflexivity.
    - intros w st obs. simpl.
      destruct (price_expand_next (obs_prices obs) =? 0); reflexivity. }
  destruct (mirror_match_is_draw 300 settings GreedyExpansionStrategy tt tt
              r m Hlw E) as (Hw & _).
  split; [exact Hw|].
  vm_compute in E. injection E as <- _. split; reflexivity.
Defined.

(** Two [RandomStrategy] objects draw from the one generator of the
    [random] module, so the second is handed other draws than the first
    and the match is no mirror match: with the draws 0, 1, 2, ... player 2
    wins in thirty turns. *)
Lemma random_against_random_has_a_winner :
  exists r m,
    run 300 settings RandomStrategy RandomStrategy (fun n => n, 0%nat) tt tt
    = Ret (r, m)
    /\ winner r = Some "player2"%string /\ turns r = 30.
Proof.
  destruct (run 300 settings RandomStrategy RandomStrategy
              (fun n => n, 0%nat) tt tt) as [[r m]| |] eqn:E;
    try (vm_compute in E; discriminate).
  exists r, m. split; [reflexivity|].
  vm_compute in E. injection E as <- _. split; reflexivity.
Qed.

(** ** strategy.py: GreedyExpansionStrategy *)

(** X20.  [GreedyExpansionStrategy.step] raises exactly when the quoted
    cell price is zero.  Otherwise it returns a dict that bids
    [min(neutral, gold // price)] cells, never more than the pool and, at
    a positive price, never more than the gold pays at the quoted price;
    it spends nothing on units and never scouts.  Its dicts hold numeric
    amounts, its only exception is the ZeroDivisionError and its [reset]
    returns, so it is a strategy [run] completes with. *)
Theorem greedy_expansion_bid {W : Type} (w : W) (st : unit)
    (obs : Observation) :
  let price := price_expand_next (obs_prices obs) in
  let gold := view_gold (obs_my obs) in
  let pool := obs_neutral_territory obs in
  steps_numeric (@GreedyExpansionStrategy W)
  /\ steps_raise_exceptions (@GreedyExpansionStrategy W)
  /\ resets_return (@GreedyExpansionStrategy W)
  /\ (price = 0 ->
      strat_step GreedyExpansionStrategy w st obs
      = ((w, st), StepRaises ZeroDivisionError)
      /\ _safe_step GreedyExpansionStrategy w st obs = Ret ((w, st), ∅))
  /\ (price <> 0 ->
      exists cmd plan,
        strat_step GreedyExpansionStrategy w st obs
        = ((w, st), ReturnsDict cmd)
        /\ cmd !! "expand"%string = Some (PyInt plan)
        /\ plan = Z.min pool (gold / price)
        /\ plan <= pool
        /\ (0 < price -> plan * price <= gold)
        /\ cmd_amount cmd "expand" = Ret (Z.max 0 plan)
        /\ cmd_amount cmd "spend_attack" = Ret 0
        /\ cmd_amount cmd "spend_defense" = Ret 0
        /\ cmd_amount cmd "sell_attack" = Ret 0
        /\ cmd_amount cmd "sell_defense" = Ret 0
        /\ cmd_scout cmd = false).
Proof.
  intros price gold pool. split; [|split; [|split; [|split]]].
  - intros w0 s o s' cmd H. simpl in H.
    destruct (price_expand_next (obs_prices o) =? 0); [discriminate|].
    injection H as _ <-. unfold cmd_numeric, amount_keys, get. simpl forallb.
    rewrite !lookup_insert_ne by discriminate.
    rewrite lookup_insert_eq.
    rewrite (lookup_insert_ne _ "expand"%string "spend_attack"%string)
      by discriminate.
    rewrite lookup_insert_eq.
    rewrite (lookup_insert_ne _ "expand"%string "spend_defense"%string)
      by discriminate.
    rewrite (lookup_insert_ne _ "spend_attack"%string "spend_defense"%string)
      by discriminate.
    rewrite lookup_insert_eq.
    rewrite !lookup_singleton_ne by discriminate.
    reflexivity.
  - intros w0 s o ws exc H. simpl in H.
    destruct (price_expand_next (obs_prices o) =? 0); [|discriminate].
    injection H as _ <-. reflexivity.
  - intros w0 s o. simpl. eauto.
  - intros Hz. unfold _safe_step. simpl. fold price.
    rewrite (proj2 (Z.eqb_eq _ _) Hz). split; reflexivity.
  - intros Hnz. simpl. fold price gold pool.
    rewrite (proj2 (Z.eqb_neq _ _) Hnz).
    eexists. exists (Z.min pool (gold / price)).
    split; [reflexivity|].
    split; [apply lookup_insert_eq|].
    split; [reflexivity|]. split; [lia|]. split.
    { intros Hpos.
      pose proof (Z.mul_div_le gold price Hpos) as Hd.
      assert (Hle : Z.min pool (gold / price) <= gold / price) by lia.
      nia. }
    unfold cmd_amount, cmd_scout, get.
    rewrite lookup_insert_eq.
    rewrite (lookup_insert_ne _ "expand"%string "spend_attack"%string)
      by discriminate.
    rewrite lookup_insert_eq.
    rewrite (lookup_insert_ne _ "expand"%string "spend_defense"%string)
      by discriminate.
    rewrite (lookup_insert_ne _ "spend_attack"%string "spend_defense"%string)
      by discriminate.
    rewrite lookup_insert_eq.
    rewrite !lookup_insert_ne by discriminate.
    rewrite !lookup_singleton_ne by discriminate.
    rewrite lookup_singleton_eq.
    repeat split; reflexivity.
Qed.

(** The first observation under the default settings: fifty gold at ten
    a cell and forty neutral cells give a bid of five. *)
Lemma greedy_expansion_bid_witness :
  exists cmd,
    _safe_step GreedyExpansionStrategy tt tt
      (_observation settings (reset settings) P1) = Ret ((tt, tt), cmd)
    /\ cmd_amount cmd "expand" = Ret 5.
Proof.
  destruct (greedy_expansion_bid tt tt
              (_observation settings (reset settings) P1))
    as (_ & _ & _ & _ & H).
  destruct H as (cmd & plan & Hstep & _ & Hplan & _ & _ & Hamt & _).
  { vm_compute. intros H. discriminate H. }
  exists cmd. unfold _safe_step. rewrite Hstep. split; [reflexivity|].
  rewrite Hamt, Hplan. reflexivity.
Defined.

(** ** strategy.py: RandomStrategy, and the match of examples/ex2.py *)

Lemma cmd_numeric_insert_int (cmd : gmap string pyval) key z :
  cmd_numeric cmd = true -> cmd_numeric (<[key := PyInt z]> cmd) = true.
Proof.
  unfold cmd_numeric. rewrite !forallb_forall. intros H k Hin.
  specialize (H k Hin). unfold get in *.
  destruct (decide (key = k)) as [->|Hne].
  - rewrite lookup_insert_eq. reflexivity.
  - rewrite lookup_insert_ne by exact Hne. exact H.
Qed.

Lemma random_strategy_numeric : steps_numeric RandomStrategy.
Proof.
  intros w st obs ws cmd H. simpl in H.
  match type of H with
  | (if ?c then _ else _) = _ => destruct c
  end; injection H as _ <-; apply cmd_numeric_insert_int; reflexivity.
Qed.

Lemma random_strategy_raises_nothing : steps_raise_exceptions RandomStrategy.
Proof.
  intros w st obs ws exc H. simpl in H.
  match type of H with
  | (if ?c then _ else _) = _ => destruct c
  end; discriminate.
Qed.

(** X21.  Whatever the random draws, [RandomStrategy.step] returns a dict
    with numeric amounts that does not ask for a scout, and advances the
    generator by one or two draws.  So under settings with non-negative
    starting units and unit prices of at least one gold the match of a
    random against a greedy strategy returns a result with a winner after
    at most [MAX_TURNS] turns, for every sequence of draws. *)
Theorem random_against_greedy_completes
    (cfg : GameSettings) (seq : nat -> nat) :
  0 <= START_ATTACK cfg -> 0 <= START_DEFENSE cfg ->
  1 <= ATK_BASE cfg -> 0 <= ATK_K cfg ->
  1 <= DEF_BASE cfg -> 0 <= DEF_K cfg ->
  (forall gen st obs,
     exists cmd,
       snd (strat_step RandomStrategy gen st obs) = ReturnsDict cmd
       /\ cmd_numeric cmd = true
       /\ cmd_scout cmd = false
       /\ fst (fst (fst (strat_step RandomStrategy gen st obs))) = fst gen
       /\ (snd gen < snd (fst (fst (strat_step RandomStrategy gen st obs)))
           <= snd gen + 2)%nat)
  /\ exists fuel0 r m,
       (forall fuel, (fuel0 <= fuel)%nat ->
          run fuel cfg RandomStrategy GreedyExpansionStrategy (seq, 0%nat)
            tt tt
          = Ret (r, m))
       /\ (winner r = Some "player1"%string
           \/ winner r = Some "player2"%string
           \/ winner r = Some "draw"%string)
       /\ 0 <= turns r <= Z.max 0 (MAX_TURNS cfg).
Proof.
  intros Hsa Hsd Hab Hak Hdb Hdk. split.
  - intros gen st obs. unfold RandomStrategy, strat_step, choice.
    cbv beta zeta. cbn [fst snd].
    destruct (fst gen (snd gen) mod 3)%nat as [|[|k]]; cbn [fst snd];
      match goal with
      | |- context [if ?c then _ else _] => destruct c
      end; cbn [fst snd];
      try destruct (fst gen (S (snd gen)) mod 2)%nat as [|k2];
      eexists; (split; [reflexivity|]);
      (split; [apply cmd_numeric_insert_int; reflexivity|]);
      (split; [reflexivity | split; [reflexivity | lia]]).
  - assert (Hgreedy : steps_numeric (@GreedyExpansionStrategy draws)).
    { intros w s o s' cmd H. simpl in H.
      destruct (price_expand_next (obs_prices o) =? 0); [discriminate|].
      injection H as _ <-. apply cmd_numeric_insert_int. reflexivity. }
    assert (Hzero : steps_raise_exceptions (@GreedyExpansionStrategy draws)).
    { intros w s o ws exc H. simpl in H.
      destruct (price_expand_next (obs_prices o) =? 0); [|discriminate].
      injection H as _ <-. reflexivity. }
    destruct (run_returns cfg RandomStrategy GreedyExpansionStrategy
                Hsa Hsd Hab Hak Hdb Hdk random_strategy_numeric Hgreedy
                random_strategy_raises_nothing Hzero
                (seq, 0%nat) tt tt ((seq, 0%nat), tt) ((seq, 0%nat), tt)
                eq_refl eq_refl)
      as (fuel0 & r & m & Hrun & Hw & Ht & _).
    exists fuel0, r, m. auto.
Qed.

(** The default settings and the draws 0, 1, 2, ... *)
Lemma random_against_greedy_completes_witness :
  exists fuel0 r m,
    (forall fuel, (fuel0 <= fuel)%nat ->
       run fuel settings RandomStrategy GreedyExpansionStrategy
         (fun n => n, 0%nat) tt tt = Ret (r, m))
    /\ (winner r = Some "player1"%string
        \/ winner r = Some "player2"%string
        \/ winner r = Some "draw"%string)
    /\ 0 <= turns r <= Z.max 0 (MAX_TURNS settings).
Proof.
  apply (random_against_greedy_completes settings (fun n => n));
    simpl; lia.
Defined.
